(** * The calendar allocation engine of the curriculum planner

    A shallow embedding of [utils/scheduling]: the instructional-day
    statistics, the week picker, the week-plan builder and the lesson
    packer, followed by the properties of these four functions. *)

From Stdlib Require Import ZArith QArith Qround Lia.
From stdpp Require Import base list strings pretty gmap sorting.

Local Open Scope Z_scope.

(** ** Dates

    A JavaScript [Date] is a time value in milliseconds, or the invalid
    date ([new Date(NaN)]).  date-fns reads and moves dates on the local
    wall clock; the time values below are wall-clock milliseconds of the
    local zone (a zone with a fixed offset), counted from the local
    midnight of 1970-01-01, a Thursday.

    Where a zone changes its offset, date-fns keeps the local clock time
    and moves a time that the change skips to the end of the skipped
    hour.  The time of day of a date that the program computes can then
    differ from the one computed here; the calendar day it falls on does
    not.  The dates that are generated are therefore described by their
    calendar days. *)

Inductive Date :=
  | InvalidDate
  | Time (t : Z).

Definition isValid (d : Date) : bool :=
  match d with
  | Time _ => true
  | InvalidDate => false
  end.

Definition MS_PER_DAY : Z := 86400000.

(** The calendar day a time value falls on, in days since 1970-01-01. *)
Definition dayIndex (t : Z) : Z := t / MS_PER_DAY.

Definition startOfDay (t : Z) : Z := t - t mod MS_PER_DAY.

Definition endOfDay (t : Z) : Z := startOfDay t + (MS_PER_DAY - 1).

Definition addDays (t amount : Z) : Z := t + amount * MS_PER_DAY.

(** 0 is Sunday, 6 is Saturday. *)
Definition getDay (t : Z) : Z := (dayIndex t + 4) mod 7.

Definition isBefore (a b : Z) : bool := a <? b.

Definition isAfter (a b : Z) : bool := b <? a.

Definition differenceInCalendarDays (later earlier : Z) : Z :=
  dayIndex later - dayIndex earlier.

(** [eachDayOfInterval {start, end}]: the start of every day from the day
    of [start] to the day of [end]. *)
Definition eachDayOfInterval (start end_ : Z) : list Z :=
  (fun k : nat => addDays (startOfDay start) (Z.of_nat k))
    <$> seq 0 (Z.to_nat (dayIndex end_ - dayIndex start + 1)).

(** [format(d, 'yyyy-MM-dd')] names the calendar day of [d] and nothing
    else; the source only ever compares two such strings, and the model
    keeps the day they name. *)
Definition format_ymd (t : Z) : Z := dayIndex t.

(** The civil date (year, month 1..12, day of month) of a day index. *)
Definition civil (days : Z) : Z * Z * Z :=
  let z := days + 719468 in
  let era := z / 146097 in
  let doe := z mod 146097 in
  let yoe := (doe - doe / 1460 + doe / 36524 - doe / 146096) / 365 in
  let doy := doe - (365 * yoe + yoe / 4 - yoe / 100) in
  let mp := (5 * doy + 2) / 153 in
  let d := doy - (153 * mp + 2) / 5 + 1 in
  let m := if mp <? 10 then mp + 3 else mp - 9 in
  (yoe + era * 400 + (if m <=? 2 then 1 else 0), m, d).

Definition monthNames : list string :=
  ["Jan"; "Feb"; "Mar"; "Apr"; "May"; "Jun";
   "Jul"; "Aug"; "Sep"; "Oct"; "Nov"; "Dec"]%string.

Definition dayNames : list string :=
  ["Sunday"; "Monday"; "Tuesday"; "Wednesday"; "Thursday"; "Friday";
   "Saturday"]%string.

(** [format(d, 'MMM d')] *)
Definition format_MMMd (t : Z) : string :=
  let '(_, m, d) := civil (dayIndex t) in
  (default "" (monthNames !! Z.to_nat (m - 1)) +:+ " " +:+ pretty d)%string.

(** [format(d, 'EEEE')] *)
Definition format_EEEE (t : Z) : string :=
  default ""%string (dayNames !! Z.to_nat (getDay t)).

(** ** JavaScript values *)

(** [!!x] and [x || y] on a value that is an object or [undefined]. *)
Definition truthy {A} (o : option A) : bool :=
  match o with
  | Some _ => true
  | None => false
  end.

(** A string is falsy exactly when it is empty. *)
Definition nonEmpty (s : string) : bool :=
  match s with
  | EmptyString => false
  | String _ _ => true
  end.

(** [a || b] where both sides are a string or [undefined]. *)
Definition orElse (a b : option string) : option string :=
  match a with
  | Some s => if nonEmpty s then a else b
  | None => b
  end.

(** A number: NaN, an infinity, or a finite value.  Every finite double
    is a rational, and comparing a counter with it is exact. *)
Inductive JSNumber :=
  | NaN
  | Infinite (negative : bool)
  | Finite (q : Q).

(** [x || 1] on a number: zero and NaN are falsy. *)
Definition orOne (x : JSNumber) : JSNumber :=
  match x with
  | NaN => Finite 1
  | Infinite _ => x
  | Finite q => if Qeq_bool q 0 then Finite 1 else x
  end.

(** [n >= x] for an integer [n]. *)
Definition geNumber (n : Z) (x : JSNumber) : bool :=
  match x with
  | NaN => false
  | Infinite negative => negative
  | Finite q => Qle_bool q (inject_Z n)
  end.

(** ** The records of [types.ts] *)

Inductive BlockType := Exam | Revision | Event | Holiday | Meeting.

Module BlockedDate.
Record t := mk {
  date : string;
  label : string;
  type : BlockType
}.
End BlockedDate.

(** [weekNumber] is compared with the integer [rawWeekCounter] only; a
    number that is not an integer matches no week, as an integer below 1
    does. *)
Module BlockedWeek.
Record t := mk {
  weekNumber : Z;
  label : string;
  type : BlockType;
  excludeFromCount : bool
}.
End BlockedWeek.

Module Lesson.
Record t := mk {
  id : string;
  name : string;
  ccss : string;
  pacing : JSNumber
}.
End Lesson.

Module DayPlan.
(** [date] holds the instant that [toISOString] prints and that
    [new Date] reads back. *)
Record t := mk {
  date : Z;
  dayName : string;
  isBlocked : bool;
  blockLabel : option string;
  lessonId : option string;
  lessonName : option string
}.
End DayPlan.

Module WeekPlan.
Record t := mk {
  weekNumber : option Z;
  displayWeekLabel : string;
  dates : string;
  days : list DayPlan.t;
  isBlocked : bool;
  blockLabel : option string
}.
End WeekPlan.

(** School week: Sunday (0) to Thursday (4) *)
Definition SCHOOL_DAYS : list Z := [0; 1; 2; 3; 4].

Definition includes (l : list Z) (x : Z) : bool := existsb (Z.eqb x) l.

(** ** The calendar functions *)

Section Scheduling.

(** [new Date(s)] on a string, as the host parses it. *)
Variable newDate : string -> Date.

(** The [date] of an exclusion is a string, so the [instanceof Date]
    branch is not taken; [new Date] on a string does not throw. *)
Definition parseISOIfNeeded (date : string) : Date :=
  let d := newDate date in
  if isValid d then d else InvalidDate.

(** The callback of [blockedDates.find] in [generateEmptyWeeks]. *)
Definition matchesDate (dateStr : Z) (b : BlockedDate.t) : bool :=
  match parseISOIfNeeded (BlockedDate.date b) with
  | Time d => format_ymd d =? dateStr
  | InvalidDate => false
  end.

Definition matchesWeek (n : Z) (bw : BlockedWeek.t) : bool :=
  BlockedWeek.weekNumber bw =? n.

(** Sunday of the first week: [while (getDay(d) !== 0) d = addDays(d, -1)];
    six steps back reach a Sunday from any day. *)
Fixpoint alignToSunday (fuel : nat) (d : Z) : Z :=
  match fuel with
  | O => d
  | S fuel' => if getDay d =? 0 then d else alignToSunday fuel' (addDays d (-1))
  end.

Definition firstSundayOf (start : Z) : Z := alignToSunday 6 (startOfDay start).

Section Weeks.
Variables (start finish : Z).
Variable blockedDates : list BlockedDate.t.
Variable blockedWeeks : list BlockedWeek.t.

(** The [for (let i = 0; i < 7; i++)] loop of one week; [n] counts the
    iterations that are left. *)
Fixpoint weekDaysLoop (weekStart : Z) (weekBlock : option BlockedWeek.t)
    (n : nat) (i : Z) : list DayPlan.t :=
  match n with
  | O => []
  | S n' =>
    let day := addDays weekStart i in
    if isAfter day finish then []
    else if isBefore day (startOfDay start)
    then weekDaysLoop weekStart weekBlock n' (i + 1)
    else
      let dNum := getDay day in
      let pushed :=
        if includes SCHOOL_DAYS dNum then
          let dateStr := format_ymd day in
          let dateBlock := List.find (matchesDate dateStr) blockedDates in
          [ {| DayPlan.date := day;
               DayPlan.dayName := format_EEEE day;
               DayPlan.isBlocked := truthy weekBlock || truthy dateBlock;
               DayPlan.blockLabel :=
                 orElse (BlockedWeek.label <$> weekBlock)
                        (BlockedDate.label <$> dateBlock);
               DayPlan.lessonId := None;
               DayPlan.lessonName := None |} ]
        else [] in
      if dNum =? 4 then pushed
      else pushed ++ weekDaysLoop weekStart weekBlock n' (i + 1)
  end.

(** The body of the [while] loop once the days of the week are
    collected: the week that is pushed, if any, and the value of
    [instructionalWeekCounter] afterwards. *)
Definition buildWeek (weekBlock : option BlockedWeek.t)
    (weekDays : list DayPlan.t) (instructionalWeekCounter : Z)
    : option WeekPlan.t * Z :=
  match weekDays, last weekDays with
  | first :: _, Some final =>
    let excluded :=
      match weekBlock with
      | Some wb => BlockedWeek.excludeFromCount wb
      | None => false
      end in
    let displayWeekLabel :=
      if excluded then
        match weekBlock with
        | Some wb =>
          if nonEmpty (BlockedWeek.label wb) then BlockedWeek.label wb
          else "Holiday Break"%string
        | None => "Holiday Break"%string
        end
      else ("Week " +:+ pretty instructionalWeekCounter)%string in
    (Some {| WeekPlan.weekNumber :=
               if excluded then None else Some instructionalWeekCounter;
             WeekPlan.displayWeekLabel := displayWeekLabel;
             WeekPlan.dates :=
               (format_MMMd (DayPlan.date first) +:+ " - "
                +:+ format_MMMd (DayPlan.date final))%string;
             WeekPlan.days := weekDays;
             WeekPlan.isBlocked := truthy weekBlock;
             WeekPlan.blockLabel := BlockedWeek.label <$> weekBlock |},
     if excluded then instructionalWeekCounter
     else instructionalWeekCounter + 1)
  | _, _ => (None, instructionalWeekCounter)
  end.

(** The [while (isBefore(weekStart, finish))] loop.  Every week that is
    pushed is paired with the value [rawWeekCounter] had at that
    moment. *)
Fixpoint weeksLoop (fuel : nat)
    (weekStart rawWeekCounter instructionalWeekCounter : Z)
    : list (Z * WeekPlan.t) :=
  match fuel with
  | O => []
  | S fuel' =>
    if isBefore weekStart finish then
      let weekBlock := List.find (matchesWeek rawWeekCounter) blockedWeeks in
      let weekDays := weekDaysLoop weekStart weekBlock 7 0 in
      let '(pushed, counter) :=
        buildWeek weekBlock weekDays instructionalWeekCounter in
      match pushed with
      | Some week =>
        (rawWeekCounter, week)
        :: weeksLoop fuel' (addDays weekStart 7) (rawWeekCounter + 1) counter
      | None =>
        weeksLoop fuel' (addDays weekStart 7) (rawWeekCounter + 1) counter
      end
    else []
  end.

End Weeks.

(** Iterations that suffice for a loop that starts at [from], advances by
    a week and runs while it is before [finish]. *)
Definition weeksFuel (from finish : Z) : nat :=
  Z.to_nat ((finish - from) / (7 * MS_PER_DAY) + 1).

Definition generateEmptyWeeksRaw (start end_ : Date)
    (blockedDates : list BlockedDate.t) (blockedWeeks : list BlockedWeek.t)
    : list (Z * WeekPlan.t) :=
  match start, end_ with
  | Time s, Time e =>
    let finish := endOfDay e in
    let weekStart := firstSundayOf s in
    weeksLoop s finish blockedDates blockedWeeks
      (weeksFuel weekStart finish) weekStart 1 1
  | _, _ => []
  end.

Definition generateEmptyWeeks (start end_ : Date)
    (blockedDates : list BlockedDate.t) (blockedWeeks : list BlockedWeek.t)
    : list WeekPlan.t :=
  (generateEmptyWeeksRaw start end_ blockedDates blockedWeeks).*2.

(** [getWeekNum] of [calculateInstructionalStats]: the raw week of a
    date, counted from the Sunday of the week of [start]. *)
Definition getWeekNum (start date : Z) : Z :=
  let firstSunday := firstSundayOf start in
  let diff := differenceInCalendarDays (startOfDay date) firstSunday in
  diff / 7 + 1.

Record Stats := mkStats { totalDays : Z; totalWeeks : Z }.

Definition blockedDateStrings (blockedDates : list BlockedDate.t) : gset Z :=
  list_to_set
    (omap (fun bd =>
             match parseISOIfNeeded (BlockedDate.date bd) with
             | Time d => Some (format_ymd d)
             | InvalidDate => None
             end) blockedDates).

Definition isAvailable (start : Z) (blockedDates : list BlockedDate.t)
    (blockedWeeks : list BlockedWeek.t) (day : Z) : bool :=
  let dateStr := format_ymd day in
  if bool_decide (dateStr ∈ blockedDateStrings blockedDates) then false
  else
    let weekNum := getWeekNum start day in
    let isWeekBlocked := existsb (matchesWeek weekNum) blockedWeeks in
    negb isWeekBlocked.

(** The array [availableDays] of [calculateInstructionalStats], for a
    range that passed the guard. *)
Definition availableDays (s e : Z) (blockedDates : list BlockedDate.t)
    (blockedWeeks : list BlockedWeek.t) : list Z :=
  let allDays := eachDayOfInterval (startOfDay s) (endOfDay e) in
  let schoolDays :=
    List.filter (fun d => includes SCHOOL_DAYS (getDay d)) allDays in
  List.filter (isAvailable s blockedDates blockedWeeks) schoolDays.

Definition calculateInstructionalStats (start end_ : Date)
    (blockedDates : list BlockedDate.t) (blockedWeeks : list BlockedWeek.t)
    : Stats :=
  match start, end_ with
  | Time s, Time e =>
    if isAfter s e then mkStats 0 0
    else
      let n := Z.of_nat (length (availableDays s e blockedDates blockedWeeks)) in
      mkStats n ((n + 4) / 5)
  | _, _ => mkStats 0 0
  end.

Record WeekRange := mkRange { weekNumber : Z; range : string }.

(** The [while (isBefore(current, finish))] loop of [getWeekDateRanges]. *)
Fixpoint rangesLoop (start finish : Z) (fuel : nat) (current weekCounter : Z)
    : list WeekRange :=
  match fuel with
  | O => []
  | S fuel' =>
    if isBefore current finish then
      let weekStart := current in
      let weekEnd := addDays weekStart 4 in
      let overlaps :=
        negb (isAfter weekStart finish)
        && negb (isBefore weekEnd (startOfDay start)) in
      (if overlaps then
         [ {| weekNumber := weekCounter;
              range := (format_MMMd weekStart +:+ " - "
                        +:+ format_MMMd weekEnd)%string |} ]
       else [])
      ++ rangesLoop start finish fuel' (addDays weekStart 7) (weekCounter + 1)
    else []
  end.

Definition getWeekDateRanges (start end_ : Date) : list WeekRange :=
  match start, end_ with
  | Time s, Time e =>
    let current := firstSundayOf s in
    let finish := endOfDay e in
    rangesLoop s finish (weeksFuel current finish) current 1
  | _, _ => []
  end.

End Scheduling.

(** ** The lesson packer *)

(** The two cursors of [distributeLessons]. *)
Record Cursor := mkCursor { lessonIdx : nat; dayInLessonCounter : Z }.

(** The body of the inner loop, for one day.  [pacing] is a number, on
    which [Number] is the identity. *)
Definition packDay (lessons : list Lesson.t) (c : Cursor) (day : DayPlan.t)
    : Cursor * DayPlan.t :=
  let day := {| DayPlan.date := DayPlan.date day;
                DayPlan.dayName := DayPlan.dayName day;
                DayPlan.isBlocked := DayPlan.isBlocked day;
                DayPlan.blockLabel := DayPlan.blockLabel day;
                DayPlan.lessonId := None;
                DayPlan.lessonName := None |} in
  if DayPlan.isBlocked day then (c, day)
  else
    match lessons !! lessonIdx c with
    | None => (c, day)
    | Some currentLesson =>
      let day := {| DayPlan.date := DayPlan.date day;
                    DayPlan.dayName := DayPlan.dayName day;
                    DayPlan.isBlocked := DayPlan.isBlocked day;
                    DayPlan.blockLabel := DayPlan.blockLabel day;
                    DayPlan.lessonId := Some (Lesson.id currentLesson);
                    DayPlan.lessonName := Some (Lesson.name currentLesson) |} in
      let counter := dayInLessonCounter c + 1 in
      if geNumber counter (orOne (Lesson.pacing currentLesson))
      then (mkCursor (S (lessonIdx c)) 0, day)
      else (mkCursor (lessonIdx c) counter, day)
    end.

(** [for (const day of week.days)] *)
Fixpoint packDays (lessons : list Lesson.t) (c : Cursor) (days : list DayPlan.t)
    : Cursor * list DayPlan.t :=
  match days with
  | [] => (c, [])
  | day :: rest =>
    let '(c1, day') := packDay lessons c day in
    let '(c2, rest') := packDays lessons c1 rest in
    (c2, day' :: rest')
  end.

(** A week object whose array of days holds other day objects. *)
Definition withDays (week : WeekPlan.t) (days : list DayPlan.t) : WeekPlan.t :=
  {| WeekPlan.weekNumber := WeekPlan.weekNumber week;
     WeekPlan.displayWeekLabel := WeekPlan.displayWeekLabel week;
     WeekPlan.dates := WeekPlan.dates week;
     WeekPlan.days := days;
     WeekPlan.isBlocked := WeekPlan.isBlocked week;
     WeekPlan.blockLabel := WeekPlan.blockLabel week |}.

(** [for (const week of updatedWeeks)] *)
Fixpoint packWeeks (lessons : list Lesson.t) (c : Cursor) (weeks : list WeekPlan.t)
    : Cursor * list WeekPlan.t :=
  match weeks with
  | [] => (c, [])
  | week :: rest =>
    let '(c1, days') := packDays lessons c (WeekPlan.days week) in
    let '(c2, rest') := packWeeks lessons c1 rest in
    (c2, withDays week days' :: rest')
  end.

(** On values the JSON round trip of the source is the identity: every
    field of a week plan is a string, a boolean, an integer, [null] or
    absent.  The copy as an allocation of fresh objects is in [Heap]. *)
Definition distributeLessons (weeks : list WeekPlan.t) (lessons : list Lesson.t)
    : list WeekPlan.t :=
  (packWeeks lessons (mkCursor 0 0) weeks).2.

(** The day plans that can take a lesson, in chronological order. *)
Definition unblockedDays (weeks : list WeekPlan.t) : list DayPlan.t :=
  List.filter (fun d => negb (DayPlan.isBlocked d))
              (flat_map WeekPlan.days weeks).

(** The days that carry the id of a lesson: its [assignedDays]. *)
Definition carries (lessonId : string) (d : DayPlan.t) : bool :=
  bool_decide (DayPlan.lessonId d = Some lessonId).

Definition assignedDays (lessonId : string) (weeks : list WeekPlan.t)
    : list DayPlan.t :=
  List.filter (carries lessonId) (flat_map WeekPlan.days weeks).

(** ** What the packer is expected to produce *)

(** The days a lesson takes when the counter stands at [counter] and [n]
    unblocked days are left: days are taken until the counter reaches
    the threshold, or until none is left. *)
Fixpoint taken (pacing : JSNumber) (counter : Z) (n : nat) : nat :=
  match n with
  | O => O
  | S n' =>
    if geNumber (counter + 1) (orOne pacing) then 1%nat
    else S (taken pacing (counter + 1) n')
  end.

(** The lesson ids of [n] unblocked days in a row. *)
Fixpoint plan (counter : Z) (lessons : list Lesson.t) (n : nat)
    : list (option string) :=
  match lessons with
  | [] => replicate n None
  | l :: rest =>
    let t := taken (Lesson.pacing l) counter n in
    replicate t (Some (Lesson.id l)) ++ plan 0 rest (n - t)
  end.

(** The days that a list of lessons takes out of [n]. *)
Fixpoint usedBy (lessons : list Lesson.t) (n : nat) : nat :=
  match lessons with
  | [] => O
  | l :: rest =>
    let t := taken (Lesson.pacing l) 0 n in
    (t + usedBy rest (n - t))%nat
  end.

(** A pacing that is a positive integer, and the number of days it asks
    for. *)
Definition positiveInteger (x : JSNumber) : Prop :=
  match x with
  | Finite q => exists p : Z, 0 < p /\ (q == inject_Z p)%Q
  | _ => False
  end.

Definition pacingDays (l : Lesson.t) : nat :=
  match Lesson.pacing l with
  | Finite q => Z.to_nat (Qfloor q)
  | _ => O
  end.

(** A pacing that is not a number, or below one: zero, negative, or a
    fraction between 0 and 1. *)
Definition belowOne (x : JSNumber) : Prop :=
  match x with
  | NaN => True
  | Infinite negative => negative = true
  | Finite q => (q < 1)%Q
  end.

(** The days that carry the id of one of several lessons. *)
Definition carriesOneOf (lessonIds : list string) (d : DayPlan.t) : bool :=
  match DayPlan.lessonId d with
  | Some x => bool_decide (x ∈ lessonIds)
  | None => false
  end.

Definition assignedAmong (lessonIds : list string) (weeks : list WeekPlan.t)
    : list DayPlan.t :=
  List.filter (carriesOneOf lessonIds) (flat_map WeekPlan.days weeks).

(** ** The packer on objects

    [distributeLessons] copies its argument with
    [JSON.parse(JSON.stringify(weeks))] and then assigns to the fields of
    the day objects of the copy.  Here the week plans live in a store of
    objects: an array of references to week objects, each with a
    reference to an array of references to day objects. *)

Module Heap.

Inductive cell :=
  | DayObj (day : DayPlan.t)
  | WeekObj (weekNumber : option Z) (displayWeekLabel dates : string)
            (days : positive) (isBlocked : bool) (blockLabel : option string)
  | ArrayObj (items : list positive).

Abbreviation heap := (gmap positive cell).

(** [JSON.stringify]: the value that a reference stands for. *)
Definition readDay (h : heap) (l : positive) : option DayPlan.t :=
  match h !! l with
  | Some (DayObj day) => Some day
  | _ => None
  end.

Definition readDays (h : heap) (l : positive) : option (list DayPlan.t) :=
  match h !! l with
  | Some (ArrayObj items) => mapM (readDay h) items
  | _ => None
  end.

Definition readWeek (h : heap) (l : positive) : option WeekPlan.t :=
  match h !! l with
  | Some (WeekObj n label dates daysRef blocked blockLabel) =>
    days ← readDays h daysRef;
    Some (WeekPlan.mk n label dates days blocked blockLabel)
  | _ => None
  end.

Definition readWeeks (h : heap) (l : positive) : option (list WeekPlan.t) :=
  match h !! l with
  | Some (ArrayObj items) => mapM (readWeek h) items
  | _ => None
  end.

(** A new object takes a reference that the store does not hold yet. *)
Definition alloc (h : heap) (c : cell) : heap * positive :=
  let l := fresh (dom h) in (<[l := c]> h, l).

(** [JSON.parse]: new objects for a value. *)
Fixpoint allocDayList (h : heap) (days : list DayPlan.t) : heap * list positive :=
  match days with
  | [] => (h, [])
  | day :: rest =>
    let '(h1, l) := alloc h (DayObj day) in
    let '(h2, ls) := allocDayList h1 rest in
    (h2, l :: ls)
  end.

Definition allocDays (h : heap) (days : list DayPlan.t) : heap * positive :=
  let '(h1, ls) := allocDayList h days in
  alloc h1 (ArrayObj ls).

Definition allocWeek (h : heap) (w : WeekPlan.t) : heap * positive :=
  let '(h1, daysRef) := allocDays h (WeekPlan.days w) in
  alloc h1 (WeekObj (WeekPlan.weekNumber w) (WeekPlan.displayWeekLabel w)
                    (WeekPlan.dates w) daysRef (WeekPlan.isBlocked w)
                    (WeekPlan.blockLabel w)).

Fixpoint allocWeekList (h : heap) (weeks : list WeekPlan.t) : heap * list positive :=
  match weeks with
  | [] => (h, [])
  | w :: rest =>
    let '(h1, l) := allocWeek h w in
    let '(h2, ls) := allocWeekList h1 rest in
    (h2, l :: ls)
  end.

Definition allocWeeks (h : heap) (weeks : list WeekPlan.t) : heap * positive :=
  let '(h1, ls) := allocWeekList h weeks in
  alloc h1 (ArrayObj ls).

(** [JSON.parse(JSON.stringify(weeks))] *)
Definition jsonCopy (h : heap) (weeks : positive) : option (heap * positive) :=
  value ← readWeeks h weeks;
  Some (allocWeeks h value).

(** The assignments to the fields of one day object. *)
Definition packDayAt (lessons : list Lesson.t) (c : Cursor) (h : heap)
    (l : positive) : option (Cursor * heap) :=
  day ← readDay h l;
  let '(c', day') := packDay lessons c day in
  Some (c', <[l := DayObj day']> h).

Fixpoint packDaysAt (lessons : list Lesson.t) (c : Cursor) (h : heap)
    (items : list positive) : option (Cursor * heap) :=
  match items with
  | [] => Some (c, h)
  | l :: rest =>
    '(c1, h1) ← packDayAt lessons c h l;
    packDaysAt lessons c1 h1 rest
  end.

Definition packWeekAt (lessons : list Lesson.t) (c : Cursor) (h : heap)
    (l : positive) : option (Cursor * heap) :=
  match h !! l with
  | Some (WeekObj _ _ _ daysRef _ _) =>
    match h !! daysRef with
    | Some (ArrayObj items) => packDaysAt lessons c h items
    | _ => None
    end
  | _ => None
  end.

Fixpoint packWeeksAt (lessons : list Lesson.t) (c : Cursor) (h : heap)
    (items : list positive) : option (Cursor * heap) :=
  match items with
  | [] => Some (c, h)
  | l :: rest =>
    '(c1, h1) ← packWeekAt lessons c h l;
    packWeeksAt lessons c1 h1 rest
  end.

(** [distributeLessons] on the store: the store afterwards and the
    reference it returns. *)
Definition distributeLessonsAt (h : heap) (weeks : positive)
    (lessons : list Lesson.t) : option (heap * positive) :=
  '(h1, updatedWeeks) ← jsonCopy h weeks;
  match h1 !! updatedWeeks with
  | Some (ArrayObj items) =>
    '(_, h2) ← packWeeksAt lessons (mkCursor 0 0) h1 items;
    Some (h2, updatedWeeks)
  | _ => None
  end.

(** The objects that can be reached from a reference. *)
Definition locsDays (h : heap) (l : positive) : list positive :=
  l :: match h !! l with
       | Some (ArrayObj items) => items
       | _ => []
       end.

Definition locsWeek (h : heap) (l : positive) : list positive :=
  l :: match h !! l with
       | Some (WeekObj _ _ _ daysRef _ _) => locsDays h daysRef
       | _ => []
       end.

Definition locsWeeks (h : heap) (l : positive) : list positive :=
  l :: match h !! l with
       | Some (ArrayObj items) => flat_map (locsWeek h) items
       | _ => []
       end.

End Heap.

(** ** What the loops build, week by week *)

(** Whether the matched week exclusion, if any, removes the week from the
    numbering: [weekBlock && weekBlock.excludeFromCount]. *)
Definition excludedFromCount (weekBlock : option BlockedWeek.t) : bool :=
  match weekBlock with
  | Some wb => BlockedWeek.excludeFromCount wb
  | None => false
  end.

Section WeekCells.
Variable newDate : string -> Date.
Variables (s e : Z).
Variable blockedDates : list BlockedDate.t.
Variable blockedWeeks : list BlockedWeek.t.

(** The day plan that the week loop pushes for a school day. *)
Definition dayPlanAt (weekBlock : option BlockedWeek.t) (day : Z) : DayPlan.t :=
  let dateBlock := List.find (matchesDate newDate (format_ymd day)) blockedDates in
  {| DayPlan.date := day;
     DayPlan.dayName := format_EEEE day;
     DayPlan.isBlocked := truthy weekBlock || truthy dateBlock;
     DayPlan.blockLabel :=
       orElse (BlockedWeek.label <$> weekBlock) (BlockedDate.label <$> dateBlock);
     DayPlan.lessonId := None;
     DayPlan.lessonName := None |}.

Definition inRange (d : Z) : bool := (dayIndex s <=? d) && (d <=? dayIndex e).

(** What day [i] of the week that starts on day [W] contributes. *)
Definition dayCell (W : Z) (weekBlock : option BlockedWeek.t) (i : Z)
    : list DayPlan.t :=
  if inRange (W + i) then [dayPlanAt weekBlock ((W + i) * MS_PER_DAY)] else [].

(** The day index of the Sunday on or before the start. *)
Definition sunday0 : Z := dayIndex s - getDay s.

(** The week that the loop builds for raw week [r]. *)
Definition weekOf (r c : Z) : option WeekPlan.t * Z :=
  let wb := List.find (matchesWeek r) blockedWeeks in
  buildWeek wb
    (flat_map (dayCell (sunday0 + 7 * (r - 1)) wb) (seqZ 0 5)) c.

(** A day index that [calculateInstructionalStats] counts. *)
Definition counted (d : Z) : bool :=
  inRange d
  && includes SCHOOL_DAYS (getDay (d * MS_PER_DAY))
  && isAvailable newDate s blockedDates blockedWeeks (d * MS_PER_DAY).

Definition selected (l : list Z) : list Z :=
  flat_map (fun d => if counted d then [d * MS_PER_DAY] else []) l.

End WeekCells.

(** The days among [ids] that carry a lesson id, or one of several. *)
Definition countId (lessonId : string) (ids : list (option string)) : nat :=
  length (List.filter (fun x => bool_decide (x = Some lessonId)) ids).

Definition countAmong (lessonIds : list string) (ids : list (option string))
    : nat :=
  length (List.filter
            (fun x => match x with
                      | Some y => bool_decide (y ∈ lessonIds)
                      | None => false
                      end) ids).

(** ** Inputs of the examples

    The first week of September 2024; 1 September 2024 is a Sunday.  The
    host of the examples is in the UTC zone, where [new Date] reads a
    date-only string as the local midnight of that day. *)

Definition sep (day : Z) : Z := 1725148800000 + (day - 1) * MS_PER_DAY.

Definition hostDate (text : string) : Date :=
  if String.eqb text "2024-09-01" then Time (sep 1)
  else if String.eqb text "2024-09-03" then Time (sep 3)
  else InvalidDate.

Definition examSep1 : BlockedDate.t := BlockedDate.mk "2024-09-01" "Exam" Exam.
Definition examSep3 : BlockedDate.t := BlockedDate.mk "2024-09-03" "Exam" Exam.

Definition unnamedBreak : BlockedWeek.t := BlockedWeek.mk 1 "" Holiday true.
Definition revisionWeek : BlockedWeek.t :=
  BlockedWeek.mk 1 "Revision Week" Revision false.
Definition springBreak : BlockedWeek.t := BlockedWeek.mk 1 "Break" Holiday true.
Definition secondWeekOff : BlockedWeek.t := BlockedWeek.mk 2 "Break" Holiday true.

Definition emptyWeek : WeekPlan.t := WeekPlan.mk None "" "" [] false None.
Definition emptyDay : DayPlan.t := DayPlan.mk 0 "" false None None None.

(** One Sunday, with an exam on it and a week exclusion without label. *)
Definition examSunday : list (Z * WeekPlan.t) :=
  generateEmptyWeeksRaw hostDate (Time (sep 1)) (Time (sep 1))
    [examSep1] [unnamedBreak].

Definition examSundayWeek : WeekPlan.t :=
  Eval vm_compute in (default (0, emptyWeek) (head examSunday)).2.

Definition examSundayDay : DayPlan.t :=
  Eval vm_compute in default emptyDay (head (WeekPlan.days examSundayWeek)).

(** One Sunday, in a raw week that two exclusions name. *)
Definition twiceExcluded : list (Z * WeekPlan.t) :=
  generateEmptyWeeksRaw hostDate (Time (sep 1)) (Time (sep 1))
    [] [revisionWeek; springBreak].

Definition twiceExcludedWeek : WeekPlan.t :=
  Eval vm_compute in (default (0, emptyWeek) (head twiceExcluded)).2.

(** Sunday to Thursday, with an exam on the Tuesday. *)
Definition examTuesday : list (Z * WeekPlan.t) :=
  generateEmptyWeeksRaw hostDate (Time (sep 1)) (Time (sep 5)) [examSep3] [].

Definition examTuesdayWeek : WeekPlan.t :=
  Eval vm_compute in (default (0, emptyWeek) (head examTuesday)).2.

Definition tuesday : DayPlan.t :=
  Eval vm_compute in default emptyDay (WeekPlan.days examTuesdayWeek !! 2%nat).

Definition linearEquations : Lesson.t :=
  Lesson.mk "l1" "Linear Equations" "HSA.REI.B.3" (Finite 2).
Definition inequalities : Lesson.t :=
  Lesson.mk "l2" "Solving Inequalities" "HSA.REI.B.3" (Finite 3).
Definition warmUp : Lesson.t :=
  Lesson.mk "l0" "Warm-up" "" (Finite (1 # 2)).

(** A store with one week of one day: the array of weeks at 1, the week
    at 2, its array of days at 3 and the day at 4. *)
Definition sundayPlan : DayPlan.t :=
  DayPlan.mk (sep 1) "Sunday" false None None None.

Definition sundayWeek : WeekPlan.t :=
  WeekPlan.mk (Some 1) "Week 1" "Sep 1 - Sep 1" [sundayPlan] false None.

Definition sundayStore : Heap.heap :=
  <[1%positive := Heap.ArrayObj [2%positive]]>
    (<[2%positive := Heap.WeekObj (Some 1) "Week 1" "Sep 1 - Sep 1"
                       3%positive false None]>
       (<[3%positive := Heap.ArrayObj [4%positive]]>
          (<[4%positive := Heap.DayObj sundayPlan]> ∅))).

(** ** The school days of a range *)

Definition schoolDay (d : Z) : bool :=
  includes SCHOOL_DAYS (getDay (d * MS_PER_DAY)).

(** The time values that the days from the day of [s] to the day of [e]
    on Sunday to Thursday have on the clock of the model, in calendar
    order. *)
Definition schoolDaysOf (s e : Z) : list Z :=
  (fun d => d * MS_PER_DAY)
    <$> List.filter schoolDay (seqZ (dayIndex s) (dayIndex e - dayIndex s + 1)).

(** The day indices of [l] that the week loop keeps. *)
Definition kept (s e : Z) (l : list Z) : list Z :=
  flat_map (fun d => if inRange s e d && schoolDay d then [d * MS_PER_DAY] else [])
           l.

(** ** The packer, seen from its callers *)

(** A day plan as the first two assignments of the loop body leave it:
    without lesson. *)
Definition withoutLesson (day : DayPlan.t) : DayPlan.t :=
  {| DayPlan.date := DayPlan.date day;
     DayPlan.dayName := DayPlan.dayName day;
     DayPlan.isBlocked := DayPlan.isBlocked day;
     DayPlan.blockLabel := DayPlan.blockLabel day;
     DayPlan.lessonId := None;
     DayPlan.lessonName := None |}.

Definition withoutLessons (week : WeekPlan.t) : WeekPlan.t :=
  withDays week (withoutLesson <$> WeekPlan.days week).

(** The days a pacing asks for: [None] when the threshold
    [Number(pacing) || 1] is never reached. *)
Definition daysAsked (pacing : JSNumber) : option nat :=
  match pacing with
  | NaN => Some 1%nat
  | Infinite negative => if negative then Some 1%nat else None
  | Finite q => Some (Z.to_nat (Z.max 1 (Qceiling q)))
  end.

(** The days that carry a lesson, whichever it is. *)
Definition assigned (d : DayPlan.t) : bool :=
  match DayPlan.lessonId d with Some _ => true | None => false end.

(** [assignedDays] of the curriculum map, as [runAIGeneration] collects it:
    [filledWeeks.flatMap(w => w.days.filter(d => d.lessonId === l.id)
    .map(d => d.date))]. *)
Definition assignedDates (lessonId : string) (filledWeeks : list WeekPlan.t)
    : list Z :=
  flat_map (fun w => DayPlan.date <$> List.filter (carries lessonId) (WeekPlan.days w))
           filledWeeks.

(** The blocks of lesson ids that [counts] days per lesson make. *)
Definition blocks (lessons : list Lesson.t) (counts : list nat)
    : list (option string) :=
  flat_map (fun '(l, n) => replicate n (Some (Lesson.id l))) (zip lessons counts).

(** Two more lessons for the examples: a pacing of two days and a half,
    and one that never ends. *)
Definition fractions : Lesson.t :=
  Lesson.mk "l3" "Fractions" "6.NS.A.1" (Finite (5 # 2)).
Definition project : Lesson.t :=
  Lesson.mk "l4" "Project" "" (Infinite false).

(** Two school weeks without exclusions. *)
Definition twoWeeks : list WeekPlan.t :=
  generateEmptyWeeks hostDate (Time (sep 1)) (Time (sep 12)) [] [].

(** ** [new Date] on a date-only string

    ECMAScript reads a string of the form YYYY-MM-DD as midnight UTC of
    that day.  On the local clock of a host that is [offset]
    milliseconds ahead of UTC (behind, when [offset] is negative) this
    is the time [offset] past the local midnight of day [day]. *)
Definition utcMidnight (offset day : Z) : Z := day * MS_PER_DAY + offset.

(** [new Date] on a host four hours behind UTC, as New York is in
    September. *)
Definition newYorkDate (text : string) : Date :=
  if String.eqb text "2024-09-03"
  then Time (utcMidnight (-14400000) (dayIndex (sep 3)))
  else InvalidDate.

(** Sunday to Thursday on that host, with an exam dated 3 September. *)
Definition examTuesdayNewYork : list (Z * WeekPlan.t) :=
  generateEmptyWeeksRaw newYorkDate (Time (sep 1)) (Time (sep 5)) [examSep3] [].

Definition examTuesdayNewYorkWeek : WeekPlan.t :=
  Eval vm_compute in (default (0, emptyWeek) (head examTuesdayNewYork)).2.

Definition mondayNewYork : DayPlan.t :=
  Eval vm_compute in
    default emptyDay (WeekPlan.days examTuesdayNewYorkWeek !! 1%nat).

Definition tuesdayNewYork : DayPlan.t :=
  Eval vm_compute in
    default emptyDay (WeekPlan.days examTuesdayNewYorkWeek !! 2%nat).

(** ** Calendar days *)

(** The calendar day of a day plan. *)
Definition calendarDay (d : DayPlan.t) : Z := dayIndex (DayPlan.date d).

(** The days from the day of [s] to the day of [e] that fall on Sunday
    to Thursday, in calendar order. *)
Definition schoolDayIndices (s e : Z) : list Z :=
  List.filter schoolDay (seqZ (dayIndex s) (dayIndex e - dayIndex s + 1)).

(** The time values of a [Date] are at most 8.64e15 milliseconds away
    from the epoch.  The loops step back to a Sunday and forward by
    weeks; two weeks away from both ends they meet no date out of
    range. *)
Definition MAX_TIME : Z := 8640000000000000.

Definition insideDateRange (t : Z) : Prop :=
  - MAX_TIME + 14 * MS_PER_DAY <= t <= MAX_TIME - 14 * MS_PER_DAY.

(** * Properties *)

(** ** Calendar arithmetic *)

Lemma MS_PER_DAY_pos : 0 < MS_PER_DAY.
Proof. reflexivity. Qed.

Lemma dayIndex_mul (d : Z) : dayIndex (d * MS_PER_DAY) = d.
Proof. unfold dayIndex. apply Z.div_mul. discriminate. Qed.

Lemma startOfDay_dayIndex (t : Z) : startOfDay t = dayIndex t * MS_PER_DAY.
Proof.
  unfold startOfDay, dayIndex.
  pose proof (Z.div_mod t MS_PER_DAY) as H. pose proof MS_PER_DAY_pos. lia.
Qed.

Lemma dayIndex_startOfDay (t : Z) : dayIndex (startOfDay t) = dayIndex t.
Proof. rewrite startOfDay_dayIndex. apply dayIndex_mul. Qed.

Lemma addDays_mul (d n : Z) :
  addDays (d * MS_PER_DAY) n = (d + n) * MS_PER_DAY.
Proof. unfold addDays. lia. Qed.

Lemma dayIndex_endOfDay (t : Z) : dayIndex (endOfDay t) = dayIndex t.
Proof.
  unfold endOfDay. rewrite startOfDay_dayIndex. unfold dayIndex.
  generalize (t / MS_PER_DAY). intros d.
  unfold MS_PER_DAY. Z.div_mod_to_equations. lia.
Qed.

Lemma dayIndex_mono (a b : Z) : a <= b -> dayIndex a <= dayIndex b.
Proof. intros H. apply Z.div_le_mono; [reflexivity | exact H]. Qed.

Lemma getDay_mul (d : Z) : getDay (d * MS_PER_DAY) = (d + 4) mod 7.
Proof. unfold getDay. by rewrite dayIndex_mul. Qed.

Lemma getDay_range (t : Z) : 0 <= getDay t < 7.
Proof. unfold getDay. apply Z.mod_pos_bound. lia. Qed.

Lemma isBefore_endOfDay (d e : Z) :
  isBefore (d * MS_PER_DAY) (endOfDay e) = (d <=? dayIndex e).
Proof.
  unfold isBefore, endOfDay. rewrite startOfDay_dayIndex.
  generalize (dayIndex e). intros k. unfold MS_PER_DAY.
  destruct (Z.leb_spec d k); [apply Z.ltb_lt | apply Z.ltb_ge]; lia.
Qed.

Lemma isAfter_endOfDay (d e : Z) :
  isAfter (d * MS_PER_DAY) (endOfDay e) = (dayIndex e <? d).
Proof.
  unfold isAfter, endOfDay. rewrite startOfDay_dayIndex.
  generalize (dayIndex e). intros k. unfold MS_PER_DAY.
  destruct (Z.ltb_spec k d); [apply Z.ltb_lt | apply Z.ltb_ge]; lia.
Qed.

Lemma isBefore_mul (a b : Z) :
  isBefore (a * MS_PER_DAY) (b * MS_PER_DAY) = (a <? b).
Proof.
  unfold isBefore, MS_PER_DAY.
  destruct (Z.ltb_spec a b); [apply Z.ltb_lt | apply Z.ltb_ge]; lia.
Qed.

(** The alignment loop stops on a Sunday within its six iterations. *)
Lemma alignToSunday_spec (fuel : nat) (d : Z) :
  getDay (d * MS_PER_DAY) <= Z.of_nat fuel ->
  alignToSunday fuel (d * MS_PER_DAY)
  = (d - getDay (d * MS_PER_DAY)) * MS_PER_DAY.
Proof.
  revert d. induction fuel as [|fuel IH]; intros d Hle; simpl.
  - pose proof (getDay_range (d * MS_PER_DAY)). f_equal. lia.
  - destruct (Z.eqb_spec (getDay (d * MS_PER_DAY)) 0) as [H0|Hne].
    + rewrite H0. f_equal. lia.
    + pose proof (getDay_range (d * MS_PER_DAY)) as Hr.
      rewrite addDays_mul.
      assert (Hg : getDay ((d + -1) * MS_PER_DAY) = getDay (d * MS_PER_DAY) - 1).
      { rewrite !getDay_mul in *. Z.div_mod_to_equations. lia. }
      rewrite IH; rewrite Hg; [f_equal; lia | lia].
Qed.

Lemma firstSundayOf_spec (s : Z) :
  firstSundayOf s = (dayIndex s - getDay s) * MS_PER_DAY.
Proof.
  unfold firstSundayOf. rewrite startOfDay_dayIndex.
  assert (Hg : getDay (dayIndex s * MS_PER_DAY) = getDay s).
  { unfold getDay. by rewrite dayIndex_mul. }
  rewrite alignToSunday_spec; rewrite Hg; [done|].
  pose proof (getDay_range s). simpl. lia.
Qed.

Lemma firstSundayOf_sunday (s : Z) : getDay (firstSundayOf s) = 0.
Proof.
  rewrite firstSundayOf_spec, getDay_mul. unfold getDay.
  Z.div_mod_to_equations. lia.
Qed.

Ltac case_eqb :=
  match goal with
  | |- context [?a =? ?b] => destruct (Z.eqb_spec a b); simpl; try lia
  end.

Lemma flat_map_nil {A B} (f : A -> list B) (l : list A) :
  (forall x, x ∈ l -> f x = []) -> flat_map f l = [].
Proof.
  induction l as [|x l IH]; intros H; simpl; [done|].
  rewrite H by left. rewrite IH; [done|]. intros y Hy. apply H. by right.
Qed.

(** ** The days of one raw week *)

Section WeekDays.
Variable newDate : string -> Date.
Variables (s e : Z).
Variable blockedDates : list BlockedDate.t.

Lemma dayCell_past (W : Z) wb (i : Z) (n : Z) :
  dayIndex e < W + i -> flat_map (dayCell newDate s e blockedDates W wb) (seqZ i n) = [].
Proof.
  intros Hlt. apply flat_map_nil. intros j Hj.
  apply elem_of_seqZ in Hj. unfold dayCell, inRange.
  replace (W + j <=? dayIndex e) with false by (symmetry; apply Z.leb_gt; lia).
  by rewrite andb_false_r.
Qed.

Lemma weekDaysLoop_spec (W : Z) wb (n : nat) (i : Z) :
  (W + 4) mod 7 = 0 -> 0 <= i -> i + Z.of_nat n = 7 ->
  weekDaysLoop newDate s (endOfDay e) blockedDates (W * MS_PER_DAY) wb n i
  = flat_map (dayCell newDate s e blockedDates W wb) (seqZ i (5 - i)).
Proof.
  intros Hsun. revert i. induction n as [|n IH]; intros i Hi Hn.
  { rewrite seqZ_nil by lia. done. }
  cbn [weekDaysLoop]. rewrite addDays_mul, isAfter_endOfDay.
  rewrite startOfDay_dayIndex, isBefore_mul, getDay_mul.
  destruct (Z.ltb_spec (dayIndex e) (W + i)) as [Hpast|Hnot].
  { by rewrite dayCell_past. }
  assert (Hday : (W + i + 4) mod 7 = i) by (Z.div_mod_to_equations; lia).
  rewrite Hday.
  destruct (Z.ltb_spec (W + i) (dayIndex s)) as [Hearly|Hin].
  - rewrite IH by lia.
    destruct (Z.le_gt_cases 5 i).
    + rewrite !seqZ_nil by lia. done.
    + rewrite (seqZ_cons i) by lia. simpl. unfold dayCell at 2, inRange.
      replace (dayIndex s <=? W + i) with false by (symmetry; apply Z.leb_gt; lia).
      simpl. replace (Z.succ i) with (i + 1) by lia.
      by replace (Z.pred (5 - i)) with (5 - (i + 1)) by lia.
  - assert (Hcell : dayCell newDate s e blockedDates W wb i = [dayPlanAt newDate blockedDates wb ((W + i) * MS_PER_DAY)]).
    { unfold dayCell, inRange.
      by rewrite (proj2 (Z.leb_le _ _) Hin), (proj2 (Z.leb_le _ _) Hnot). }
    destruct (Z.le_gt_cases 5 i).
    + replace (includes SCHOOL_DAYS i) with false.
      2:{ unfold includes, SCHOOL_DAYS. simpl.
          repeat case_eqb; first [done | lia]. }
      replace (i =? 4) with false by (symmetry; apply Z.eqb_neq; lia).
      rewrite IH by lia. rewrite !seqZ_nil by lia. done.
    + replace (includes SCHOOL_DAYS i) with true.
      2:{ unfold includes, SCHOOL_DAYS. simpl.
          repeat case_eqb; first [done | lia]. }
      rewrite (seqZ_cons i) by lia. simpl. rewrite Hcell.
      fold (dayPlanAt newDate blockedDates wb ((W + i) * MS_PER_DAY)).
      destruct (Z.eqb_spec i 4) as [->|Hne].
      * rewrite seqZ_nil by lia. done.
      * rewrite IH by lia. simpl.
        replace (Z.succ i) with (i + 1) by lia.
        by replace (Z.pred (5 - i)) with (5 - (i + 1)) by lia.
Qed.

End WeekDays.

(** ** Array searches *)

Lemma truthy_find {A} (f : A -> bool) (l : list A) :
  truthy (List.find f l) = true <-> exists x, x ∈ l /\ f x = true.
Proof.
  destruct (List.find f l) as [x|] eqn:Hf; simpl.
  - apply find_some in Hf as [Hin Hx]. split; [|done].
    intros _. exists x. by rewrite list_elem_of_In.
  - split; [done|]. intros (x & Hin & Hx).
    apply list_elem_of_In in Hin. by rewrite (find_none _ _ Hf x Hin) in Hx.
Qed.

Lemma find_existsb {A} (f : A -> bool) (l : list A) :
  truthy (List.find f l) = existsb f l.
Proof. induction l as [|x l IH]; simpl; [done|]. by destruct (f x). Qed.

(** ** The week record *)

Lemma buildWeek_some wb (weekDays : list DayPlan.t) (c : Z) :
  weekDays <> [] ->
  exists w,
    buildWeek wb weekDays c
    = (Some w, if excludedFromCount wb then c else c + 1)
    /\ WeekPlan.days w = weekDays
    /\ WeekPlan.weekNumber w = (if excludedFromCount wb then None else Some c).
Proof.
  intros Hne. unfold buildWeek.
  destruct weekDays as [|first rest]; [done|].
  destruct (last (first :: rest)) as [final|] eqn:Hlast.
  - fold (excludedFromCount wb). eexists. split; [reflexivity|]. by split.
  - by apply last_None in Hlast.
Qed.

Lemma buildWeek_inv wb (weekDays : list DayPlan.t) (c : Z) w c' :
  buildWeek wb weekDays c = (Some w, c') ->
  weekDays <> [] /\ WeekPlan.days w = weekDays
  /\ WeekPlan.weekNumber w = (if excludedFromCount wb then None else Some c)
  /\ c' = (if excludedFromCount wb then c else c + 1).
Proof.
  intros H. destruct (decide (weekDays = [])) as [->|Hne]; [done|].
  destruct (buildWeek_some wb weekDays c Hne) as (w' & Hw' & Hd & Hn).
  rewrite Hw' in H. injection H as <- <-. done.
Qed.

Lemma buildWeek_pushed wb (weekDays : list DayPlan.t) (c : Z) :
  (buildWeek wb weekDays c).1 = None <-> weekDays = [].
Proof.
  split.
  - intros H. destruct (decide (weekDays = [])) as [->|Hne]; [done|].
    destruct (buildWeek_some wb weekDays c Hne) as (w' & Hw' & _).
    by rewrite Hw' in H.
  - intros ->. done.
Qed.

(** ** The weeks of a range *)

Section WeeksOfRange.
Variable newDate : string -> Date.
Variables (s e : Z).
Variable blockedDates : list BlockedDate.t.
Variable blockedWeeks : list BlockedWeek.t.

Lemma sunday0_sunday (k : Z) : (sunday0 s + 7 * k + 4) mod 7 = 0.
Proof. unfold sunday0, getDay. Z.div_mod_to_equations. lia. Qed.

Lemma sunday0_le : sunday0 s <= dayIndex s < sunday0 s + 7.
Proof. unfold sunday0. pose proof (getDay_range s). lia. Qed.

Lemma weeksLoop_unfold (fuel : nat) (k c : Z) :
  weeksLoop newDate s (endOfDay e) blockedDates blockedWeeks (S fuel)
    ((sunday0 s + 7 * k) * MS_PER_DAY) (1 + k) c
  = if sunday0 s + 7 * k <=? dayIndex e then
      let rest :=
        weeksLoop newDate s (endOfDay e) blockedDates blockedWeeks fuel
          ((sunday0 s + 7 * (k + 1)) * MS_PER_DAY) (1 + (k + 1))
          (weekOf newDate s e blockedDates blockedWeeks (1 + k) c).2 in
      match (weekOf newDate s e blockedDates blockedWeeks (1 + k) c).1 with
      | Some week => (1 + k, week) :: rest
      | None => rest
      end
    else [].
Proof.
  cbn [weeksLoop]. rewrite isBefore_endOfDay.
  destruct (sunday0 s + 7 * k <=? dayIndex e); [|done].
  rewrite weekDaysLoop_spec by (apply sunday0_sunday || lia).
  unfold weekOf. replace (1 + k - 1) with k by lia.
  rewrite addDays_mul.
  replace (sunday0 s + 7 * k + 7) with (sunday0 s + 7 * (k + 1)) by lia.
  replace (1 + k + 1) with (1 + (k + 1)) by lia.
  by destruct (buildWeek _ _ _) as [[week|] c'].
Qed.

Lemma weeksLoop_elem (fuel : nat) (k c r : Z) (w : WeekPlan.t) :
  0 <= k ->
  (r, w) ∈ weeksLoop newDate s (endOfDay e) blockedDates blockedWeeks fuel
             ((sunday0 s + 7 * k) * MS_PER_DAY) (1 + k) c ->
  1 + k <= r /\ sunday0 s + 7 * (r - 1) <= dayIndex e
  /\ exists c1, (weekOf newDate s e blockedDates blockedWeeks r c1).1 = Some w.
Proof.
  revert k c. induction fuel as [|fuel IH]; intros k c Hk Hin.
  { by apply elem_of_nil in Hin. }
  rewrite weeksLoop_unfold in Hin.
  destruct (Z.leb_spec (sunday0 s + 7 * k) (dayIndex e)) as [Hle|];
    [|by apply elem_of_nil in Hin].
  cbn zeta in Hin.
  assert (Hrest : (r, w) ∈ weeksLoop newDate s (endOfDay e) blockedDates
                    blockedWeeks fuel ((sunday0 s + 7 * (k + 1)) * MS_PER_DAY)
                    (1 + (k + 1)) (weekOf newDate s e blockedDates blockedWeeks (1 + k) c).2 ->
                  1 + k <= r /\ sunday0 s + 7 * (r - 1) <= dayIndex e
                  /\ exists c1, (weekOf newDate s e blockedDates blockedWeeks r c1).1 = Some w).
  { intros H. apply IH in H; [|lia]. destruct H as (? & ? & ?).
    repeat split; [lia | done | done]. }
  destruct (weekOf newDate s e blockedDates blockedWeeks (1 + k) c).1 as [week|] eqn:Hweek; [|auto].
  apply elem_of_cons in Hin as [Heq|Hin]; [|auto].
  injection Heq as -> ->.
  repeat split; [lia | by replace (1 + k - 1) with k by lia | eauto].
Qed.

Lemma firstSundayOf_sunday0 : firstSundayOf s = (sunday0 s + 7 * 0) * MS_PER_DAY.
Proof. rewrite firstSundayOf_spec. unfold sunday0. f_equal. lia. Qed.

Lemma generateEmptyWeeksRaw_elem (r : Z) (w : WeekPlan.t) :
  (r, w) ∈ generateEmptyWeeksRaw newDate (Time s) (Time e)
             blockedDates blockedWeeks ->
  1 <= r /\ sunday0 s + 7 * (r - 1) <= dayIndex e
  /\ exists c1, (weekOf newDate s e blockedDates blockedWeeks r c1).1 = Some w.
Proof.
  unfold generateEmptyWeeksRaw. rewrite firstSundayOf_sunday0.
  change 1 with (1 + 0) at 1. intros H.
  apply weeksLoop_elem in H; [|lia]. destruct H as (? & ? & ?).
  repeat split; [lia | done | done].
Qed.

(** Every day of the week built for raw week [r] is one of its five
    school days, inside the range, and carries the week's exclusion. *)
Lemma weekOf_day (r c : Z) (w : WeekPlan.t) (d : DayPlan.t) :
  (weekOf newDate s e blockedDates blockedWeeks r c).1 = Some w -> d ∈ WeekPlan.days w ->
  exists i, 0 <= i < 5 /\ inRange s e (sunday0 s + 7 * (r - 1) + i) = true
    /\ d = dayPlanAt newDate blockedDates
             (List.find (matchesWeek r) blockedWeeks)
             ((sunday0 s + 7 * (r - 1) + i) * MS_PER_DAY).
Proof.
  unfold weekOf. intros Hw Hd.
  destruct (buildWeek _ _ _) as [o c'] eqn:Hb. simpl in Hw. subst o.
  apply buildWeek_inv in Hb as (_ & Hdays & _). rewrite Hdays in Hd.
  apply list_elem_of_In, in_flat_map in Hd as (i & Hi & Hd).
  apply list_elem_of_In, elem_of_seqZ in Hi.
  exists i. unfold dayCell in Hd.
  destruct (inRange s e _) eqn:Hr; [|by destruct Hd].
  destruct Hd as [<-|[]]. split; [lia|]. by split.
Qed.

Lemma getWeekNum_day (r i : Z) :
  0 <= i < 7 ->
  getWeekNum s ((sunday0 s + 7 * (r - 1) + i) * MS_PER_DAY) = r.
Proof.
  intros Hi. unfold getWeekNum, differenceInCalendarDays.
  rewrite dayIndex_startOfDay, dayIndex_mul, firstSundayOf_spec, dayIndex_mul.
  fold (sunday0 s). Z.div_mod_to_equations. lia.
Qed.

(** The tag of a week is the raw week number of each of its days, as
    [getWeekNum] counts it. *)
Lemma rawWeek_getWeekNum (r : Z) (w : WeekPlan.t) (d : DayPlan.t) :
  (r, w) ∈ generateEmptyWeeksRaw newDate (Time s) (Time e)
             blockedDates blockedWeeks ->
  d ∈ WeekPlan.days w ->
  getWeekNum s (DayPlan.date d) = r.
Proof.
  intros Hw Hd. apply generateEmptyWeeksRaw_elem in Hw as (_ & _ & c & Hw).
  destruct (weekOf_day _ _ _ _ Hw Hd) as (i & Hi & _ & ->).
  simpl. apply getWeekNum_day. lia.
Qed.

Lemma weekOf_number (r c : Z) (w : WeekPlan.t) :
  (weekOf newDate s e blockedDates blockedWeeks r c).1 = Some w ->
  WeekPlan.weekNumber w
  = if excludedFromCount (List.find (matchesWeek r) blockedWeeks)
    then None else Some c.
Proof.
  unfold weekOf. intros Hw.
  destruct (buildWeek _ _ _) as [o c'] eqn:Hb. simpl in Hw. subst o.
  by apply buildWeek_inv in Hb as (_ & _ & Hn & _).
Qed.

Lemma matchesDate_true (k : Z) (b : BlockedDate.t) :
  matchesDate newDate k b = true
  <-> exists t, parseISOIfNeeded newDate (BlockedDate.date b) = Time t
                /\ dayIndex t = k.
Proof.
  unfold matchesDate, format_ymd.
  destruct (parseISOIfNeeded newDate (BlockedDate.date b)) as [|t].
  - split; [done|]. by intros (t & Ht & _).
  - rewrite Z.eqb_eq. split; [eauto|]. by intros (t' & [= <-] & Hk).
Qed.

(** The loop numbers the weeks it counts consecutively from the value
    of its counter. *)
Lemma weeksLoop_numbers (finish : Z) (fuel : nat) (weekStart r c : Z) :
  let numbers :=
    omap WeekPlan.weekNumber
      (weeksLoop newDate s finish blockedDates blockedWeeks fuel weekStart r c).*2 in
  numbers = seqZ c (Z.of_nat (length numbers)).
Proof.
  cbn zeta. revert weekStart r c.
  induction fuel as [|fuel IH]; intros weekStart r c; [done|].
  cbn [weeksLoop]. destruct (isBefore weekStart finish); [|done].
  destruct (buildWeek _ _ c) as [[week|] c'] eqn:Hb.
  - apply buildWeek_inv in Hb as (_ & _ & Hn & ->).
    cbn [fmap list_fmap omap list_omap snd]. rewrite Hn.
    destruct (excludedFromCount _); [apply IH|].
    cbn [length]. rewrite Nat2Z.inj_succ, seqZ_cons by lia.
    rewrite Z.pred_succ. f_equal. apply IH.
  - destruct (decide (weekDaysLoop newDate s finish blockedDates weekStart
                        (List.find (matchesWeek r) blockedWeeks) 7 0 = []))
      as [Hnil|Hne].
    + rewrite Hnil in Hb. injection Hb as <-. apply IH.
    + destruct (buildWeek_some (List.find (matchesWeek r) blockedWeeks) _ c Hne)
        as (w' & Hw' & _). by rewrite Hw' in Hb.
Qed.

End WeeksOfRange.

(** ** The statistics against the generated weeks *)

Lemma filter_flat_map {A B C} (f : A -> list B) (p : B -> bool) (g : B -> C)
    (l : list A) :
  g <$> List.filter p (flat_map f l)
  = flat_map (fun x => g <$> List.filter p (f x)) l.
Proof.
  induction l as [|x l IH]; simpl; [done|].
  by rewrite List.filter_app, fmap_app, IH.
Qed.

Section StatsAgree.
Variable newDate : string -> Date.
Variables (s e : Z).
Variable blockedDates : list BlockedDate.t.
Variable blockedWeeks : list BlockedWeek.t.

Lemma selected_app (l1 l2 : list Z) :
  selected newDate s e blockedDates blockedWeeks (l1 ++ l2) = selected newDate s e blockedDates blockedWeeks l1 ++ selected newDate s e blockedDates blockedWeeks l2.
Proof. apply flat_map_app. Qed.

Lemma selected_outside (l : list Z) :
  (forall d, d ∈ l -> inRange s e d = false) -> selected newDate s e blockedDates blockedWeeks l = [].
Proof.
  intros H. apply flat_map_nil. intros d Hd. unfold counted.
  by rewrite (H d Hd).
Qed.

Lemma blockedDateStrings_find (k : Z) :
  bool_decide (k ∈ blockedDateStrings newDate blockedDates)
  = truthy (List.find (matchesDate newDate k) blockedDates).
Proof.
  assert (Hiff : k ∈ blockedDateStrings newDate blockedDates
                 <-> exists b, b ∈ blockedDates /\ matchesDate newDate k b = true).
  { unfold blockedDateStrings.
    rewrite elem_of_list_to_set, list_elem_of_omap.
    setoid_rewrite matchesDate_true. unfold format_ymd. split.
    - intros (b & Hb & Hk). exists b. split; [done|].
      destruct (parseISOIfNeeded newDate (BlockedDate.date b)) as [|t]; [done|].
      injection Hk as <-. by exists t.
    - intros (b & Hb & t & Ht & <-). exists b. by rewrite Ht. }
  destruct (truthy _) eqn:Hf.
  - apply bool_decide_eq_true, Hiff, truthy_find, Hf.
  - apply bool_decide_eq_false. intros Hk. apply Hiff, truthy_find in Hk.
    congruence.
Qed.

(** A generated day is unblocked exactly when the statistics keep it. *)
Lemma isAvailable_dayPlanAt (r i : Z) :
  0 <= i < 7 ->
  let day := (sunday0 s + 7 * (r - 1) + i) * MS_PER_DAY in
  negb (DayPlan.isBlocked
          (dayPlanAt newDate blockedDates
             (List.find (matchesWeek r) blockedWeeks) day))
  = isAvailable newDate s blockedDates blockedWeeks day.
Proof.
  intros Hi day. unfold isAvailable. cbn [dayPlanAt DayPlan.isBlocked].
  rewrite blockedDateStrings_find. unfold day. rewrite getWeekNum_day by done.
  rewrite find_existsb.
  destruct (truthy (List.find _ blockedDates)); [by rewrite orb_true_r|].
  by rewrite orb_false_r.
Qed.

Lemma dayCell_selected (r i : Z) :
  0 <= i < 5 ->
  let W := sunday0 s + 7 * (r - 1) in
  DayPlan.date <$> List.filter (fun d => negb (DayPlan.isBlocked d))
    (dayCell newDate s e blockedDates W
       (List.find (matchesWeek r) blockedWeeks) i)
  = selected newDate s e blockedDates blockedWeeks [W + i].
Proof.
  intros Hi W. unfold selected, counted, dayCell. cbn [flat_map].
  rewrite app_nil_r, getDay_mul.
  assert (Hday : (W + i + 4) mod 7 = i).
  { pose proof (sunday0_sunday s (r - 1)). unfold W.
    Z.div_mod_to_equations. lia. }
  rewrite Hday.
  replace (includes SCHOOL_DAYS i) with true.
  2:{ unfold includes, SCHOOL_DAYS. simpl. repeat case_eqb; first [done | lia]. }
  destruct (inRange s e (W + i)); [|done]. cbn [andb List.filter].
  unfold W. rewrite isAvailable_dayPlanAt by lia.
  by destruct (isAvailable _ _ _ _ _).
Qed.

Lemma weekend_selected (r i : Z) :
  5 <= i < 7 -> selected newDate s e blockedDates blockedWeeks [sunday0 s + 7 * (r - 1) + i] = [].
Proof.
  intros Hi. unfold selected, counted. cbn [flat_map].
  rewrite app_nil_r, getDay_mul.
  assert (Hday : (sunday0 s + 7 * (r - 1) + i + 4) mod 7 = i).
  { pose proof (sunday0_sunday s (r - 1)). Z.div_mod_to_equations. lia. }
  rewrite Hday.
  replace (includes SCHOOL_DAYS i) with false.
  2:{ unfold includes, SCHOOL_DAYS. simpl. repeat case_eqb; first [done | lia]. }
  by rewrite andb_false_r.
Qed.

(** The unblocked days of raw week [r] are the counted days among its
    seven calendar days. *)
Lemma week_selected (r : Z) :
  let W := sunday0 s + 7 * (r - 1) in
  DayPlan.date <$> List.filter (fun d => negb (DayPlan.isBlocked d))
    (flat_map (dayCell newDate s e blockedDates W
                 (List.find (matchesWeek r) blockedWeeks)) (seqZ 0 5))
  = selected newDate s e blockedDates blockedWeeks (seqZ W 7).
Proof.
  intros W. rewrite filter_flat_map.
  replace (seqZ W 7) with (Z.add W <$> seqZ 0 7)
    by (rewrite fmap_add_seqZ; f_equal; lia).
  change (seqZ 0 5) with [0; 1; 2; 3; 4].
  change (seqZ 0 7) with [0; 1; 2; 3; 4; 5; 6].
  cbn [flat_map fmap list_fmap]. unfold W.
  rewrite !dayCell_selected by lia.
  pose proof (weekend_selected r 5 ltac:(lia)) as H5.
  pose proof (weekend_selected r 6 ltac:(lia)) as H6.
  unfold selected in *. cbn [flat_map] in *. rewrite app_nil_r in H5, H6.
  by rewrite H5, H6, !app_nil_r.
Qed.

Lemma unblockedDays_cons (w : WeekPlan.t) (ws : list WeekPlan.t) :
  unblockedDays (w :: ws)
  = List.filter (fun d => negb (DayPlan.isBlocked d)) (WeekPlan.days w)
    ++ unblockedDays ws.
Proof. unfold unblockedDays. simpl. apply List.filter_app. Qed.

(** What the loop has emitted after [fuel] iterations from raw week
    [1 + k]: the counted days of the [fuel] weeks it went through. *)
Lemma weeksLoop_selected (fuel : nat) (k c : Z) :
  DayPlan.date <$> unblockedDays
    (weeksLoop newDate s (endOfDay e) blockedDates blockedWeeks fuel
       ((sunday0 s + 7 * k) * MS_PER_DAY) (1 + k) c).*2
  = selected newDate s e blockedDates blockedWeeks (seqZ (sunday0 s + 7 * k) (7 * Z.of_nat fuel)).
Proof.
  revert k c. induction fuel as [|fuel IH]; intros k c; [done|].
  rewrite weeksLoop_unfold.
  destruct (Z.leb_spec (sunday0 s + 7 * k) (dayIndex e)) as [Hle|Hgt].
  - replace (7 * Z.of_nat (S fuel)) with (7 + 7 * Z.of_nat fuel) by lia.
    rewrite seqZ_app, selected_app by lia.
    replace (sunday0 s + 7 * k + 7) with (sunday0 s + 7 * (k + 1)) by lia.
    rewrite <- (IH (k + 1) (weekOf newDate s e blockedDates blockedWeeks (1 + k) c).2).
    pose proof (week_selected (1 + k)) as Hweek. cbn zeta in Hweek.
    replace (1 + k - 1) with k in Hweek by lia. rewrite <- Hweek.
    cbn zeta. unfold weekOf. replace (1 + k - 1) with k by lia.
    destruct (buildWeek _ _ c) as [[week|] c'] eqn:Hb; cbn [fst snd].
    + apply buildWeek_inv in Hb as (_ & Hdays & _).
      cbn [fmap list_fmap snd]. rewrite unblockedDays_cons, fmap_app.
      by rewrite Hdays.
    + assert (Hnil : (buildWeek (List.find (matchesWeek (1 + k)) blockedWeeks)
                        (flat_map (dayCell newDate s e blockedDates
                                     (sunday0 s + 7 * k)
                                     (List.find (matchesWeek (1 + k)) blockedWeeks))
                                  (seqZ 0 5)) c).1 = None) by by rewrite Hb.
      apply buildWeek_pushed in Hnil. by rewrite Hnil.
  - symmetry. apply selected_outside. intros d Hd.
    apply elem_of_seqZ in Hd. unfold inRange.
    replace (d <=? dayIndex e) with false by (symmetry; apply Z.leb_gt; lia).
    apply andb_false_r.
Qed.

Lemma weeksFuel_enough (from finish : Z) :
  finish - from < Z.of_nat (weeksFuel from finish) * (7 * MS_PER_DAY).
Proof.
  unfold weeksFuel, MS_PER_DAY.
  destruct (Z.lt_ge_cases (finish - from) 0) as [Hneg|Hpos]; [lia|].
  rewrite Z2Nat.id by (Z.div_mod_to_equations; lia).
  Z.div_mod_to_equations. lia.
Qed.

Lemma availableDays_selected :
  availableDays newDate s e blockedDates blockedWeeks
  = selected newDate s e blockedDates blockedWeeks (seqZ (dayIndex s) (dayIndex e - dayIndex s + 1)).
Proof.
  unfold availableDays, eachDayOfInterval.
  rewrite dayIndex_endOfDay, !dayIndex_startOfDay.
  rewrite !startOfDay_dayIndex, dayIndex_mul.
  assert (Hdays :
    (fun k : nat => addDays (dayIndex s * MS_PER_DAY) (Z.of_nat k))
      <$> seq 0 (Z.to_nat (dayIndex e - dayIndex s + 1))
    = (fun d => d * MS_PER_DAY) <$> seqZ (dayIndex s) (dayIndex e - dayIndex s + 1)).
  { unfold seqZ. rewrite <- list_fmap_compose. apply list_fmap_ext.
    intros _ k _. simpl. rewrite addDays_mul. f_equal. lia. }
  rewrite Hdays.
  assert (Hin : forall d, d ∈ seqZ (dayIndex s) (dayIndex e - dayIndex s + 1)
                          -> inRange s e d = true).
  { intros d Hd. apply elem_of_seqZ in Hd. unfold inRange.
    apply andb_true_iff. split; apply Z.leb_le; lia. }
  revert Hin. generalize (seqZ (dayIndex s) (dayIndex e - dayIndex s + 1)).
  intros l. induction l as [|d l IH]; intros Hin; [done|].
  change (d :: l) with ([d] ++ l) at 2. rewrite selected_app.
  rewrite <- IH by (intros d' Hd'; apply Hin; by right).
  unfold selected, counted. cbn [flat_map fmap list_fmap List.filter].
  rewrite (Hin d) by left. cbn [andb]. rewrite app_nil_r.
  destruct (includes SCHOOL_DAYS (getDay (d * MS_PER_DAY))); [|done].
  cbn [andb List.filter].
  by destruct (isAvailable newDate s blockedDates blockedWeeks (d * MS_PER_DAY)).
Qed.

(** The dates of the unblocked generated days are the available days of
    the statistics, in the same order. *)
Lemma unblockedDays_availableDays :
  s <= e ->
  DayPlan.date <$> unblockedDays
    (generateEmptyWeeks newDate (Time s) (Time e) blockedDates blockedWeeks)
  = availableDays newDate s e blockedDates blockedWeeks.
Proof.
  intros Hse. apply dayIndex_mono in Hse.
  unfold generateEmptyWeeks, generateEmptyWeeksRaw.
  rewrite firstSundayOf_sunday0. change 1 with (1 + 0) at 1.
  rewrite weeksLoop_selected, availableDays_selected.
  pose proof (weeksFuel_enough ((sunday0 s + 7 * 0) * MS_PER_DAY) (endOfDay e))
    as Hfuel.
  set (fuel := weeksFuel _ _) in *.
  pose proof (sunday0_le s) as Hs0.
  assert (He : dayIndex e < sunday0 s + 7 * Z.of_nat fuel).
  { unfold endOfDay in Hfuel. rewrite startOfDay_dayIndex in Hfuel.
    revert Hfuel. generalize (dayIndex e) (sunday0 s) (Z.of_nat fuel).
    unfold MS_PER_DAY. intros; lia. }
  replace (sunday0 s + 7 * 0) with (sunday0 s) by lia.
  replace (7 * Z.of_nat fuel)
    with ((dayIndex s - sunday0 s)
          + ((dayIndex e - dayIndex s + 1)
             + (sunday0 s + 7 * Z.of_nat fuel - dayIndex e - 1))) by lia.
  rewrite (seqZ_app _ (dayIndex s - sunday0 s)) by lia.
  rewrite (seqZ_app _ (dayIndex e - dayIndex s + 1)) by lia.
  rewrite !selected_app.
  rewrite (selected_outside (seqZ (sunday0 s) _)).
  2:{ intros d Hd. apply elem_of_seqZ in Hd. unfold inRange.
      replace (dayIndex s <=? d) with false by (symmetry; apply Z.leb_gt; lia).
      done. }
  rewrite (selected_outside (seqZ (sunday0 s + _ + _) _)).
  2:{ intros d Hd. apply elem_of_seqZ in Hd. unfold inRange.
      replace (d <=? dayIndex e) with false by (symmetry; apply Z.leb_gt; lia).
      apply andb_false_r. }
  rewrite app_nil_r. simpl. do 2 f_equal. lia.
Qed.

End StatsAgree.

(** C1: for a valid range whose start is not after its end, the day
    count of the statistics is the number of unblocked day plans in the
    generated weeks, whatever the exclusions. *)
Theorem calculateInstructionalStats_totalDays (newDate : string -> Date)
    (s e : Z) (blockedDates : list BlockedDate.t)
    (blockedWeeks : list BlockedWeek.t) :
  s <= e ->
  totalDays
    (calculateInstructionalStats newDate (Time s) (Time e)
       blockedDates blockedWeeks)
  = Z.of_nat (length (unblockedDays
      (generateEmptyWeeks newDate (Time s) (Time e) blockedDates blockedWeeks))).
Proof.
  intros Hse. unfold calculateInstructionalStats.
  replace (isAfter s e) with false by (symmetry; apply Z.ltb_ge; lia).
  cbn [totalDays]. rewrite <- unblockedDays_availableDays by done.
  by rewrite length_fmap.
Qed.

(** ** The loops stop by their own guard *)

Lemma weeksLoop_fuel (newDate : string -> Date) (s finish : Z)
    (blockedDates : list BlockedDate.t) (blockedWeeks : list BlockedWeek.t)
    (fuel extra : nat) (weekStart r c : Z) :
  finish - weekStart < Z.of_nat fuel * (7 * MS_PER_DAY) ->
  weeksLoop newDate s finish blockedDates blockedWeeks (fuel + extra) weekStart r c
  = weeksLoop newDate s finish blockedDates blockedWeeks fuel weekStart r c.
Proof.
  revert weekStart r c. induction fuel as [|fuel IH]; intros weekStart r c Hlt.
  - assert (Hstop : isBefore weekStart finish = false)
      by (apply Z.ltb_ge; lia).
    destruct extra; [done|]. cbn [Nat.add weeksLoop]. by rewrite Hstop.
  - cbn [Nat.add weeksLoop]. destruct (isBefore weekStart finish); [|done].
    destruct (buildWeek _ _ c) as [[week|] c'];
      rewrite IH; try done; unfold addDays, MS_PER_DAY in *; lia.
Qed.

Lemma rangesLoop_fuel (s finish : Z) (fuel extra : nat) (current n : Z) :
  finish - current < Z.of_nat fuel * (7 * MS_PER_DAY) ->
  rangesLoop s finish (fuel + extra) current n
  = rangesLoop s finish fuel current n.
Proof.
  revert current n. induction fuel as [|fuel IH]; intros current n Hlt.
  - assert (Hstop : isBefore current finish = false)
      by (apply Z.ltb_ge; lia).
    destruct extra; [done|]. cbn [Nat.add rangesLoop]. by rewrite Hstop.
  - cbn [Nat.add rangesLoop]. destruct (isBefore current finish); [|done].
    rewrite IH; [done|]. unfold addDays, MS_PER_DAY in *. lia.
Qed.

(** More iterations than [weeksFuel] allows change nothing: both loops
    have left through their [isBefore] guard by then. *)
Lemma generateEmptyWeeksRaw_fuel (newDate : string -> Date) (s e : Z)
    (blockedDates : list BlockedDate.t) (blockedWeeks : list BlockedWeek.t)
    (extra : nat) :
  weeksLoop newDate s (endOfDay e) blockedDates blockedWeeks
    (weeksFuel (firstSundayOf s) (endOfDay e) + extra) (firstSundayOf s) 1 1
  = generateEmptyWeeksRaw newDate (Time s) (Time e) blockedDates blockedWeeks.
Proof. apply weeksLoop_fuel, weeksFuel_enough. Qed.

Lemma getWeekDateRanges_fuel (s e : Z) (extra : nat) :
  rangesLoop s (endOfDay e)
    (weeksFuel (firstSundayOf s) (endOfDay e) + extra) (firstSundayOf s) 1
  = getWeekDateRanges (Time s) (Time e).
Proof. apply rangesLoop_fuel, weeksFuel_enough. Qed.

(** ** The week picker against the generated weeks *)

Section Ranges.
Variable newDate : string -> Date.
Variables (s e : Z).
Variable blockedDates : list BlockedDate.t.
Variable blockedWeeks : list BlockedWeek.t.
Hypothesis range_ok : dayIndex s <= dayIndex e.

Lemma rangesLoop_unfold (fuel : nat) (k : Z) :
  rangesLoop s (endOfDay e) (S fuel) ((sunday0 s + 7 * k) * MS_PER_DAY) (1 + k)
  = if sunday0 s + 7 * k <=? dayIndex e then
      (if negb (sunday0 s + 7 * k + 4 <? dayIndex s) then
         [ {| weekNumber := 1 + k;
              range :=
                (format_MMMd ((sunday0 s + 7 * k) * MS_PER_DAY) +:+ " - "
                 +:+ format_MMMd ((sunday0 s + 7 * k + 4) * MS_PER_DAY))%string |} ]
       else [])
      ++ rangesLoop s (endOfDay e) fuel
           ((sunday0 s + 7 * (k + 1)) * MS_PER_DAY) (1 + (k + 1))
    else [].
Proof.
  cbn [rangesLoop]. rewrite isBefore_endOfDay.
  destruct (Z.leb_spec (sunday0 s + 7 * k) (dayIndex e)) as [Hle|]; [|done].
  rewrite isAfter_endOfDay, addDays_mul, startOfDay_dayIndex, isBefore_mul.
  replace (dayIndex e <? sunday0 s + 7 * k) with false
    by (symmetry; apply Z.ltb_ge; lia).
  rewrite addDays_mul. cbn [negb andb].
  replace (sunday0 s + 7 * k + 7) with (sunday0 s + 7 * (k + 1)) by lia.
  by replace (1 + k + 1) with (1 + (k + 1)) by lia.
Qed.

(** A raw week that starts inside the range has a day to show exactly
    when its Thursday is not before the start. *)
Lemma weekDays_nil_iff (k : Z) wb :
  sunday0 s + 7 * k <= dayIndex e ->
  flat_map (dayCell newDate s e blockedDates (sunday0 s + 7 * k) wb) (seqZ 0 5) = []
  <-> sunday0 s + 7 * k + 4 < dayIndex s.
Proof.
  intros Hle. set (W := sunday0 s + 7 * k) in *. split.
  - intros Hnil. destruct (Z.lt_ge_cases (W + 4) (dayIndex s)) as [|Hge]; [done|].
    exfalso. set (i := Z.max 0 (dayIndex s - W)).
    assert (Hin : dayPlanAt newDate blockedDates wb ((W + i) * MS_PER_DAY)
                  ∈ flat_map (dayCell newDate s e blockedDates W wb) (seqZ 0 5)).
    { apply list_elem_of_In, in_flat_map. exists i. split.
      - apply list_elem_of_In, elem_of_seqZ. lia.
      - unfold dayCell, inRange.
        replace (dayIndex s <=? W + i) with true by (symmetry; apply Z.leb_le; lia).
        replace (W + i <=? dayIndex e) with true by (symmetry; apply Z.leb_le; lia).
        by left. }
    rewrite Hnil in Hin. by apply elem_of_nil in Hin.
  - intros Hlt. apply flat_map_nil. intros i Hi. apply elem_of_seqZ in Hi.
    unfold dayCell, inRange.
    by replace (dayIndex s <=? W + i) with false by (symmetry; apply Z.leb_gt; lia).
Qed.

Lemma ranges_weeks (fuel : nat) (k c : Z) :
  weekNumber <$> rangesLoop s (endOfDay e) fuel
                   ((sunday0 s + 7 * k) * MS_PER_DAY) (1 + k)
  = (weeksLoop newDate s (endOfDay e) blockedDates blockedWeeks fuel
       ((sunday0 s + 7 * k) * MS_PER_DAY) (1 + k) c).*1.
Proof.
  revert k c. induction fuel as [|fuel IH]; intros k c; [done|].
  rewrite rangesLoop_unfold, weeksLoop_unfold.
  destruct (Z.leb_spec (sunday0 s + 7 * k) (dayIndex e)) as [Hle|]; [|done].
  cbn zeta. rewrite fmap_app, (IH (k + 1) (weekOf newDate s e blockedDates
                                            blockedWeeks (1 + k) c).2).
  pose proof (buildWeek_pushed (List.find (matchesWeek (1 + k)) blockedWeeks)
    (flat_map (dayCell newDate s e blockedDates (sunday0 s + 7 * k)
                 (List.find (matchesWeek (1 + k)) blockedWeeks)) (seqZ 0 5)) c)
    as Hpushed.
  rewrite weekDays_nil_iff in Hpushed by done.
  unfold weekOf. replace (1 + k - 1) with k by lia.
  destruct (Z.ltb_spec (sunday0 s + 7 * k + 4) (dayIndex s)) as [Hlt|Hge].
  - apply Hpushed in Hlt. by rewrite Hlt.
  - destruct (buildWeek _ _ c).1 as [week|] eqn:Hweek; [done|].
    assert (sunday0 s + 7 * k + 4 < dayIndex s) by by apply Hpushed. lia.
Qed.

(** From the second raw week on, the picker lists every week it meets. *)
Lemma rangesLoop_consecutive (fuel : nat) (k : Z) :
  1 <= k ->
  let ranges := rangesLoop s (endOfDay e) fuel
                  ((sunday0 s + 7 * k) * MS_PER_DAY) (1 + k) in
  weekNumber <$> ranges = seqZ (1 + k) (Z.of_nat (length ranges)).
Proof.
  cbn zeta. revert k. induction fuel as [|fuel IH]; intros k Hk; [done|].
  rewrite rangesLoop_unfold.
  destruct (Z.leb_spec (sunday0 s + 7 * k) (dayIndex e)) as [Hle|]; [|done].
  pose proof (sunday0_le s).
  replace (sunday0 s + 7 * k + 4 <? dayIndex s) with false
    by (symmetry; apply Z.ltb_ge; lia).
  cbn [negb app fmap list_fmap length weekNumber].
  rewrite Nat2Z.inj_succ, seqZ_cons, Z.pred_succ by lia.
  f_equal. rewrite IH by lia. f_equal. lia.
Qed.

End Ranges.

(** C9: for a valid range whose start is not after its end, the week
    numbers the picker lists are the raw week numbers of the weeks
    generated without exclusions, in the same order; when the range
    starts on a Friday or a Saturday, raw week 1 is in neither list and
    the numbers listed are 2, 3, ... *)
Theorem getWeekDateRanges_rawWeeks (newDate : string -> Date) (s e : Z) :
  s <= e ->
  let ranges := getWeekDateRanges (Time s) (Time e) in
  weekNumber <$> ranges
  = (generateEmptyWeeksRaw newDate (Time s) (Time e) [] []).*1
  /\ (5 <= getDay s ->
      weekNumber <$> ranges = seqZ 2 (Z.of_nat (length ranges))).
Proof.
  intros Hse ranges. apply dayIndex_mono in Hse. split.
  - unfold ranges, getWeekDateRanges, generateEmptyWeeksRaw.
    rewrite firstSundayOf_sunday0. change 1 with (1 + 0) at 1 2.
    by apply ranges_weeks.
  - intros Hfri. unfold ranges, getWeekDateRanges.
    rewrite firstSundayOf_sunday0. change 1 with (1 + 0) at 1 2.
    destruct (weeksFuel _ _) as [|fuel]; [done|].
    rewrite rangesLoop_unfold.
    destruct (Z.leb_spec (sunday0 s + 7 * 0) (dayIndex e)) as [Hle|]; [|done].
    replace (sunday0 s + 7 * 0 + 4 <? dayIndex s) with true
      by (symmetry; apply Z.ltb_lt; unfold sunday0; lia).
    cbn [negb app]. change 2 with (1 + (0 + 1)).
    apply rangesLoop_consecutive. lia.
Qed.

(** ** Blocking and labels of the generated days *)

(** A day of the generated weeks is blocked exactly when [new Date]
    reads the date of a day-level exclusion as a time that falls, on the
    local clock, on the day of the day plan, or a week-level exclusion
    carries the raw week number of the day's week. *)
Lemma generateEmptyWeeks_isBlocked_iff (newDate : string -> Date)
    (start end_ : Date) (blockedDates : list BlockedDate.t)
    (blockedWeeks : list BlockedWeek.t)
    (r : Z) (w : WeekPlan.t) (d : DayPlan.t) :
  (r, w) ∈ generateEmptyWeeksRaw newDate start end_ blockedDates blockedWeeks ->
  d ∈ WeekPlan.days w ->
  DayPlan.isBlocked d = true
  <-> (exists b t, b ∈ blockedDates
         /\ parseISOIfNeeded newDate (BlockedDate.date b) = Time t
         /\ dayIndex t = dayIndex (DayPlan.date d))
      \/ (exists x, x ∈ blockedWeeks /\ BlockedWeek.weekNumber x = r).
Proof.
  intros Hw Hd.
  destruct start as [|s]; [by apply elem_of_nil in Hw|].
  destruct end_ as [|e]; [by apply elem_of_nil in Hw|].
  apply generateEmptyWeeksRaw_elem in Hw as (_ & _ & c & Hw).
  destruct (weekOf_day _ _ _ _ _ _ _ _ _ Hw Hd) as (i & _ & _ & ->).
  cbn [dayPlanAt DayPlan.isBlocked DayPlan.date].
  rewrite orb_true_iff, !truthy_find. unfold format_ymd. split.
  - intros [(x & Hx & Hm)|(b & Hb & Hm)].
    + right. exists x. split; [done|]. by apply Z.eqb_eq in Hm.
    + left. apply matchesDate_true in Hm as (t & Ht & Hk). by exists b, t.
  - intros [(b & t & Hb & Ht & Hk)|(x & Hx & Hm)].
    + right. exists b. split; [done|]. apply matchesDate_true. by exists t.
    + left. exists x. split; [done|]. by apply Z.eqb_eq.
Qed.

(** C4, where the code departs from it: [new Date] reads the date of a
    day-level exclusion as midnight UTC, and the day plans are compared
    with it on the local clock.  With one day-level exclusion, dated day
    [D], and no week-level exclusion, the day plan that is blocked is
    the one of day [D] on a host at or ahead of UTC, and the one of the
    day before [D] on a host behind UTC. *)
Theorem day_exclusion_blocks_utc_day (newDate : string -> Date) (s e : Z)
    (b : BlockedDate.t) (D offset : Z)
    (r : Z) (w : WeekPlan.t) (d : DayPlan.t) :
  newDate (BlockedDate.date b) = Time (utcMidnight offset D) ->
  - MS_PER_DAY <= offset < MS_PER_DAY ->
  (r, w) ∈ generateEmptyWeeksRaw newDate (Time s) (Time e) [b] [] ->
  d ∈ WeekPlan.days w ->
  DayPlan.isBlocked d = true
  <-> dayIndex (DayPlan.date d) = if offset <? 0 then D - 1 else D.
Proof.
  intros Hnew Hoff Hw Hd.
  rewrite (generateEmptyWeeks_isBlocked_iff newDate (Time s) (Time e) [b] [] r w d Hw Hd).
  assert (Hparse : parseISOIfNeeded newDate (BlockedDate.date b)
                   = Time (utcMidnight offset D)).
  { unfold parseISOIfNeeded. by rewrite Hnew. }
  assert (Hday : dayIndex (utcMidnight offset D) = if offset <? 0 then D - 1 else D).
  { unfold utcMidnight, dayIndex. revert Hoff. unfold MS_PER_DAY. intros Hoff.
    destruct (Z.ltb_spec offset 0); Z.div_mod_to_equations; lia. }
  split.
  - intros [(b' & t & Hb' & Ht & Hk)|(x & Hx & _)]; [|by apply elem_of_nil in Hx].
    apply list_elem_of_singleton in Hb' as ->. rewrite Hparse in Ht.
    injection Ht as <-. by rewrite <- Hk.
  - intros Hk. left. exists b, (utcMidnight offset D).
    split; [apply list_elem_of_singleton; done|]. split; [done|]. by rewrite Hk.
Qed.

(** C8, as the code has it: the label of a generated day is the label of
    the first week-level exclusion that carries the raw week number,
    when that label is not empty; when no week-level exclusion matches,
    or the first one has an empty label, it is the label of the first
    day-level exclusion on the day's date, and absent when there is
    none. *)
Theorem generateEmptyWeeks_blockLabel (newDate : string -> Date)
    (start end_ : Date) (blockedDates : list BlockedDate.t)
    (blockedWeeks : list BlockedWeek.t)
    (r : Z) (w : WeekPlan.t) (d : DayPlan.t) :
  (r, w) ∈ generateEmptyWeeksRaw newDate start end_ blockedDates blockedWeeks ->
  d ∈ WeekPlan.days w ->
  let dateBlock :=
    List.find (matchesDate newDate (dayIndex (DayPlan.date d))) blockedDates in
  match List.find (matchesWeek r) blockedWeeks with
  | Some weekBlock =>
    if nonEmpty (BlockedWeek.label weekBlock)
    then DayPlan.blockLabel d = Some (BlockedWeek.label weekBlock)
    else DayPlan.blockLabel d = BlockedDate.label <$> dateBlock
  | None => DayPlan.blockLabel d = BlockedDate.label <$> dateBlock
  end.
Proof.
  intros Hw Hd.
  destruct start as [|s]; [by apply elem_of_nil in Hw|].
  destruct end_ as [|e]; [by apply elem_of_nil in Hw|].
  apply generateEmptyWeeksRaw_elem in Hw as (_ & _ & c & Hw).
  destruct (weekOf_day _ _ _ _ _ _ _ _ _ Hw Hd) as (i & _ & _ & ->).
  cbn [dayPlanAt DayPlan.blockLabel DayPlan.date]. unfold format_ymd.
  destruct (List.find (matchesWeek r) blockedWeeks) as [wb|]; [|done].
  cbn [fmap option_fmap option_map orElse].
  by destruct (nonEmpty (BlockedWeek.label wb)).
Qed.

(** ** Week numbering *)

(** C2, as the code has it: the week numbers that are present are
    1, 2, ..., k in the order of the weeks, and the number of a week is
    absent exactly when the first week-level exclusion that carries its
    raw week number has [excludeFromCount] set. *)
Theorem generateEmptyWeeks_weekNumber (newDate : string -> Date)
    (start end_ : Date) (blockedDates : list BlockedDate.t)
    (blockedWeeks : list BlockedWeek.t) :
  let raw := generateEmptyWeeksRaw newDate start end_ blockedDates blockedWeeks in
  let numbers :=
    omap WeekPlan.weekNumber
      (generateEmptyWeeks newDate start end_ blockedDates blockedWeeks) in
  numbers = seqZ 1 (Z.of_nat (length numbers))
  /\ forall r w, (r, w) ∈ raw ->
       (WeekPlan.weekNumber w = None
        <-> exists x, List.find (matchesWeek r) blockedWeeks = Some x
                      /\ BlockedWeek.excludeFromCount x = true).
Proof.
  cbn zeta. split.
  - unfold generateEmptyWeeks, generateEmptyWeeksRaw.
    destruct start as [|s]; [done|]. destruct end_ as [|e]; [done|].
    apply weeksLoop_numbers.
  - intros r w Hw.
    destruct start as [|s]; [by apply elem_of_nil in Hw|].
    destruct end_ as [|e]; [by apply elem_of_nil in Hw|].
    apply generateEmptyWeeksRaw_elem in Hw as (_ & _ & c & Hw).
    rewrite (weekOf_number _ _ _ _ _ _ _ _ Hw).
    destruct (List.find (matchesWeek r) blockedWeeks) as [x|]; simpl.
    + destruct (BlockedWeek.excludeFromCount x) eqn:Hx; split; try done.
      * eauto.
      * intros (? & [= <-] & ?). congruence.
    + split; [done|]. by intros (? & ? & ?).
Qed.

(** ** The packer, day by day *)

Lemma packDay_isBlocked (lessons : list Lesson.t) (c : Cursor) (day : DayPlan.t) :
  DayPlan.isBlocked (packDay lessons c day).2 = DayPlan.isBlocked day.
Proof.
  unfold packDay. cbn [DayPlan.isBlocked].
  destruct (DayPlan.isBlocked day) eqn:Hb; [by rewrite <- Hb|].
  destruct (lessons !! lessonIdx c) as [l|]; [|by rewrite <- Hb].
  by destruct (geNumber _ _).
Qed.

Lemma packDay_blocked (lessons : list Lesson.t) (c : Cursor) (day : DayPlan.t) :
  DayPlan.isBlocked day = true ->
  (packDay lessons c day).1 = c
  /\ DayPlan.lessonId (packDay lessons c day).2 = None
  /\ DayPlan.lessonName (packDay lessons c day).2 = None.
Proof. intros Hb. unfold packDay. cbn [DayPlan.isBlocked]. by rewrite Hb. Qed.

Lemma packDays_cons (lessons : list Lesson.t) (c : Cursor) (day : DayPlan.t)
    (rest : list DayPlan.t) :
  packDays lessons c (day :: rest)
  = ((packDays lessons (packDay lessons c day).1 rest).1,
     (packDay lessons c day).2 :: (packDays lessons (packDay lessons c day).1 rest).2).
Proof.
  cbn [packDays]. destruct (packDay lessons c day) as [c1 day']. cbn [fst snd].
  by destruct (packDays lessons c1 rest) as [c2 rest'].
Qed.

Lemma packDays_app (lessons : list Lesson.t) (c : Cursor) (l1 l2 : list DayPlan.t) :
  packDays lessons c (l1 ++ l2)
  = ((packDays lessons (packDays lessons c l1).1 l2).1,
     (packDays lessons c l1).2 ++ (packDays lessons (packDays lessons c l1).1 l2).2).
Proof.
  revert c. induction l1 as [|day l1 IH]; intros c.
  - simpl. by destruct (packDays lessons c l2).
  - rewrite <- app_comm_cons, !packDays_cons, IH. done.
Qed.

Lemma packWeeks_cons (lessons : list Lesson.t) (c : Cursor) (week : WeekPlan.t)
    (rest : list WeekPlan.t) :
  let c1 := (packDays lessons c (WeekPlan.days week)).1 in
  packWeeks lessons c (week :: rest)
  = ((packWeeks lessons c1 rest).1,
     withDays week (packDays lessons c (WeekPlan.days week)).2
     :: (packWeeks lessons c1 rest).2).
Proof.
  cbn [packWeeks]. destruct (packDays lessons c (WeekPlan.days week)) as [c1 days'].
  cbn [fst snd]. by destruct (packWeeks lessons c1 rest) as [c2 rest'].
Qed.

(** The two nested loops are one pass over the days of all weeks. *)
Lemma packWeeks_days (lessons : list Lesson.t) (c : Cursor) (weeks : list WeekPlan.t) :
  flat_map WeekPlan.days (packWeeks lessons c weeks).2
  = (packDays lessons c (flat_map WeekPlan.days weeks)).2.
Proof.
  revert c. induction weeks as [|week rest IH]; intros c; [done|].
  rewrite packWeeks_cons. cbn [snd flat_map withDays WeekPlan.days].
  by rewrite IH, packDays_app.
Qed.

Lemma packDays_blocked (lessons : list Lesson.t) (c : Cursor)
    (days : list DayPlan.t) (d : DayPlan.t) :
  d ∈ (packDays lessons c days).2 -> DayPlan.isBlocked d = true ->
  DayPlan.lessonId d = None /\ DayPlan.lessonName d = None.
Proof.
  revert c. induction days as [|day rest IH]; intros c Hd Hb.
  - by apply elem_of_nil in Hd.
  - rewrite packDays_cons in Hd. cbn [snd] in Hd.
    apply elem_of_cons in Hd as [->|Hd]; [|by eapply IH].
    rewrite packDay_isBlocked in Hb. by apply packDay_blocked.
Qed.

Lemma packDays_unblocked (lessons : list Lesson.t) (c : Cursor)
    (days : list DayPlan.t) :
  length (List.filter (fun d => negb (DayPlan.isBlocked d)) (packDays lessons c days).2)
  = length (List.filter (fun d => negb (DayPlan.isBlocked d)) days).
Proof.
  revert c. induction days as [|day rest IH]; intros c; [done|].
  rewrite packDays_cons. cbn [snd List.filter]. rewrite packDay_isBlocked.
  destruct (DayPlan.isBlocked day); cbn [negb length]; by rewrite IH.
Qed.

Lemma plan_zero (c : Z) (lessons : list Lesson.t) : plan c lessons 0 = [].
Proof. revert c. induction lessons as [|l rest IH]; intros c; [done|]. apply IH. Qed.

(** The lesson ids on the unblocked days, as the pass leaves them. *)
Lemma packDays_plan (lessons : list Lesson.t) (days : list DayPlan.t)
    (i : nat) (c : Z) :
  DayPlan.lessonId <$>
    List.filter (fun d => negb (DayPlan.isBlocked d))
      (packDays lessons (mkCursor i c) days).2
  = plan c (drop i lessons)
      (length (List.filter (fun d => negb (DayPlan.isBlocked d)) days)).
Proof.
  revert i c. induction days as [|day rest IH]; intros i c.
  { cbn. by rewrite plan_zero. }
  rewrite packDays_cons. cbn [snd List.filter]. rewrite packDay_isBlocked.
  destruct (DayPlan.isBlocked day) eqn:Hb; cbn [negb].
  { destruct (packDay_blocked lessons (mkCursor i c) day Hb) as (-> & _). apply IH. }
  cbn [length fmap list_fmap]. unfold packDay. cbn [DayPlan.isBlocked lessonIdx
    dayInLessonCounter]. rewrite Hb.
  destruct (lessons !! i) as [l|] eqn:Hl.
  - rewrite (drop_S _ _ _ Hl). cbn [plan taken].
    destruct (geNumber (c + 1) (orOne (Lesson.pacing l))); cbn [fst snd DayPlan.lessonId].
    + rewrite IH. cbn [replicate app]. do 2 f_equal. lia.
    + rewrite IH, (drop_S _ _ _ Hl). cbn [plan replicate app]. done.
  - cbn [fst snd DayPlan.lessonId]. rewrite IH.
    apply lookup_ge_None in Hl. rewrite drop_ge by done. done.
Qed.

(** ** Thresholds *)

Lemma geNumber_positive (q : Q) (p c : Z) :
  (q == inject_Z p)%Q -> 0 < p ->
  geNumber c (orOne (Finite q)) = (p <=? c).
Proof.
  intros Hq Hp. unfold orOne.
  destruct (Qeq_bool q 0) eqn:H0.
  { apply Qeq_bool_iff in H0. rewrite Hq in H0.
    unfold Qeq in H0. simpl in H0. lia. }
  cbn [geNumber]. destruct (Z.leb_spec p c) as [Hle|Hgt].
  - apply Qle_bool_iff. rewrite Hq, <- Zle_Qle. done.
  - apply not_true_is_false. intros Hb. apply Qle_bool_iff in Hb.
    rewrite Hq, <- Zle_Qle in Hb. lia.
Qed.

Lemma geNumber_belowOne (x : JSNumber) :
  belowOne x -> geNumber 1 (orOne x) = true.
Proof.
  destruct x as [|negative|q]; cbn [belowOne orOne].
  - done.
  - by intros ->.
  - intros Hq. destruct (Qeq_bool q 0); [done|].
    cbn [geNumber]. apply Qle_bool_iff. by apply Qlt_le_weak.
Qed.

Lemma pacingDays_positive (l : Lesson.t) :
  positiveInteger (Lesson.pacing l) ->
  exists q, Lesson.pacing l = Finite q
    /\ (q == inject_Z (Z.of_nat (pacingDays l)))%Q
    /\ (0 < pacingDays l)%nat.
Proof.
  unfold positiveInteger, pacingDays.
  destruct (Lesson.pacing l) as [| |q]; try done.
  intros (p & Hp & Hq). exists q. split; [done|].
  rewrite Hq, Qfloor_Z, Z2Nat.id by lia. split; [done|lia].
Qed.

Lemma taken_positive (q : Q) (p : nat) (c : Z) (n : nat) :
  (q == inject_Z (Z.of_nat p))%Q -> 0 <= c < Z.of_nat p ->
  taken (Finite q) c n = Nat.min (Z.to_nat (Z.of_nat p - c)) n.
Proof.
  intros Hq. revert c. induction n as [|n IH]; intros c Hc; cbn [taken]; [lia|].
  rewrite (geNumber_positive q (Z.of_nat p)) by (done || lia).
  destruct (Z.leb_spec (Z.of_nat p) (c + 1)) as [Hle|Hgt]; [lia|].
  rewrite IH by lia. lia.
Qed.

Lemma taken_belowOne (x : JSNumber) (n : nat) :
  belowOne x -> taken x 0 n = Nat.min 1 n.
Proof.
  intros Hx. destruct n as [|n]; [done|]. cbn [taken].
  change (0 + 1) with 1. rewrite geNumber_belowOne by done. lia.
Qed.

(** ** Counting the days of a lesson *)

Lemma countId_app (lessonId : string) (l1 l2 : list (option string)) :
  countId lessonId (l1 ++ l2)
  = (countId lessonId l1 + countId lessonId l2)%nat.
Proof. unfold countId. by rewrite List.filter_app, length_app. Qed.

Lemma countId_replicate (lessonId : string) (x : option string) (n : nat) :
  countId lessonId (replicate n x)
  = if bool_decide (x = Some lessonId) then n else O.
Proof.
  unfold countId. induction n as [|n IH]; cbn [replicate List.filter].
  - by destruct (bool_decide _).
  - destruct (bool_decide (x = Some lessonId)); cbn [length]; by rewrite IH.
Qed.

Lemma countId_plan_other (lessonId : string) (c : Z) (lessons : list Lesson.t)
    (n : nat) :
  lessonId ∉ Lesson.id <$> lessons -> countId lessonId (plan c lessons n) = O.
Proof.
  revert c n. induction lessons as [|l rest IH]; intros c n Hnot; cbn [plan].
  - rewrite countId_replicate. by rewrite bool_decide_eq_false_2.
  - rewrite fmap_cons, not_elem_of_cons in Hnot. destruct Hnot as [Hne Hnot].
    rewrite countId_app, countId_replicate, IH by done.
    rewrite bool_decide_eq_false_2; [done|]. congruence.
Qed.

(** With distinct ids, the days that carry the id of the lesson at index
    [i] are the days that lesson takes from what the lessons before it
    have left. *)
Lemma countId_plan (lessons : list Lesson.t) (i : nat) (l : Lesson.t) (n : nat) :
  NoDup (Lesson.id <$> lessons) -> lessons !! i = Some l ->
  countId (Lesson.id l) (plan 0 lessons n)
  = taken (Lesson.pacing l) 0 (n - usedBy (take i lessons) n).
Proof.
  revert i n. induction lessons as [|l0 rest IH]; intros i n Hnd Hl; [done|].
  rewrite fmap_cons in Hnd. apply NoDup_cons in Hnd as [Hnot Hnd].
  cbn [plan]. rewrite countId_app, countId_replicate.
  destruct i as [|i]; cbn [take usedBy].
  - injection Hl as ->. rewrite bool_decide_eq_true_2 by done.
    rewrite countId_plan_other by done. rewrite Nat.sub_0_r. lia.
  - cbn in Hl. assert (Hin : Lesson.id l ∈ Lesson.id <$> rest).
    { apply list_elem_of_fmap. exists l. split; [done|].
      by eapply list_elem_of_lookup_2. }
    rewrite bool_decide_eq_false_2.
    2:{ intros [= Heq]. by rewrite Heq in Hnot. }
    rewrite (IH i) by done. cbn [Nat.add]. f_equal. lia.
Qed.

Lemma usedBy_positive (lessons : list Lesson.t) (n : nat) :
  Forall (fun l => positiveInteger (Lesson.pacing l)) lessons ->
  usedBy lessons n = Nat.min (sum_list_with pacingDays lessons) n.
Proof.
  revert n. induction lessons as [|l rest IH]; intros n Hall; cbn [usedBy].
  { done. }
  apply Forall_cons in Hall as [Hl Hall].
  destruct (pacingDays_positive l Hl) as (q & Hq & Hp & Hpos).
  rewrite Hq, (taken_positive q (pacingDays l)) by (done || lia).
  rewrite IH by done. cbn [sum_list_with]. lia.
Qed.

(** With positive integer pacing, the ids on the unblocked days are the
    lessons in order, each repeated as many times as its pacing, cut
    where the days end and followed by unassigned days. *)
Lemma plan_positive (lessons : list Lesson.t) (n : nat) :
  Forall (fun l => positiveInteger (Lesson.pacing l)) lessons ->
  plan 0 lessons n
  = take n (flat_map (fun l => replicate (pacingDays l) (Some (Lesson.id l)))
                     lessons)
    ++ replicate (n - sum_list_with pacingDays lessons) None.
Proof.
  revert n. induction lessons as [|l rest IH]; intros n Hall; cbn [plan].
  { cbn [flat_map sum_list_with]. by rewrite take_nil, Nat.sub_0_r. }
  apply Forall_cons in Hall as [Hl Hall].
  destruct (pacingDays_positive l Hl) as (q & Hq & Hp & Hpos).
  rewrite Hq, (taken_positive q (pacingDays l)) by (done || lia).
  rewrite IH by done. cbn [flat_map sum_list_with].
  rewrite take_app, take_replicate, length_replicate, <- app_assoc.
  replace (Z.to_nat (Z.of_nat (pacingDays l) - 0)) with (pacingDays l) by lia.
  f_equal; [f_equal; lia|]. f_equal; [f_equal; lia|]. f_equal. lia.
Qed.

Lemma countAmong_app (lessonIds : list string) (l1 l2 : list (option string)) :
  countAmong lessonIds (l1 ++ l2)
  = (countAmong lessonIds l1 + countAmong lessonIds l2)%nat.
Proof. unfold countAmong. by rewrite List.filter_app, length_app. Qed.

Lemma countAmong_replicate (lessonIds : list string) (y : string) (n : nat) :
  countAmong lessonIds (replicate n (Some y))
  = if bool_decide (y ∈ lessonIds) then n else O.
Proof.
  unfold countAmong. induction n as [|n IH]; cbn [replicate List.filter].
  - by destruct (bool_decide _).
  - destruct (bool_decide (y ∈ lessonIds)); cbn [length]; by rewrite IH.
Qed.

Lemma plan_ids (c : Z) (lessons : list Lesson.t) (n : nat) (y : string) :
  Some y ∈ plan c lessons n -> y ∈ Lesson.id <$> lessons.
Proof.
  revert c n. induction lessons as [|l rest IH]; intros c n; cbn [plan].
  - intros H. by apply elem_of_replicate in H as [? _].
  - rewrite elem_of_app, fmap_cons, elem_of_cons. intros [H|H].
    + apply elem_of_replicate in H as [[= ->] _]. by left.
    + right. by eapply IH.
Qed.

(** Dropping an id that no lesson of the list has changes no count. *)
Lemma countAmong_plan_cons (y : string) (lessonIds : list string) (c : Z)
    (lessons : list Lesson.t) (n : nat) :
  y ∉ Lesson.id <$> lessons ->
  countAmong (y :: lessonIds) (plan c lessons n)
  = countAmong lessonIds (plan c lessons n).
Proof.
  intros Hnot.
  assert (Hids : forall z, Some z ∈ plan c lessons n -> z ≠ y).
  { intros z Hz ->. by apply Hnot, (plan_ids c lessons n). }
  revert Hids. generalize (plan c lessons n). intros l.
  unfold countAmong. induction l as [|x l IH]; intros Hids; [done|].
  cbn [List.filter].
  specialize (IH (fun z Hz => Hids z (list_elem_of_further _ _ _ Hz))).
  destruct x as [z|]; [|done].
  pose proof (Hids z (list_elem_of_here _ _)) as Hz.
  destruct (decide (z ∈ lessonIds)) as [Hin|Hout].
  - rewrite !bool_decide_eq_true_2 by (try right; done). cbn [length].
    by rewrite IH.
  - rewrite !bool_decide_eq_false_2; [done|done|].
    rewrite elem_of_cons. by intros [?|?].
Qed.

(** With distinct ids, the days that carry the id of a lesson before index
    [i] are the days those lessons take. *)
Lemma countAmong_plan (lessons : list Lesson.t) (i n : nat) :
  NoDup (Lesson.id <$> lessons) ->
  countAmong (Lesson.id <$> take i lessons) (plan 0 lessons n)
  = usedBy (take i lessons) n.
Proof.
  revert i n. induction lessons as [|l0 rest IH]; intros i n Hnd.
  { rewrite take_nil. cbn. unfold countAmong.
    induction n as [|n IHn]; [done|]. done. }
  rewrite fmap_cons in Hnd. apply NoDup_cons in Hnd as [Hnot Hnd].
  destruct i as [|i]; cbn [take usedBy fmap list_fmap].
  - unfold countAmong. induction (plan 0 (l0 :: rest) n) as [|x l IHl]; [done|].
    cbn [List.filter]. destruct x as [z|]; [|done].
    rewrite bool_decide_eq_false_2; [done|]. apply not_elem_of_nil.
  - cbn [plan]. rewrite countAmong_app, countAmong_replicate.
    rewrite bool_decide_eq_true_2 by left.
    rewrite countAmong_plan_cons by done. by rewrite IH.
Qed.

(** ** The packer on whole weeks *)

Lemma filter_carries (lessonId : string) (days : list DayPlan.t) :
  (forall d, d ∈ days -> DayPlan.isBlocked d = true -> DayPlan.lessonId d = None) ->
  length (List.filter (carries lessonId) days)
  = countId lessonId
      (DayPlan.lessonId <$> List.filter (fun d => negb (DayPlan.isBlocked d)) days).
Proof.
  unfold countId. induction days as [|d rest IH]; intros Hb; [done|].
  cbn [List.filter]. specialize (IH (fun d' Hd' => Hb d' (list_elem_of_further _ _ _ Hd'))).
  unfold carries at 1.
  destruct (DayPlan.isBlocked d) eqn:Hd; cbn [negb].
  - rewrite (Hb d (list_elem_of_here _ _) Hd). by rewrite bool_decide_eq_false_2.
  - cbn [fmap list_fmap List.filter].
    destruct (bool_decide (DayPlan.lessonId d = Some lessonId)); cbn [length];
      by rewrite IH.
Qed.

Lemma filter_carriesOneOf (lessonIds : list string) (days : list DayPlan.t) :
  (forall d, d ∈ days -> DayPlan.isBlocked d = true -> DayPlan.lessonId d = None) ->
  length (List.filter (carriesOneOf lessonIds) days)
  = countAmong lessonIds
      (DayPlan.lessonId <$> List.filter (fun d => negb (DayPlan.isBlocked d)) days).
Proof.
  unfold countAmong. induction days as [|d rest IH]; intros Hb; [done|].
  cbn [List.filter]. specialize (IH (fun d' Hd' => Hb d' (list_elem_of_further _ _ _ Hd'))).
  unfold carriesOneOf at 1.
  destruct (DayPlan.isBlocked d) eqn:Hd; cbn [negb].
  - by rewrite (Hb d (list_elem_of_here _ _) Hd).
  - cbn [fmap list_fmap List.filter].
    destruct (DayPlan.lessonId d) as [x|]; [|done].
    destruct (bool_decide (x ∈ lessonIds)); cbn [length]; by rewrite IH.
Qed.

Lemma distributeLessons_days (weeks : list WeekPlan.t) (lessons : list Lesson.t) :
  flat_map WeekPlan.days (distributeLessons weeks lessons)
  = (packDays lessons (mkCursor 0 0) (flat_map WeekPlan.days weeks)).2.
Proof. apply packWeeks_days. Qed.

Lemma distributeLessons_blocked (weeks : list WeekPlan.t) (lessons : list Lesson.t)
    (d : DayPlan.t) :
  d ∈ flat_map WeekPlan.days (distributeLessons weeks lessons) ->
  DayPlan.isBlocked d = true ->
  DayPlan.lessonId d = None /\ DayPlan.lessonName d = None.
Proof. rewrite distributeLessons_days. apply packDays_blocked. Qed.

Lemma distributeLessons_unblocked (weeks : list WeekPlan.t) (lessons : list Lesson.t) :
  length (unblockedDays (distributeLessons weeks lessons))
  = length (unblockedDays weeks).
Proof.
  unfold unblockedDays. rewrite distributeLessons_days. apply packDays_unblocked.
Qed.

(** The ids on the unblocked days of the result. *)
Lemma distributeLessons_plan (weeks : list WeekPlan.t) (lessons : list Lesson.t) :
  DayPlan.lessonId <$> unblockedDays (distributeLessons weeks lessons)
  = plan 0 lessons (length (unblockedDays weeks)).
Proof.
  unfold unblockedDays. rewrite distributeLessons_days.
  by rewrite packDays_plan, drop_0.
Qed.

Lemma assignedDays_count (weeks : list WeekPlan.t) (lessons : list Lesson.t)
    (lessonId : string) :
  length (assignedDays lessonId (distributeLessons weeks lessons))
  = countId lessonId (plan 0 lessons (length (unblockedDays weeks))).
Proof.
  unfold assignedDays. rewrite filter_carries.
  - fold (unblockedDays (distributeLessons weeks lessons)).
    by rewrite distributeLessons_plan.
  - intros d Hd Hb. by apply (distributeLessons_blocked weeks lessons).
Qed.

Lemma assignedAmong_count (weeks : list WeekPlan.t) (lessons : list Lesson.t)
    (lessonIds : list string) :
  length (assignedAmong lessonIds (distributeLessons weeks lessons))
  = countAmong lessonIds (plan 0 lessons (length (unblockedDays weeks))).
Proof.
  unfold assignedAmong. rewrite filter_carriesOneOf.
  - fold (unblockedDays (distributeLessons weeks lessons)).
    by rewrite distributeLessons_plan.
  - intros d Hd Hb. by apply (distributeLessons_blocked weeks lessons).
Qed.

(** ** Lessons on days *)

(** C3: with distinct lesson ids and positive integer pacing, the lesson
    at index [i] is carried by as many days as its pacing, or by the days
    that the lessons before it have left when those are fewer; the ids on
    the unblocked days are the lessons in order, each repeated as many
    times as its pacing, cut where the days end; and no day carries the
    ids of two lessons. *)
Theorem distributeLessons_pacing (weeks : list WeekPlan.t)
    (lessons : list Lesson.t) :
  NoDup (Lesson.id <$> lessons) ->
  Forall (fun l => positiveInteger (Lesson.pacing l)) lessons ->
  let result := distributeLessons weeks lessons in
  let D := length (unblockedDays weeks) in
  (forall i l, lessons !! i = Some l ->
     length (assignedDays (Lesson.id l) result)
     = Nat.min (pacingDays l) (D - sum_list_with pacingDays (take i lessons)))
  /\ DayPlan.lessonId <$> unblockedDays result
     = take D (flat_map (fun l => replicate (pacingDays l) (Some (Lesson.id l)))
                        lessons)
       ++ replicate (D - sum_list_with pacingDays lessons) None
  /\ (forall i j l1 l2 d,
        lessons !! i = Some l1 -> lessons !! j = Some l2 ->
        carries (Lesson.id l1) d = true -> carries (Lesson.id l2) d = true ->
        i = j).
Proof.
  intros Hnd Hall result D. split; [|split].
  - intros i l Hl. unfold result. rewrite assignedDays_count.
    rewrite (countId_plan lessons i l) by done.
    rewrite usedBy_positive by by apply Forall_take.
    assert (Hpos : positiveInteger (Lesson.pacing l)).
    { rewrite Forall_forall in Hall. apply Hall.
      by eapply list_elem_of_lookup_2. }
    destruct (pacingDays_positive l Hpos) as (q & Hq & Hp & Hdays).
    rewrite Hq, (taken_positive q (pacingDays l)) by (done || lia).
    fold D. lia.
  - unfold result. rewrite distributeLessons_plan. by apply plan_positive.
  - intros i j l1 l2 d Hi Hj H1 H2.
    apply bool_decide_eq_true in H1, H2. rewrite H1 in H2. injection H2 as Hid.
    eapply NoDup_lookup; [exact Hnd| |].
    + rewrite list_lookup_fmap, Hi. reflexivity.
    + rewrite list_lookup_fmap, Hj. simpl. by rewrite Hid.
Qed.

(** C6: a blocked day of the result carries no lesson, and the pass
    leaves both cursors as they were when it meets a blocked day. *)
Theorem distributeLessons_skips_blocked (weeks : list WeekPlan.t)
    (lessons : list Lesson.t) :
  (forall w d, w ∈ distributeLessons weeks lessons -> d ∈ WeekPlan.days w ->
     DayPlan.isBlocked d = true ->
     DayPlan.lessonId d = None /\ DayPlan.lessonName d = None)
  /\ (forall (c : Cursor) (day : DayPlan.t),
        DayPlan.isBlocked day = true ->
        lessonIdx (packDay lessons c day).1 = lessonIdx c
        /\ dayInLessonCounter (packDay lessons c day).1 = dayInLessonCounter c).
Proof.
  split.
  - intros w d Hw Hd Hb. apply (distributeLessons_blocked weeks lessons); [|done].
    apply list_elem_of_In, in_flat_map. exists w.
    by rewrite <- !list_elem_of_In.
  - intros c day Hb. by destruct (packDay_blocked lessons c day Hb) as (-> & _).
Qed.

(** C10: for a lesson whose pacing is not a number or below one, the
    counter has reached the threshold after one day; an unblocked day met
    with the cursor on that lesson takes its id and name and moves the
    cursor to the next lesson; with distinct ids the lesson is carried by
    exactly one day when the lessons before it have left one, and by
    none otherwise.  The pass itself is a total function that returns as
    many weeks, with as many days each, as it was given. *)
Theorem distributeLessons_pacing_below_one (weeks : list WeekPlan.t)
    (lessons : list Lesson.t) (i : nat) (l : Lesson.t) :
  lessons !! i = Some l ->
  belowOne (Lesson.pacing l) ->
  let result := distributeLessons weeks lessons in
  geNumber 1 (orOne (Lesson.pacing l)) = true
  /\ (forall day, DayPlan.isBlocked day = false ->
        (packDay lessons (mkCursor i 0) day).1 = mkCursor (S i) 0
        /\ DayPlan.lessonId (packDay lessons (mkCursor i 0) day).2
           = Some (Lesson.id l)
        /\ DayPlan.lessonName (packDay lessons (mkCursor i 0) day).2
           = Some (Lesson.name l))
  /\ (NoDup (Lesson.id <$> lessons) ->
      length (assignedDays (Lesson.id l) result)
      = Nat.min 1 (length (unblockedDays weeks)
                   - length (assignedAmong (Lesson.id <$> take i lessons) result)))
  /\ (fun w => length (WeekPlan.days w)) <$> result
     = (fun w => length (WeekPlan.days w)) <$> weeks.
Proof.
  intros Hl Hx result. pose proof (geNumber_belowOne _ Hx) as Hge.
  split; [done|]. split; [|split].
  - intros day Hb. unfold packDay.
    cbn [DayPlan.isBlocked lessonIdx dayInLessonCounter].
    rewrite Hb, Hl. change (0 + 1) with 1. by rewrite Hge.
  - intros Hnd. unfold result.
    rewrite assignedDays_count, assignedAmong_count.
    rewrite (countId_plan lessons i l), countAmong_plan by done.
    by apply taken_belowOne.
  - unfold result, distributeLessons. generalize (mkCursor 0 0).
    induction weeks as [|week rest IH]; intros c; [done|].
    rewrite packWeeks_cons. cbn [snd fmap list_fmap withDays WeekPlan.days].
    rewrite IH. f_equal. generalize (WeekPlan.days week). clear. intros days.
    revert c.
    induction days as [|day rest IH]; intros c; [done|].
    rewrite packDays_cons. cbn [snd length]. by rewrite IH.
Qed.

(** ** The scenarios of the specification *)

(** Sunday 1 to Thursday 5 September 2024: five days, one week, and a
    lesson of pacing 5 fills it. *)
Example scenario_one_week :
  calculateInstructionalStats hostDate (Time (sep 1)) (Time (sep 5)) [] []
  = mkStats 5 1
  /\ (DayPlan.lessonId <$>
        flat_map WeekPlan.days
          (distributeLessons
             (generateEmptyWeeks hostDate (Time (sep 1)) (Time (sep 5)) [] [])
             [Lesson.mk "u" "Unit" "" (Finite 5)]))
     = replicate 5 (Some "u"%string).
Proof. split; vm_compute; reflexivity. Qed.

(** The same week with Tuesday 3 September excluded: four days, and the
    lesson of pacing 5 receives four. *)
Example scenario_day_excluded :
  calculateInstructionalStats hostDate (Time (sep 1)) (Time (sep 5)) [examSep3] []
  = mkStats 4 1
  /\ (DayPlan.lessonId <$>
        flat_map WeekPlan.days
          (distributeLessons examTuesday.*2 [Lesson.mk "u" "Unit" "" (Finite 5)]))
     = [Some "u"; Some "u"; None; Some "u"; Some "u"]%string.
Proof. split; vm_compute; reflexivity. Qed.

(** Three raw weeks with the second one excluded from the count. *)
Example scenario_week_excluded :
  (fun w => (WeekPlan.weekNumber w, WeekPlan.displayWeekLabel w)) <$>
    generateEmptyWeeks hostDate (Time (sep 1)) (Time (sep 19)) [] [secondWeekOff]
  = [(Some 1, "Week 1"); (None, "Break"); (Some 2, "Week 2")]%string.
Proof. vm_compute. reflexivity. Qed.

(** Lessons of pacing 2 and 3 over five days. *)
Example scenario_two_lessons :
  DayPlan.lessonId <$>
    flat_map WeekPlan.days
      (distributeLessons
         (generateEmptyWeeks hostDate (Time (sep 1)) (Time (sep 5)) [] [])
         [linearEquations; inequalities])
  = [Some "l1"; Some "l1"; Some "l2"; Some "l2"; Some "l2"]%string.
Proof. vm_compute. reflexivity. Qed.

(** ** Invalid and inverted ranges *)

Lemma invalid_range_empty (newDate : string -> Date) (start end_ : Date)
    (blockedDates : list BlockedDate.t) (blockedWeeks : list BlockedWeek.t) :
  isValid start && isValid end_ = false ->
  calculateInstructionalStats newDate start end_ blockedDates blockedWeeks
  = mkStats 0 0
  /\ getWeekDateRanges start end_ = []
  /\ generateEmptyWeeks newDate start end_ blockedDates blockedWeeks = [].
Proof. destruct start, end_; done. Qed.

Lemma inverted_range_stats (newDate : string -> Date) (s e : Z)
    (blockedDates : list BlockedDate.t) (blockedWeeks : list BlockedWeek.t) :
  e < s ->
  calculateInstructionalStats newDate (Time s) (Time e) blockedDates blockedWeeks
  = mkStats 0 0.
Proof.
  intros Hlt. unfold calculateInstructionalStats.
  by replace (isAfter s e) with true by (symmetry; apply Z.ltb_lt; lia).
Qed.

(** When the end falls on an earlier calendar day than the start, no
    week is generated. *)
Lemma generateEmptyWeeks_earlier_day (newDate : string -> Date) (s e : Z)
    (blockedDates : list BlockedDate.t) (blockedWeeks : list BlockedWeek.t) :
  dayIndex e < dayIndex s ->
  generateEmptyWeeks newDate (Time s) (Time e) blockedDates blockedWeeks = [].
Proof.
  intros Hlt. unfold generateEmptyWeeks.
  destruct (generateEmptyWeeksRaw newDate (Time s) (Time e) blockedDates
              blockedWeeks) as [|[r w] rest] eqn:Hraw; [done|].
  exfalso.
  assert (Hin : (r, w) ∈ generateEmptyWeeksRaw newDate (Time s) (Time e)
                          blockedDates blockedWeeks) by (rewrite Hraw; left).
  apply generateEmptyWeeksRaw_elem in Hin as (_ & _ & c & Hw).
  assert (Hdays : WeekPlan.days w <> []).
  { unfold weekOf in Hw. destruct (buildWeek _ _ c) as [o c'] eqn:Hb.
    simpl in Hw. subst o. apply buildWeek_inv in Hb as (Hne & -> & _). done. }
  destruct (WeekPlan.days w) as [|d ds] eqn:Hd; [done|].
  destruct (weekOf_day newDate s e blockedDates blockedWeeks r c w d Hw)
    as (i & _ & Hr & _); [rewrite Hd; left|].
  unfold inRange in Hr. apply andb_true_iff in Hr as [H1 H2].
  apply Z.leb_le in H1, H2. lia.
Qed.

(** C5, where the code departs from it: from Wednesday 4 September back
    to Monday 2 September 2024 the statistics are zero, but the picker
    lists raw week 1; and when the end is earlier on the day of the
    start, the generated weeks hold that day. *)
Theorem inverted_range_not_empty :
  isAfter (sep 4) (sep 2) = true
  /\ calculateInstructionalStats hostDate (Time (sep 4)) (Time (sep 2)) [] []
     = mkStats 0 0
  /\ getWeekDateRanges (Time (sep 4)) (Time (sep 2))
     = [ {| weekNumber := 1; range := "Sep 1 - Sep 5" |} ]
  /\ isAfter (sep 1 + 36000000) (sep 1 + 32400000) = true
  /\ (WeekPlan.days <$>
        generateEmptyWeeks hostDate (Time (sep 1 + 36000000))
          (Time (sep 1 + 32400000)) [] [])
     = [ [ {| DayPlan.date := sep 1; DayPlan.dayName := "Sunday";
              DayPlan.isBlocked := false; DayPlan.blockLabel := None;
              DayPlan.lessonId := None; DayPlan.lessonName := None |} ] ].
Proof. repeat split; vm_compute; reflexivity. Qed.

(** ** The properties on the examples *)

Lemma calculateInstructionalStats_totalDays_witness :
  totalDays
    (calculateInstructionalStats hostDate (Time (sep 1)) (Time (sep 12))
       [examSep3] [secondWeekOff])
  = Z.of_nat (length (unblockedDays
      (generateEmptyWeeks hostDate (Time (sep 1)) (Time (sep 12))
         [examSep3] [secondWeekOff]))).
Proof.
  apply (calculateInstructionalStats_totalDays hostDate (sep 1) (sep 12)).
  vm_compute. discriminate.
Defined.

Lemma day_exclusion_blocks_utc_day_witness :
  DayPlan.date mondayNewYork = sep 2
  /\ DayPlan.isBlocked mondayNewYork = true
  /\ DayPlan.date tuesdayNewYork = sep 3
  /\ DayPlan.isBlocked tuesdayNewYork = false
  /\ DayPlan.date tuesday = sep 3
  /\ DayPlan.isBlocked tuesday = true.
Proof.
  assert (Hweek : (1, examTuesdayNewYorkWeek)
                  ∈ generateEmptyWeeksRaw newYorkDate (Time (sep 1)) (Time (sep 5))
                      [examSep3] []).
  { apply (list_elem_of_lookup_2 _ 0%nat). vm_compute. reflexivity. }
  assert (Hoff : - MS_PER_DAY <= -14400000 < MS_PER_DAY) by (unfold MS_PER_DAY; lia).
  split; [reflexivity|]. split; [|split; [reflexivity|split; [|split; [reflexivity|]]]].
  - apply (day_exclusion_blocks_utc_day newYorkDate (sep 1) (sep 5) examSep3
             (dayIndex (sep 3)) (-14400000) 1 examTuesdayNewYorkWeek mondayNewYork
             eq_refl Hoff Hweek).
    + apply (list_elem_of_lookup_2 _ 1%nat). vm_compute. reflexivity.
    + vm_compute. reflexivity.
  - destruct (DayPlan.isBlocked tuesdayNewYork) eqn:Hb; [|reflexivity].
    apply (day_exclusion_blocks_utc_day newYorkDate (sep 1) (sep 5) examSep3
             (dayIndex (sep 3)) (-14400000) 1 examTuesdayNewYorkWeek tuesdayNewYork
             eq_refl Hoff Hweek) in Hb.
    + vm_compute in Hb. discriminate Hb.
    + apply (list_elem_of_lookup_2 _ 2%nat). vm_compute. reflexivity.
  - apply (day_exclusion_blocks_utc_day hostDate (sep 1) (sep 5) examSep3
             (dayIndex (sep 3)) 0 1 examTuesdayWeek tuesday eq_refl).
    + unfold MS_PER_DAY. lia.
    + apply (list_elem_of_lookup_2 _ 0%nat). vm_compute. reflexivity.
    + apply (list_elem_of_lookup_2 _ 2%nat). vm_compute. reflexivity.
    + vm_compute. reflexivity.
Defined.

(** The same exclusion and the same range on the two hosts: Monday is
    blocked on the host behind UTC, Tuesday on the host on UTC. *)
Example blocked_days_by_host :
  (DayPlan.isBlocked <$> flat_map WeekPlan.days
     (generateEmptyWeeks newYorkDate (Time (sep 1)) (Time (sep 5)) [examSep3] []))
  = [false; true; false; false; false]
  /\ (DayPlan.isBlocked <$> flat_map WeekPlan.days
        (generateEmptyWeeks hostDate (Time (sep 1)) (Time (sep 5)) [examSep3] []))
     = [false; false; true; false; false].
Proof. split; vm_compute; reflexivity. Qed.

Lemma generateEmptyWeeks_blockLabel_witness :
  DayPlan.blockLabel examSundayDay = Some "Exam"%string.
Proof.
  pose proof (generateEmptyWeeks_blockLabel hostDate (Time (sep 1)) (Time (sep 1))
                [examSep1] [unnamedBreak] 1 examSundayWeek examSundayDay) as H.
  cbn zeta in H. apply H.
  - apply (list_elem_of_lookup_2 _ 0%nat). vm_compute. reflexivity.
  - apply (list_elem_of_lookup_2 _ 0%nat). vm_compute. reflexivity.
Defined.

(** C8 as stated fails: the Sunday is blocked, a single week-level
    exclusion carries its raw week number, and the day takes the label of
    the day-level exclusion, because the label of the week is empty. *)
Lemma blockLabel_week_label_counterexample :
  (1, examSundayWeek) ∈ examSunday
  /\ examSundayDay ∈ WeekPlan.days examSundayWeek
  /\ DayPlan.isBlocked examSundayDay = true
  /\ List.filter (matchesWeek 1) [unnamedBreak] = [unnamedBreak]
  /\ DayPlan.blockLabel examSundayDay = Some "Exam"%string
  /\ DayPlan.blockLabel examSundayDay <> Some (BlockedWeek.label unnamedBreak).
Proof.
  split; [apply (list_elem_of_lookup_2 _ 0%nat); vm_compute; reflexivity|].
  split; [apply (list_elem_of_lookup_2 _ 0%nat); vm_compute; reflexivity|].
  repeat split; done.
Qed.

(** C2 as stated fails: a week-level exclusion with [excludeFromCount]
    carries the raw week number of the week, yet the week is numbered,
    because an exclusion without the flag comes first in the list. *)
Lemma weekNumber_flag_counterexample :
  (1, twiceExcludedWeek) ∈ twiceExcluded
  /\ springBreak ∈ [revisionWeek; springBreak]
  /\ BlockedWeek.weekNumber springBreak = 1
  /\ BlockedWeek.excludeFromCount springBreak = true
  /\ WeekPlan.weekNumber twiceExcludedWeek = Some 1.
Proof.
  split; [apply (list_elem_of_lookup_2 _ 0%nat); vm_compute; reflexivity|].
  split; [apply (list_elem_of_lookup_2 _ 1%nat); reflexivity|].
  repeat split; done.
Qed.

Lemma getWeekDateRanges_rawWeeks_witness :
  weekNumber <$> getWeekDateRanges (Time (sep 6)) (Time (sep 16))
  = (generateEmptyWeeksRaw hostDate (Time (sep 6)) (Time (sep 16)) [] []).*1
  /\ (5 <= getDay (sep 6) ->
      weekNumber <$> getWeekDateRanges (Time (sep 6)) (Time (sep 16))
      = seqZ 2 (Z.of_nat (length (getWeekDateRanges (Time (sep 6)) (Time (sep 16)))))).
Proof.
  apply (getWeekDateRanges_rawWeeks hostDate (sep 6) (sep 16)).
  vm_compute. discriminate.
Defined.

Lemma distributeLessons_pacing_witness :
  length (assignedDays "l2"
            (distributeLessons examTuesday.*2 [linearEquations; inequalities]))
  = 2%nat.
Proof.
  assert (Hnd : NoDup (Lesson.id <$> [linearEquations; inequalities])).
  { apply (bool_decide_unpack _). vm_compute. exact I. }
  assert (Hall : Forall (fun l => positiveInteger (Lesson.pacing l))
                        [linearEquations; inequalities]).
  { repeat constructor.
    - exists 2. split; [lia|reflexivity].
    - exists 3. split; [lia|reflexivity]. }
  destruct (distributeLessons_pacing examTuesday.*2
              [linearEquations; inequalities] Hnd Hall) as (Hcount & _ & _).
  exact (Hcount 1%nat inequalities eq_refl).
Defined.

Lemma distributeLessons_pacing_below_one_witness :
  length (assignedDays "l0"
            (distributeLessons examTuesday.*2 [warmUp; linearEquations]))
  = 1%nat.
Proof.
  assert (Hnd : NoDup (Lesson.id <$> [warmUp; linearEquations])).
  { apply (bool_decide_unpack _). vm_compute. exact I. }
  destruct (distributeLessons_pacing_below_one examTuesday.*2
              [warmUp; linearEquations] 0 warmUp eq_refl eq_refl)
    as (_ & _ & Hcount & _).
  exact (Hcount Hnd).
Defined.

(** ** The store *)

Import Heap.

(** Two stores that agree on what a reference reaches give it the same
    value and the same reach. *)
Lemma readDay_agree (h h' : heap) (l : positive) :
  h' !! l = h !! l -> readDay h' l = readDay h l.
Proof. unfold readDay. by intros ->. Qed.

Lemma mapM_readDay_agree (h h' : heap) (items : list positive) :
  (forall x, x ∈ items -> h' !! x = h !! x) ->
  mapM (readDay h') items = mapM (readDay h) items.
Proof.
  induction items as [|l rest IH]; intros Hagree; [done|].
  cbn [mapM]. rewrite (readDay_agree h h' l) by (apply Hagree; left).
  rewrite IH; [done|]. intros x Hx. apply Hagree. by right.
Qed.

Lemma readDays_agree (h h' : heap) (l : positive) :
  (forall x, x ∈ locsDays h l -> h' !! x = h !! x) ->
  readDays h' l = readDays h l /\ locsDays h' l = locsDays h l.
Proof.
  unfold readDays, locsDays. intros Hagree.
  rewrite (Hagree l) by left.
  destruct (h !! l) as [[| |items]|] eqn:Hl; try done.
  split; [|done]. apply mapM_readDay_agree.
  intros x Hx. apply Hagree. by right.
Qed.

Lemma readWeek_agree (h h' : heap) (l : positive) :
  (forall x, x ∈ locsWeek h l -> h' !! x = h !! x) ->
  readWeek h' l = readWeek h l /\ locsWeek h' l = locsWeek h l.
Proof.
  unfold readWeek, locsWeek. intros Hagree.
  rewrite (Hagree l) by left.
  destruct (h !! l) as [[|n label dates daysRef blocked blockLabel|]|] eqn:Hl;
    try done.
  destruct (readDays_agree h h' daysRef) as [-> ->]; [|done].
  intros x Hx. apply Hagree. by right.
Qed.

Lemma readWeekList_agree (h h' : heap) (items : list positive) :
  (forall x, x ∈ flat_map (locsWeek h) items -> h' !! x = h !! x) ->
  mapM (readWeek h') items = mapM (readWeek h) items
  /\ flat_map (locsWeek h') items = flat_map (locsWeek h) items.
Proof.
  induction items as [|l rest IH]; intros Hagree; [done|].
  cbn [mapM flat_map] in *.
  destruct (readWeek_agree h h' l) as [-> ->].
  { intros x Hx. apply Hagree, elem_of_app. by left. }
  destruct IH as [-> ->]; [|done].
  intros x Hx. apply Hagree, elem_of_app. by right.
Qed.

Lemma readWeeks_agree (h h' : heap) (l : positive) :
  (forall x, x ∈ locsWeeks h l -> h' !! x = h !! x) ->
  readWeeks h' l = readWeeks h l /\ locsWeeks h' l = locsWeeks h l.
Proof.
  unfold readWeeks, locsWeeks. intros Hagree.
  rewrite (Hagree l) by left.
  destruct (h !! l) as [[| |items]|] eqn:Hl; try done.
  destruct (readWeekList_agree h h' items) as [-> ->]; [|done].
  intros x Hx. apply Hagree. by right.
Qed.

(** A reference that has a value reaches objects of the store only. *)
Lemma readDay_dom (h : heap) (l : positive) (day : DayPlan.t) :
  readDay h l = Some day -> h !! l = Some (DayObj day).
Proof. unfold readDay. by destruct (h !! l) as [[]|]; intros [= ->]. Qed.

Lemma readDays_dom (h : heap) (l : positive) (days : list DayPlan.t) :
  readDays h l = Some days -> forall x, x ∈ locsDays h l -> x ∈ dom h.
Proof.
  unfold readDays, locsDays. destruct (h !! l) as [[| |items]|] eqn:Hl; try done.
  intros Hread x [->|Hx]%elem_of_cons; [by apply elem_of_dom|].
  apply mapM_Some_1 in Hread. clear Hl. induction Hread as [|y d ys ds Hy _ IH].
  - by apply elem_of_nil in Hx.
  - apply elem_of_cons in Hx as [->|Hx]; [|by apply IH].
    apply readDay_dom in Hy. by apply elem_of_dom.
Qed.

Lemma readWeek_dom (h : heap) (l : positive) (w : WeekPlan.t) :
  readWeek h l = Some w -> forall x, x ∈ locsWeek h l -> x ∈ dom h.
Proof.
  unfold readWeek, locsWeek.
  destruct (h !! l) as [[|n label dates daysRef blocked blockLabel|]|] eqn:Hl;
    try done.
  intros Hread x [->|Hx]%elem_of_cons; [by apply elem_of_dom|].
  apply bind_Some in Hread as (days & Hdays & _).
  by apply (readDays_dom h daysRef days).
Qed.

Lemma readWeekList_dom (h : heap) (items : list positive) (ws : list WeekPlan.t) :
  mapM (readWeek h) items = Some ws ->
  forall x, x ∈ flat_map (locsWeek h) items -> x ∈ dom h.
Proof.
  intros Hread x Hx. apply mapM_Some_1 in Hread.
  induction Hread as [|y w ys ws' Hy _ IH]; cbn [flat_map] in Hx.
  - by apply elem_of_nil in Hx.
  - apply elem_of_app in Hx as [Hx|Hx]; [|by apply IH].
    by apply (readWeek_dom h y w).
Qed.

Lemma readWeeks_dom (h : heap) (l : positive) (ws : list WeekPlan.t) :
  readWeeks h l = Some ws -> forall x, x ∈ locsWeeks h l -> x ∈ dom h.
Proof.
  unfold readWeeks, locsWeeks. destruct (h !! l) as [[| |items]|] eqn:Hl; try done.
  intros Hread x [->|Hx]%elem_of_cons; [by apply elem_of_dom|].
  by apply (readWeekList_dom h items ws).
Qed.

(** ** Allocation *)

Lemma alloc_spec (h h' : heap) (c : cell) (l : positive) :
  alloc h c = (h', l) ->
  (l ∉ dom h) /\ h' !! l = Some c /\ (forall x, x ∈ dom h -> h' !! x = h !! x).
Proof.
  unfold alloc. intros [= <- <-]. pose proof (is_fresh (dom h)) as Hfresh.
  split; [done|]. split; [apply lookup_insert_eq|].
  intros x Hx. apply lookup_insert_ne. by intros <-.
Qed.

Lemma untouched_dom (h h' : heap) :
  (forall x, x ∈ dom h -> h' !! x = h !! x) -> forall x, x ∈ dom h -> x ∈ dom h'.
Proof.
  intros Hold x Hx. apply elem_of_dom. rewrite (Hold x Hx). by apply elem_of_dom.
Qed.

Lemma allocDayList_spec (h h' : heap) (days : list DayPlan.t) (ls : list positive) :
  allocDayList h days = (h', ls) ->
  (forall x, x ∈ dom h -> h' !! x = h !! x)
  /\ mapM (readDay h') ls = Some days
  /\ NoDup ls
  /\ (forall x, x ∈ ls -> x ∉ dom h).
Proof.
  revert h h' ls. induction days as [|day rest IH]; intros h h' ls Halloc.
  { injection Halloc as <- <-. split; [done|]. split; [done|].
    split; [constructor|]. intros x Hx. by apply elem_of_nil in Hx. }
  cbn [allocDayList] in Halloc.
  destruct (alloc h (DayObj day)) as [h1 l] eqn:H1.
  destruct (allocDayList h1 rest) as [h2 ls'] eqn:H2.
  injection Halloc as <- <-.
  apply alloc_spec in H1 as (Hl & Hl1 & Hold1).
  apply IH in H2 as (Hold2 & Hread & Hnd & Hfresh).
  assert (Hl2 : l ∈ dom h1) by by apply elem_of_dom.
  split; [|split; [|split]].
  - intros x Hx. rewrite Hold2 by by apply (untouched_dom h). by apply Hold1.
  - assert (Hday : readDay h2 l = Some day).
    { unfold readDay. by rewrite Hold2, Hl1. }
    cbn [mapM]. by rewrite Hday, Hread.
  - apply NoDup_cons. split; [|done]. intros Hin. by apply (Hfresh l).
  - intros x [->|Hx]%elem_of_cons; [done|].
    intros Hdom. apply (Hfresh x Hx). by apply (untouched_dom h).
Qed.

Lemma readDayList_dom (h : heap) (items : list positive) (days : list DayPlan.t) :
  mapM (readDay h) items = Some days -> forall x, x ∈ items -> x ∈ dom h.
Proof.
  intros Hread x Hx. apply mapM_Some_1 in Hread.
  induction Hread as [|y d ys ds Hy _ IH].
  - by apply elem_of_nil in Hx.
  - apply elem_of_cons in Hx as [->|Hx]; [|by apply IH].
    apply readDay_dom in Hy. by apply elem_of_dom.
Qed.

Lemma allocDays_spec (h h' : heap) (days : list DayPlan.t) (l : positive) :
  allocDays h days = (h', l) ->
  (forall x, x ∈ dom h -> h' !! x = h !! x)
  /\ readDays h' l = Some days
  /\ NoDup (locsDays h' l)
  /\ (forall x, x ∈ locsDays h' l -> x ∉ dom h).
Proof.
  unfold allocDays. destruct (allocDayList h days) as [h1 ls] eqn:H1.
  intros H2. apply allocDayList_spec in H1 as (Hold1 & Hread & Hnd & Hfresh).
  apply alloc_spec in H2 as (Hl & Hl2 & Hold2).
  pose proof (readDayList_dom h1 ls days Hread) as Hdom.
  unfold readDays, locsDays. rewrite Hl2.
  split; [|split; [|split]].
  - intros x Hx. rewrite Hold2 by by apply (untouched_dom h). by apply Hold1.
  - rewrite <- Hread. apply mapM_readDay_agree. intros x Hx. by apply Hold2, Hdom.
  - apply NoDup_cons. split; [|done]. intros Hin. by apply Hl, Hdom.
  - intros x [->|Hx]%elem_of_cons; [|by apply Hfresh].
    intros Hx. by apply Hl, (untouched_dom h).
Qed.

Lemma allocWeek_spec (h h' : heap) (w : WeekPlan.t) (l : positive) :
  allocWeek h w = (h', l) ->
  (forall x, x ∈ dom h -> h' !! x = h !! x)
  /\ readWeek h' l = Some w
  /\ NoDup (locsWeek h' l)
  /\ (forall x, x ∈ locsWeek h' l -> x ∉ dom h).
Proof.
  unfold allocWeek. destruct (allocDays h (WeekPlan.days w)) as [h1 daysRef] eqn:H1.
  intros H2. apply allocDays_spec in H1 as (Hold1 & Hread & Hnd & Hfresh).
  apply alloc_spec in H2 as (Hl & Hl2 & Hold2).
  pose proof (readDays_dom h1 daysRef _ Hread) as Hdom.
  destruct (readDays_agree h1 h' daysRef) as [Hread' Hlocs].
  { intros x Hx. by apply Hold2, Hdom. }
  unfold readWeek, locsWeek. rewrite Hl2, Hread', Hlocs, Hread.
  split; [|split; [|split]].
  - intros x Hx. rewrite Hold2 by by apply (untouched_dom h). by apply Hold1.
  - by destruct w.
  - apply NoDup_cons. split; [|done]. intros Hin. by apply Hl, Hdom.
  - intros x [->|Hx]%elem_of_cons; [|by apply Hfresh].
    intros Hx. by apply Hl, (untouched_dom h).
Qed.

Lemma allocWeekList_spec (h h' : heap) (ws : list WeekPlan.t) (ls : list positive) :
  allocWeekList h ws = (h', ls) ->
  (forall x, x ∈ dom h -> h' !! x = h !! x)
  /\ mapM (readWeek h') ls = Some ws
  /\ NoDup (flat_map (locsWeek h') ls)
  /\ (forall x, x ∈ flat_map (locsWeek h') ls -> x ∉ dom h).
Proof.
  revert h h' ls. induction ws as [|w rest IH]; intros h h' ls Halloc.
  { injection Halloc as <- <-. split; [done|]. split; [done|].
    split; [constructor|]. intros x Hx. by apply elem_of_nil in Hx. }
  cbn [allocWeekList] in Halloc.
  destruct (allocWeek h w) as [h1 l] eqn:H1.
  destruct (allocWeekList h1 rest) as [h2 ls'] eqn:H2.
  injection Halloc as <- <-.
  apply allocWeek_spec in H1 as (Hold1 & Hw & Hnd1 & Hfresh1).
  apply IH in H2 as (Hold2 & Hread & Hnd2 & Hfresh2).
  pose proof (readWeek_dom h1 l w Hw) as Hdom.
  destruct (readWeek_agree h1 h2 l) as [Hw' Hlocs].
  { intros x Hx. by apply Hold2, Hdom. }
  cbn [mapM flat_map]. rewrite Hw', Hlocs, Hw, Hread.
  split; [|split; [|split]].
  - intros x Hx. rewrite Hold2 by by apply (untouched_dom h). by apply Hold1.
  - done.
  - apply NoDup_app. split; [done|]. split; [|done].
    intros x Hx1 Hx2. by apply (Hfresh2 x), Hdom.
  - intros x [Hx|Hx]%elem_of_app; [by apply Hfresh1|].
    intros Hdomx. by apply (Hfresh2 x Hx), (untouched_dom h).
Qed.

Lemma allocWeeks_spec (h h' : heap) (ws : list WeekPlan.t) (l : positive) :
  allocWeeks h ws = (h', l) ->
  (forall x, x ∈ dom h -> h' !! x = h !! x)
  /\ readWeeks h' l = Some ws
  /\ NoDup (locsWeeks h' l)
  /\ (forall x, x ∈ locsWeeks h' l -> x ∉ dom h).
Proof.
  unfold allocWeeks. destruct (allocWeekList h ws) as [h1 ls] eqn:H1.
  intros H2. apply allocWeekList_spec in H1 as (Hold1 & Hread & Hnd & Hfresh).
  apply alloc_spec in H2 as (Hl & Hl2 & Hold2).
  pose proof (readWeekList_dom h1 ls ws Hread) as Hdom.
  destruct (readWeekList_agree h1 h' ls) as [Hread' Hlocs].
  { intros x Hx. by apply Hold2, Hdom. }
  unfold readWeeks, locsWeeks. rewrite Hl2, Hread', Hlocs.
  split; [|split; [|split]].
  - intros x Hx. rewrite Hold2 by by apply (untouched_dom h). by apply Hold1.
  - done.
  - apply NoDup_cons. split; [|done]. intros Hin. by apply Hl, Hdom.
  - intros x [->|Hx]%elem_of_cons; [|by apply Hfresh].
    intros Hx. by apply Hl, (untouched_dom h).
Qed.

(** ** Assignments in place *)

Lemma packDaysAt_spec (lessons : list Lesson.t) (c : Cursor) (h : heap)
    (items : list positive) (days : list DayPlan.t) :
  NoDup items -> mapM (readDay h) items = Some days ->
  exists h',
    packDaysAt lessons c h items = Some ((packDays lessons c days).1, h')
    /\ mapM (readDay h') items = Some (packDays lessons c days).2
    /\ (forall x, x ∉ items -> h' !! x = h !! x).
Proof.
  revert c h days. induction items as [|l rest IH]; intros c h days Hnd Hread.
  { injection Hread as <-. by exists h. }
  apply NoDup_cons in Hnd as [Hl Hnd]. cbn [mapM] in Hread.
  apply bind_Some in Hread as (day & Hday & Hread).
  apply bind_Some in Hread as (days' & Hrest & [= <-]).
  rewrite packDays_cons. cbn [fst snd packDaysAt]. unfold packDayAt.
  rewrite Hday. cbn [mbind option_bind].
  destruct (packDay lessons c day) as [c1 day'] eqn:Hpack. cbn [fst snd].
  set (h1 := <[l := DayObj day']> h).
  assert (Hrest1 : mapM (readDay h1) rest = Some days').
  { rewrite <- Hrest. apply mapM_readDay_agree. intros x Hx.
    apply lookup_insert_ne. by intros <-. }
  destruct (IH c1 h1 days' Hnd Hrest1) as (h' & Hrun & Hread' & Hframe).
  exists h'. split; [done|]. split.
  - cbn [mapM]. unfold readDay at 2. rewrite (Hframe l Hl).
    unfold h1. rewrite lookup_insert_eq. by rewrite Hread'.
  - intros x Hx. apply not_elem_of_cons in Hx as [Hne Hx].
    rewrite (Hframe x Hx). by apply lookup_insert_ne.
Qed.

Lemma packWeekAt_spec (lessons : list Lesson.t) (c : Cursor) (h : heap)
    (l : positive) (w : WeekPlan.t) :
  NoDup (locsWeek h l) -> readWeek h l = Some w ->
  exists h',
    packWeekAt lessons c h l
    = Some ((packDays lessons c (WeekPlan.days w)).1, h')
    /\ readWeek h' l
       = Some (withDays w (packDays lessons c (WeekPlan.days w)).2)
    /\ locsWeek h' l = locsWeek h l
    /\ (forall x, x ∉ locsWeek h l -> h' !! x = h !! x).
Proof.
  unfold packWeekAt, readWeek, locsWeek, readDays, locsDays.
  destruct (h !! l) as [[|n label dates daysRef blocked blockLabel|]|] eqn:Hl;
    try done.
  destruct (h !! daysRef) as [[| |items]|] eqn:Hd; try done.
  intros Hnd Hread. apply bind_Some in Hread as (days & Hdays & [= <-]).
  apply NoDup_cons in Hnd as [Hl1 Hnd]. apply NoDup_cons in Hnd as [Hd1 Hnd].
  apply not_elem_of_cons in Hl1 as [Hne Hl1].
  destruct (packDaysAt_spec lessons c h items days Hnd Hdays)
    as (h' & Hrun & Hread' & Hframe).
  exists h'. cbn [WeekPlan.days]. split; [done|].
  rewrite (Hframe l Hl1), Hl, (Hframe daysRef Hd1), Hd, Hread'.
  split; [done|]. split; [done|].
  intros x Hx. apply Hframe. intros Hin. apply Hx. by do 2 right.
Qed.

Lemma packWeeksAt_spec (lessons : list Lesson.t) (c : Cursor) (h : heap)
    (items : list positive) (ws : list WeekPlan.t) :
  NoDup (flat_map (locsWeek h) items) -> mapM (readWeek h) items = Some ws ->
  exists h',
    packWeeksAt lessons c h items = Some ((packWeeks lessons c ws).1, h')
    /\ mapM (readWeek h') items = Some (packWeeks lessons c ws).2
    /\ flat_map (locsWeek h') items = flat_map (locsWeek h) items
    /\ (forall x, x ∉ flat_map (locsWeek h) items -> h' !! x = h !! x).
Proof.
  revert c h ws. induction items as [|l rest IH]; intros c h ws Hnd Hread.
  { injection Hread as <-. by exists h. }
  cbn [flat_map] in Hnd. apply NoDup_app in Hnd as (Hnd1 & Hdisj & Hnd2).
  cbn [mapM] in Hread. apply bind_Some in Hread as (w & Hw & Hread).
  apply bind_Some in Hread as (ws' & Hrest & [= <-]).
  rewrite packWeeks_cons. cbn [fst snd packWeeksAt].
  destruct (packWeekAt_spec lessons c h l w Hnd1 Hw)
    as (h1 & Hrun1 & Hw1 & Hlocs1 & Hframe1).
  rewrite Hrun1. cbn [mbind option_bind].
  destruct (readWeekList_agree h h1 rest) as [Hread1 Hlocs].
  { intros x Hx. apply Hframe1. intros Hin. by apply (Hdisj x). }
  rewrite <- Hread1 in Hrest. rewrite <- Hlocs in Hnd2.
  destruct (IH (packDays lessons c (WeekPlan.days w)).1 h1 ws' Hnd2 Hrest)
    as (h' & Hrun & Hread' & Hlocs' & Hframe).
  destruct (readWeek_agree h1 h' l) as [Hw' Hlocs1'].
  { intros x Hx. apply Hframe. rewrite Hlocs. intros Hin.
    rewrite Hlocs1 in Hx. by apply (Hdisj x). }
  exists h'. split; [done|]. cbn [mapM flat_map].
  rewrite Hw', Hw1, Hread', Hlocs1', Hlocs1, Hlocs', Hlocs.
  split; [done|]. split; [done|].
  intros x Hx. rewrite elem_of_app in Hx.
  rewrite Hframe by (rewrite Hlocs; tauto). apply Hframe1. tauto.
Qed.

(** ** The copy and the input *)

(** C7: when the reference [weeks] stands for week plans in the store,
    [distributeLessons] returns a reference; every object that the
    store held before the call holds what it held, so [weeks] stands for
    the same week plans afterwards; the returned reference stands for
    the packed week plans; and no object it reaches existed before the
    call. *)
Theorem distributeLessonsAt_fresh (h : heap) (weeks : positive)
    (ws : list WeekPlan.t) (lessons : list Lesson.t) :
  readWeeks h weeks = Some ws ->
  exists h' updatedWeeks,
    distributeLessonsAt h weeks lessons = Some (h', updatedWeeks)
    /\ (forall x, x ∈ dom h -> h' !! x = h !! x)
    /\ readWeeks h' weeks = Some ws
    /\ readWeeks h' updatedWeeks = Some (distributeLessons ws lessons)
    /\ (forall x, x ∈ locsWeeks h' updatedWeeks -> x ∉ dom h).
Proof.
  intros Hws. unfold distributeLessonsAt, jsonCopy. rewrite Hws.
  cbn [mbind option_bind].
  destruct (allocWeeks h ws) as [h1 r] eqn:Halloc.
  apply allocWeeks_spec in Halloc as (Hold1 & Hread1 & Hnd & Hfresh).
  unfold readWeeks, locsWeeks in Hread1, Hnd, Hfresh.
  destruct (h1 !! r) as [[| |items]|] eqn:Hr; try done.
  apply NoDup_cons in Hnd as [Hr1 Hnd].
  destruct (packWeeksAt_spec lessons (mkCursor 0 0) h1 items ws Hnd Hread1)
    as (h2 & Hrun & Hread2 & Hlocs & Hframe).
  rewrite Hrun. cbn [mbind option_bind]. exists h2, r. split; [done|].
  assert (Hold : forall x, x ∈ dom h -> h2 !! x = h !! x).
  { intros x Hx. rewrite Hframe; [by apply Hold1|].
    intros Hin. apply (Hfresh x); [by right|done]. }
  split; [done|]. split; [|split].
  - destruct (readWeeks_agree h h2 weeks) as [-> _]; [|done].
    intros x Hx. by apply Hold, (readWeeks_dom h weeks ws).
  - unfold readWeeks. by rewrite (Hframe r Hr1), Hr.
  - unfold locsWeeks. rewrite (Hframe r Hr1), Hr, Hlocs. apply Hfresh.
Qed.

Lemma distributeLessonsAt_fresh_witness :
  exists h' updatedWeeks,
    distributeLessonsAt sundayStore 1 [linearEquations] = Some (h', updatedWeeks)
    /\ (forall x, x ∈ dom sundayStore -> h' !! x = sundayStore !! x)
    /\ readWeeks h' 1 = Some [sundayWeek]
    /\ readWeeks h' updatedWeeks
       = Some (distributeLessons [sundayWeek] [linearEquations])
    /\ (forall x, x ∈ locsWeeks h' updatedWeeks -> x ∉ dom sundayStore).
Proof.
  apply (distributeLessonsAt_fresh sundayStore 1 [sundayWeek] [linearEquations]).
  vm_compute. reflexivity.
Defined.

(** On the example the copy takes the references 5 to 8, and its day
    carries the lesson while the day of the input carries none. *)
Example distributeLessonsAt_sundayStore :
  exists h',
    distributeLessonsAt sundayStore 1 [linearEquations] = Some (h', 8%positive)
    /\ locsWeeks h' 8 = [8; 7; 6; 5]%positive
    /\ (DayPlan.lessonId <$> readDay h' 5) = Some (Some "l1"%string)
    /\ (DayPlan.lessonId <$> readDay h' 4) = Some None.
Proof. eexists. split; [vm_compute; reflexivity|]. by vm_compute. Qed.

(** * Further properties *)

(** ** The days that are generated *)

Section GeneratedDays.
Variable newDate : string -> Date.
Variables (s e : Z).
Variable blockedDates : list BlockedDate.t.
Variable blockedWeeks : list BlockedWeek.t.

Lemma kept_app (l1 l2 : list Z) : kept s e (l1 ++ l2) = kept s e l1 ++ kept s e l2.
Proof. apply flat_map_app. Qed.

Lemma kept_outside (l : list Z) :
  (forall d, d ∈ l -> inRange s e d = false) -> kept s e l = [].
Proof. intros H. apply flat_map_nil. intros d Hd. by rewrite (H d Hd). Qed.

Lemma schoolDay_weekday (r i : Z) :
  0 <= i < 7 -> schoolDay (sunday0 s + 7 * (r - 1) + i) = (i <? 5).
Proof.
  intros Hi. unfold schoolDay. rewrite getDay_mul.
  assert (Hday : (sunday0 s + 7 * (r - 1) + i + 4) mod 7 = i).
  { pose proof (sunday0_sunday s (r - 1)). Z.div_mod_to_equations. lia. }
  rewrite Hday. unfold includes, SCHOOL_DAYS. simpl.
  destruct (Z.ltb_spec i 5); repeat case_eqb; first [done | lia].
Qed.

Lemma dayCell_kept (r i : Z) wb :
  0 <= i < 5 ->
  DayPlan.date <$> dayCell newDate s e blockedDates (sunday0 s + 7 * (r - 1)) wb i
  = kept s e [sunday0 s + 7 * (r - 1) + i].
Proof.
  intros Hi. unfold kept, dayCell. cbn [flat_map].
  rewrite app_nil_r, schoolDay_weekday by lia.
  replace (i <? 5) with true by (symmetry; apply Z.ltb_lt; lia).
  rewrite andb_true_r. by destruct (inRange s e _).
Qed.

Lemma weekend_kept (r i : Z) :
  5 <= i < 7 -> kept s e [sunday0 s + 7 * (r - 1) + i] = [].
Proof.
  intros Hi. unfold kept. cbn [flat_map].
  rewrite schoolDay_weekday by lia.
  replace (i <? 5) with false by (symmetry; apply Z.ltb_ge; lia).
  by rewrite andb_false_r.
Qed.

Lemma week_kept (r : Z) wb :
  DayPlan.date <$>
    flat_map (dayCell newDate s e blockedDates (sunday0 s + 7 * (r - 1)) wb)
             (seqZ 0 5)
  = kept s e (seqZ (sunday0 s + 7 * (r - 1)) 7).
Proof.
  replace (seqZ (sunday0 s + 7 * (r - 1)) 7)
    with (Z.add (sunday0 s + 7 * (r - 1)) <$> seqZ 0 7)
    by (rewrite fmap_add_seqZ; f_equal; lia).
  change (seqZ 0 5) with [0; 1; 2; 3; 4].
  change (seqZ 0 7) with [0; 1; 2; 3; 4; 5; 6].
  cbn [flat_map fmap list_fmap]. rewrite !fmap_app, !dayCell_kept by lia.
  pose proof (weekend_kept r 5 ltac:(lia)) as H5.
  pose proof (weekend_kept r 6 ltac:(lia)) as H6.
  unfold kept in *. cbn [flat_map fmap list_fmap] in *.
  rewrite app_nil_r in H5, H6. by rewrite H5, H6, !app_nil_r.
Qed.

Lemma weeksLoop_kept (fuel : nat) (k c : Z) :
  DayPlan.date <$> flat_map WeekPlan.days
    (weeksLoop newDate s (endOfDay e) blockedDates blockedWeeks fuel
       ((sunday0 s + 7 * k) * MS_PER_DAY) (1 + k) c).*2
  = kept s e (seqZ (sunday0 s + 7 * k) (7 * Z.of_nat fuel)).
Proof.
  revert k c. induction fuel as [|fuel IH]; intros k c; [done|].
  rewrite weeksLoop_unfold.
  destruct (Z.leb_spec (sunday0 s + 7 * k) (dayIndex e)) as [Hle|Hgt].
  - replace (7 * Z.of_nat (S fuel)) with (7 + 7 * Z.of_nat fuel) by lia.
    rewrite seqZ_app, kept_app by lia.
    replace (sunday0 s + 7 * k + 7) with (sunday0 s + 7 * (k + 1)) by lia.
    rewrite <- (IH (k + 1) (weekOf newDate s e blockedDates blockedWeeks (1 + k) c).2).
    pose proof (week_kept (1 + k) (List.find (matchesWeek (1 + k)) blockedWeeks))
      as Hweek.
    replace (1 + k - 1) with k in Hweek by lia. rewrite <- Hweek.
    cbn zeta. unfold weekOf. replace (1 + k - 1) with k by lia.
    destruct (buildWeek _ _ c) as [[week|] c'] eqn:Hb; cbn [fst snd].
    + apply buildWeek_inv in Hb as (_ & Hdays & _).
      cbn [fmap list_fmap snd flat_map]. by rewrite fmap_app, Hdays.
    + assert (Hnil : (buildWeek (List.find (matchesWeek (1 + k)) blockedWeeks)
                        (flat_map (dayCell newDate s e blockedDates
                                     (sunday0 s + 7 * k)
                                     (List.find (matchesWeek (1 + k)) blockedWeeks))
                                  (seqZ 0 5)) c).1 = None) by by rewrite Hb.
      apply buildWeek_pushed in Hnil. by rewrite Hnil.
  - symmetry. apply kept_outside. intros d Hd.
    apply elem_of_seqZ in Hd. unfold inRange.
    replace (d <=? dayIndex e) with false by (symmetry; apply Z.leb_gt; lia).
    apply andb_false_r.
Qed.

Lemma generateEmptyWeeks_kept :
  DayPlan.date <$> flat_map WeekPlan.days
    (generateEmptyWeeks newDate (Time s) (Time e) blockedDates blockedWeeks)
  = kept s e (seqZ (sunday0 s)
                   (7 * Z.of_nat (weeksFuel (firstSundayOf s) (endOfDay e)))).
Proof.
  unfold generateEmptyWeeks, generateEmptyWeeksRaw.
  pose proof (weeksLoop_kept (weeksFuel (firstSundayOf s) (endOfDay e)) 0 1) as H.
  rewrite <- firstSundayOf_sunday0 in H. change (1 + 0) with 1 in H.
  rewrite H. do 2 f_equal. lia.
Qed.

Lemma kept_range (a n : Z) :
  a <= dayIndex s -> dayIndex s <= dayIndex e -> dayIndex e < a + n ->
  kept s e (seqZ a n) = schoolDaysOf s e.
Proof.
  intros Ha Hse Hn.
  replace n with ((dayIndex s - a)
                  + ((dayIndex e - dayIndex s + 1) + (a + n - dayIndex e - 1)))
    by lia.
  rewrite (seqZ_app _ (dayIndex s - a)) by lia.
  rewrite (seqZ_app _ (dayIndex e - dayIndex s + 1)) by lia.
  rewrite !kept_app.
  rewrite (kept_outside (seqZ a _)).
  2:{ intros d Hd. apply elem_of_seqZ in Hd. unfold inRange.
      by replace (dayIndex s <=? d) with false by (symmetry; apply Z.leb_gt; lia). }
  rewrite (kept_outside (seqZ (a + _ + _) _)).
  2:{ intros d Hd. apply elem_of_seqZ in Hd. unfold inRange.
      replace (d <=? dayIndex e) with false by (symmetry; apply Z.leb_gt; lia).
      apply andb_false_r. }
  rewrite app_nil_r. cbn [app]. unfold schoolDaysOf.
  replace (a + (dayIndex s - a)) with (dayIndex s) by lia.
  assert (Hin : forall d, d ∈ seqZ (dayIndex s) (dayIndex e - dayIndex s + 1)
                          -> inRange s e d = true).
  { intros d Hd. apply elem_of_seqZ in Hd. unfold inRange.
    apply andb_true_iff. split; apply Z.leb_le; lia. }
  revert Hin. generalize (seqZ (dayIndex s) (dayIndex e - dayIndex s + 1)).
  intros l. induction l as [|d l IH]; intros Hin; [done|].
  unfold kept. cbn [flat_map List.filter]. rewrite (Hin d) by left.
  cbn [andb]. fold (kept s e l).
  rewrite IH by (intros d' Hd'; apply Hin; by right).
  by destruct (schoolDay d).
Qed.

Lemma kept_sorted (l : list Z) :
  StronglySorted Z.lt l -> StronglySorted Z.lt (kept s e l).
Proof.
  induction l as [|d l IH]; intros Hs; [constructor|].
  apply StronglySorted_inv in Hs as [Hl Hd]. unfold kept. cbn [flat_map].
  fold (kept s e l). destruct (inRange s e d && schoolDay d); [|by apply IH].
  cbn [app]. constructor; [by apply IH|].
  apply Forall_forall. intros t Ht.
  apply list_elem_of_In, in_flat_map in Ht as (d' & Hd' & Ht).
  destruct (inRange s e d' && schoolDay d'); [|by destruct Ht].
  destruct Ht as [<-|[]]. rewrite Forall_forall in Hd.
  apply list_elem_of_In in Hd'. specialize (Hd d' Hd').
  unfold MS_PER_DAY. lia.
Qed.

Lemma seqZ_sorted (a n : Z) : StronglySorted Z.lt (seqZ a n).
Proof.
  destruct (Z.le_gt_cases n 0) as [Hn|Hn]; [rewrite seqZ_nil by done; constructor|].
  rewrite <- (Z2Nat.id n) by lia. generalize (Z.to_nat n). clear. intros k.
  revert a. induction k as [|k IH]; intros a; [constructor|].
  rewrite Nat2Z.inj_succ, seqZ_cons, Z.pred_succ by lia.
  constructor; [apply IH|]. apply Forall_forall. intros x Hx.
  apply elem_of_seqZ in Hx. lia.
Qed.

End GeneratedDays.

Lemma kept_days (s e : Z) (l : list Z) :
  dayIndex <$> kept s e l
  = List.filter (fun d => inRange s e d && schoolDay d) l.
Proof.
  induction l as [|d l IH]; [done|].
  unfold kept. cbn [flat_map List.filter]. fold (kept s e l).
  rewrite fmap_app, IH.
  destruct (inRange s e d && schoolDay d); [|done].
  cbn [fmap list_fmap app]. by rewrite dayIndex_mul.
Qed.

Lemma filter_sorted {A} (R : relation A) (p : A -> bool) (l : list A) :
  StronglySorted R l -> StronglySorted R (List.filter p l).
Proof.
  induction 1 as [|x l Hs IH Hx]; [constructor|]. cbn [List.filter].
  destruct (p x); [|done]. constructor; [done|].
  apply Forall_forall. intros y Hy.
  apply list_elem_of_In, filter_In in Hy as [Hy _].
  rewrite Forall_forall in Hx. apply Hx. by apply list_elem_of_In.
Qed.

Lemma generateEmptyWeeks_days (newDate : string -> Date) (s e : Z)
    (blockedDates : list BlockedDate.t) (blockedWeeks : list BlockedWeek.t) :
  calendarDay <$> flat_map WeekPlan.days
    (generateEmptyWeeks newDate (Time s) (Time e) blockedDates blockedWeeks)
  = dayIndex <$> kept s e (seqZ (sunday0 s)
                     (7 * Z.of_nat (weeksFuel (firstSundayOf s) (endOfDay e)))).
Proof.
  change calendarDay with (dayIndex ∘ DayPlan.date).
  by rewrite list_fmap_compose, generateEmptyWeeks_kept.
Qed.

(** X1: for a start and an end away from the ends of the range of
    [Date], the start not after the end, the calendar days of the
    generated day plans, week after week, are the Sundays to Thursdays
    from the day of the start to the day of the end, each once and in
    calendar order, whatever the exclusions. *)
Theorem generateEmptyWeeks_calendar_days (newDate : string -> Date) (s e : Z)
    (blockedDates : list BlockedDate.t) (blockedWeeks : list BlockedWeek.t) :
  insideDateRange s -> insideDateRange e -> s <= e ->
  calendarDay <$> flat_map WeekPlan.days
    (generateEmptyWeeks newDate (Time s) (Time e) blockedDates blockedWeeks)
  = schoolDayIndices s e.
Proof.
  intros _ _ Hse. apply dayIndex_mono in Hse.
  rewrite generateEmptyWeeks_days, kept_range; [|pose proof (sunday0_le s); lia|done|].
  - unfold schoolDaysOf, schoolDayIndices. rewrite <- list_fmap_compose.
    etrans; [|apply list_fmap_id]. apply list_fmap_ext.
    intros _ d _. cbn. apply dayIndex_mul.
  - pose proof (weeksFuel_enough (firstSundayOf s) (endOfDay e)) as Hfuel.
    set (fuel := weeksFuel (firstSundayOf s) (endOfDay e)) in *.
    rewrite firstSundayOf_spec in Hfuel. fold (sunday0 s) in Hfuel.
    unfold endOfDay in Hfuel. rewrite startOfDay_dayIndex in Hfuel.
    revert Hfuel. generalize (dayIndex e) (sunday0 s) (Z.of_nat fuel).
    unfold MS_PER_DAY. intros; lia.
Qed.

Lemma generateEmptyWeeks_calendar_days_witness :
  calendarDay <$> flat_map WeekPlan.days
    (generateEmptyWeeks hostDate (Time (sep 5)) (Time (sep 9))
       [examSep3] [secondWeekOff])
  = schoolDayIndices (sep 5) (sep 9).
Proof.
  apply (generateEmptyWeeks_calendar_days hostDate (sep 5) (sep 9)).
  - split; vm_compute; discriminate.
  - split; vm_compute; discriminate.
  - vm_compute. discriminate.
Defined.

(** X2: for a start and an end away from the ends of the range of
    [Date], in either order, the calendar days of the generated day
    plans are strictly increasing from one day plan to the next, across
    weeks; each is a Sunday to Thursday from the day of the start to the
    day of the end. *)
Theorem generateEmptyWeeks_chronological (newDate : string -> Date) (s e : Z)
    (blockedDates : list BlockedDate.t) (blockedWeeks : list BlockedWeek.t) :
  insideDateRange s -> insideDateRange e ->
  let days :=
    calendarDay <$> flat_map WeekPlan.days
      (generateEmptyWeeks newDate (Time s) (Time e) blockedDates blockedWeeks) in
  StronglySorted Z.lt days
  /\ Forall (fun d => dayIndex s <= d <= dayIndex e /\ schoolDay d = true) days.
Proof.
  intros _ _. cbn zeta. rewrite generateEmptyWeeks_days, kept_days. split.
  - apply filter_sorted, seqZ_sorted.
  - apply Forall_forall. intros d Hd.
    apply list_elem_of_In, filter_In in Hd as [_ Hd].
    apply andb_true_iff in Hd as [Hr Hsd]. split; [|done].
    unfold inRange in Hr. apply andb_true_iff in Hr as [H1 H2].
    apply Z.leb_le in H1, H2. done.
Qed.

Lemma generateEmptyWeeks_chronological_witness :
  StronglySorted Z.lt
    (calendarDay <$> flat_map WeekPlan.days
       (generateEmptyWeeks hostDate (Time (sep 1)) (Time (sep 12))
          [examSep3] [secondWeekOff]))
  /\ Forall (fun d => dayIndex (sep 1) <= d <= dayIndex (sep 12)
                      /\ schoolDay d = true)
       (calendarDay <$> flat_map WeekPlan.days
          (generateEmptyWeeks hostDate (Time (sep 1)) (Time (sep 12))
             [examSep3] [secondWeekOff])).
Proof.
  apply (generateEmptyWeeks_chronological hostDate (sep 1) (sep 12)
           [examSep3] [secondWeekOff]).
  - split; vm_compute; discriminate.
  - split; vm_compute; discriminate.
Defined.


(** ** The weeks that are generated *)

Lemma dayCells_length (newDate : string -> Date) (s e : Z)
    (blockedDates : list BlockedDate.t) (W : Z) wb (l : list Z) :
  (length (flat_map (dayCell newDate s e blockedDates W wb) l) <= length l)%nat.
Proof.
  induction l as [|i l IH]; cbn [flat_map length]; [done|].
  rewrite length_app. unfold dayCell at 1.
  destruct (inRange s e (W + i)); cbn [length]; lia.
Qed.

Lemma weekOf_days_length (newDate : string -> Date) (s e : Z)
    (blockedDates : list BlockedDate.t) (blockedWeeks : list BlockedWeek.t)
    (r c : Z) (w : WeekPlan.t) :
  (weekOf newDate s e blockedDates blockedWeeks r c).1 = Some w ->
  (1 <= length (WeekPlan.days w) <= 5)%nat.
Proof.
  unfold weekOf. intros Hw.
  destruct (buildWeek _ _ c) as [o c'] eqn:Hb. simpl in Hw. subst o.
  apply buildWeek_inv in Hb as (Hne & -> & _). split.
  - destruct (flat_map _ _); [done|cbn [length]; lia].
  - etransitivity; [apply dayCells_length|]. by rewrite length_seqZ.
Qed.

(** X3: every generated week holds at least one and at most five day
    plans. *)
Theorem generateEmptyWeeks_week_size (newDate : string -> Date)
    (start end_ : Date) (blockedDates : list BlockedDate.t)
    (blockedWeeks : list BlockedWeek.t) :
  Forall (fun w => (1 <= length (WeekPlan.days w) <= 5)%nat)
         (generateEmptyWeeks newDate start end_ blockedDates blockedWeeks).
Proof.
  apply Forall_forall. intros w Hw. unfold generateEmptyWeeks in Hw.
  apply list_elem_of_fmap in Hw as ([r w'] & -> & Hw).
  destruct start as [|s]; [by apply elem_of_nil in Hw|].
  destruct end_ as [|e]; [by apply elem_of_nil in Hw|].
  apply generateEmptyWeeksRaw_elem in Hw as (_ & _ & c & Hw).
  by eapply weekOf_days_length.
Qed.

Lemma weeksLoop_tags (newDate : string -> Date) (s finish : Z)
    (blockedDates : list BlockedDate.t) (blockedWeeks : list BlockedWeek.t)
    (fuel : nat) (weekStart r c : Z) :
  let tags := (weeksLoop newDate s finish blockedDates blockedWeeks fuel
                 weekStart r c).*1 in
  StronglySorted Z.lt tags /\ Forall (Z.le r) tags.
Proof.
  cbn zeta. revert weekStart r c.
  induction fuel as [|fuel IH]; intros weekStart r c; [by split; constructor|].
  cbn [weeksLoop]. destruct (isBefore weekStart finish); [|by split; constructor].
  destruct (buildWeek _ _ c) as [[week|] c'].
  - destruct (IH (addDays weekStart 7) (r + 1) c') as [Hs Hr].
    cbn [fmap list_fmap fst]. split.
    + constructor; [done|]. eapply Forall_impl; [exact Hr|]. intros x. cbn. lia.
    + constructor; [lia|]. eapply Forall_impl; [exact Hr|]. intros x. cbn. lia.
  - destruct (IH (addDays weekStart 7) (r + 1) c') as [Hs Hr].
    split; [done|]. eapply Forall_impl; [exact Hr|]. intros x. cbn. lia.
Qed.

(** X4: the raw week numbers of the generated weeks are at least 1 and
    strictly increasing, and every day plan of a week falls in the raw
    week of that number as [getWeekNum] counts it from the start. *)
Theorem generateEmptyWeeks_raw_weeks (newDate : string -> Date) (s e : Z)
    (blockedDates : list BlockedDate.t) (blockedWeeks : list BlockedWeek.t) :
  let raw :=
    generateEmptyWeeksRaw newDate (Time s) (Time e) blockedDates blockedWeeks in
  StronglySorted Z.lt raw.*1
  /\ Forall (Z.le 1) raw.*1
  /\ Forall (fun '(r, w) =>
               Forall (fun d => getWeekNum s (DayPlan.date d) = r)
                      (WeekPlan.days w)) raw.
Proof.
  cbn zeta. split; [|split].
  - apply weeksLoop_tags.
  - apply weeksLoop_tags.
  - apply Forall_forall. intros [r w] Hw. apply Forall_forall. intros d Hd.
    by eapply rawWeek_getWeekNum.
Qed.

Lemma buildWeek_fields wb (weekDays : list DayPlan.t) (c : Z) w c' :
  buildWeek wb weekDays c = (Some w, c') ->
  WeekPlan.isBlocked w = truthy wb
  /\ WeekPlan.blockLabel w = BlockedWeek.label <$> wb
  /\ WeekPlan.displayWeekLabel w
     = if excludedFromCount wb then
         match wb with
         | Some x =>
           if nonEmpty (BlockedWeek.label x) then BlockedWeek.label x
           else "Holiday Break"%string
         | None => "Holiday Break"%string
         end
       else ("Week " +:+ pretty c)%string.
Proof.
  unfold buildWeek. destruct weekDays as [|first rest]; [done|].
  destruct (last (first :: rest)) as [final|]; [|done].
  fold (excludedFromCount wb). by intros [= <- _].
Qed.

(** X5: a generated week is flagged blocked exactly when a week-level
    exclusion carries its raw week number; then its label is the label
    of the first such exclusion, and every day plan of the week is
    blocked. *)
Theorem generateEmptyWeeks_week_blocked (newDate : string -> Date)
    (start end_ : Date) (blockedDates : list BlockedDate.t)
    (blockedWeeks : list BlockedWeek.t) (r : Z) (w : WeekPlan.t) :
  (r, w) ∈ generateEmptyWeeksRaw newDate start end_ blockedDates blockedWeeks ->
  (WeekPlan.isBlocked w = true
   <-> exists x, x ∈ blockedWeeks /\ BlockedWeek.weekNumber x = r)
  /\ WeekPlan.blockLabel w
     = BlockedWeek.label <$> List.find (matchesWeek r) blockedWeeks
  /\ (WeekPlan.isBlocked w = true ->
      Forall (fun d => DayPlan.isBlocked d = true) (WeekPlan.days w)).
Proof.
  intros Hw.
  destruct start as [|s]; [by apply elem_of_nil in Hw|].
  destruct end_ as [|e]; [by apply elem_of_nil in Hw|].
  apply generateEmptyWeeksRaw_elem in Hw as (_ & _ & c & Hw).
  pose proof Hw as Hw'. unfold weekOf in Hw'.
  destruct (buildWeek _ _ c) as [o c'] eqn:Hb. simpl in Hw'. subst o.
  apply buildWeek_fields in Hb as (Hblocked & Hlabel & _).
  rewrite Hblocked, Hlabel. split; [|split; [done|]].
  - rewrite truthy_find. unfold matchesWeek. by setoid_rewrite Z.eqb_eq.
  - intros Hwb. apply Forall_forall. intros d Hd.
    destruct (weekOf_day _ _ _ _ _ _ _ _ _ Hw Hd) as (i & _ & _ & ->).
    cbn [dayPlanAt DayPlan.isBlocked]. by rewrite Hwb.
Qed.

Lemma generateEmptyWeeks_week_blocked_witness :
  (WeekPlan.isBlocked examSundayWeek = true
   <-> exists x, x ∈ [unnamedBreak] /\ BlockedWeek.weekNumber x = 1)
  /\ WeekPlan.blockLabel examSundayWeek
     = BlockedWeek.label <$> List.find (matchesWeek 1) [unnamedBreak]
  /\ (WeekPlan.isBlocked examSundayWeek = true ->
      Forall (fun d => DayPlan.isBlocked d = true) (WeekPlan.days examSundayWeek)).
Proof.
  apply (generateEmptyWeeks_week_blocked hostDate (Time (sep 1)) (Time (sep 1))
           [examSep1] [unnamedBreak] 1 examSundayWeek).
  apply (list_elem_of_lookup_2 _ 0%nat). vm_compute. reflexivity.
Defined.

(** X6: the display label of a generated week is never empty: a week
    with number n is labelled "Week n", and a week without a number
    takes the label of the first exclusion that carries its raw week
    number, or "Holiday Break" when that label is empty. *)
Theorem generateEmptyWeeks_displayWeekLabel (newDate : string -> Date)
    (start end_ : Date) (blockedDates : list BlockedDate.t)
    (blockedWeeks : list BlockedWeek.t) (r : Z) (w : WeekPlan.t) :
  (r, w) ∈ generateEmptyWeeksRaw newDate start end_ blockedDates blockedWeeks ->
  nonEmpty (WeekPlan.displayWeekLabel w) = true
  /\ match WeekPlan.weekNumber w with
     | Some n => WeekPlan.displayWeekLabel w = ("Week " +:+ pretty n)%string
     | None =>
       exists x, List.find (matchesWeek r) blockedWeeks = Some x
         /\ WeekPlan.displayWeekLabel w
            = if nonEmpty (BlockedWeek.label x) then BlockedWeek.label x
              else "Holiday Break"%string
     end.
Proof.
  intros Hw.
  destruct start as [|s]; [by apply elem_of_nil in Hw|].
  destruct end_ as [|e]; [by apply elem_of_nil in Hw|].
  apply generateEmptyWeeksRaw_elem in Hw as (_ & _ & c & Hw).
  unfold weekOf in Hw.
  destruct (buildWeek _ _ c) as [o c'] eqn:Hb. simpl in Hw. subst o.
  pose proof (buildWeek_fields _ _ _ _ _ Hb) as (_ & _ & Hlabel).
  apply buildWeek_inv in Hb as (_ & _ & Hn & _). rewrite Hn, Hlabel.
  destruct (List.find (matchesWeek r) blockedWeeks) as [x|]; cbn [excludedFromCount].
  - destruct (BlockedWeek.excludeFromCount x); [|done].
    split; [|by exists x]. by destruct (nonEmpty (BlockedWeek.label x)) eqn:Hx.
  - done.
Qed.

Lemma generateEmptyWeeks_displayWeekLabel_witness :
  nonEmpty (WeekPlan.displayWeekLabel examSundayWeek) = true
  /\ match WeekPlan.weekNumber examSundayWeek with
     | Some n => WeekPlan.displayWeekLabel examSundayWeek
                 = ("Week " +:+ pretty n)%string
     | None =>
       exists x, List.find (matchesWeek 1) [unnamedBreak] = Some x
         /\ WeekPlan.displayWeekLabel examSundayWeek
            = if nonEmpty (BlockedWeek.label x) then BlockedWeek.label x
              else "Holiday Break"%string
     end.
Proof.
  apply (generateEmptyWeeks_displayWeekLabel hostDate (Time (sep 1)) (Time (sep 1))
           [examSep1] [unnamedBreak] 1 examSundayWeek).
  apply (list_elem_of_lookup_2 _ 0%nat). vm_compute. reflexivity.
Defined.

(** ** The statistics and the number of weeks *)

Lemma flat_map_days_length (weeks : list WeekPlan.t) :
  Forall (fun w => (1 <= length (WeekPlan.days w) <= 5)%nat) weeks ->
  (length (flat_map WeekPlan.days weeks) <= 5 * length weeks)%nat.
Proof.
  induction 1 as [|w ws Hw _ IH]; cbn [flat_map length]; [done|].
  rewrite length_app. lia.
Qed.

Lemma filter_length_le {A} (p : A -> bool) (l : list A) :
  (length (List.filter p l) <= length l)%nat.
Proof.
  induction l as [|x l IH]; cbn [List.filter length]; [done|].
  destruct (p x); cbn [length]; lia.
Qed.

Lemma generateEmptyWeeks_days_le (newDate : string -> Date)
    (start end_ : Date) (blockedDates : list BlockedDate.t)
    (blockedWeeks : list BlockedWeek.t) :
  let weeks := generateEmptyWeeks newDate start end_ blockedDates blockedWeeks in
  (length (flat_map WeekPlan.days weeks) <= 5 * length weeks)%nat.
Proof.
  apply flat_map_days_length, Forall_forall. intros w Hw.
  unfold generateEmptyWeeks in Hw.
  apply list_elem_of_fmap in Hw as ([r w'] & -> & Hw).
  destruct start as [|s]; [by apply elem_of_nil in Hw|].
  destruct end_ as [|e]; [by apply elem_of_nil in Hw|].
  apply generateEmptyWeeksRaw_elem in Hw as (_ & _ & c & Hw).
  by eapply weekOf_days_length.
Qed.

(** X7: the day count of the statistics is never negative and never
    above the number of generated day plans; the week count is the day
    count divided by five and rounded up, and is never above the number
    of generated weeks. *)
Theorem calculateInstructionalStats_bounds (newDate : string -> Date)
    (start end_ : Date) (blockedDates : list BlockedDate.t)
    (blockedWeeks : list BlockedWeek.t) :
  let stats :=
    calculateInstructionalStats newDate start end_ blockedDates blockedWeeks in
  let weeks := generateEmptyWeeks newDate start end_ blockedDates blockedWeeks in
  0 <= totalDays stats <= Z.of_nat (length (flat_map WeekPlan.days weeks))
  /\ 5 * (totalWeeks stats - 1) < totalDays stats <= 5 * totalWeeks stats
  /\ totalWeeks stats <= Z.of_nat (length weeks).
Proof.
  cbn zeta.
  pose proof (generateEmptyWeeks_days_le newDate start end_ blockedDates
                blockedWeeks) as Hsize. cbn zeta in Hsize.
  destruct start as [|s]; [cbn; lia|]. destruct end_ as [|e]; [cbn; lia|].
  unfold calculateInstructionalStats.
  destruct (Z.ltb_spec e s) as [Hlt|Hle]; unfold isAfter.
  { replace (e <? s) with true by (symmetry; apply Z.ltb_lt; lia). cbn. lia. }
  replace (e <? s) with false by (symmetry; apply Z.ltb_ge; lia).
  cbn [totalDays totalWeeks].
  rewrite <- (unblockedDays_availableDays newDate s e) by done.
  rewrite length_fmap.
  pose proof (filter_length_le (fun d => negb (DayPlan.isBlocked d))
    (flat_map WeekPlan.days (generateEmptyWeeks newDate (Time s) (Time e)
                               blockedDates blockedWeeks))) as Hle'.
  fold (unblockedDays (generateEmptyWeeks newDate (Time s) (Time e)
                         blockedDates blockedWeeks)) in Hle'.
  split; [lia|]. split; Z.div_mod_to_equations; lia.
Qed.


(** ** Exclusions and the statistics *)

Lemma isAvailable_true (newDate : string -> Date) (s : Z)
    (blockedDates : list BlockedDate.t) (blockedWeeks : list BlockedWeek.t)
    (day : Z) :
  isAvailable newDate s blockedDates blockedWeeks day = true
  <-> (forall b, b ∈ blockedDates ->
         matchesDate newDate (format_ymd day) b = false)
      /\ (forall x, x ∈ blockedWeeks ->
            BlockedWeek.weekNumber x <> getWeekNum s day).
Proof.
  unfold isAvailable. rewrite blockedDateStrings_find, <- find_existsb.
  destruct (truthy (List.find (matchesDate newDate _) blockedDates)) eqn:Hd.
  - apply truthy_find in Hd as (b & Hb & Hm). split; [done|].
    intros [Hnone _]. by rewrite (Hnone b Hb) in Hm.
  - destruct (truthy (List.find (matchesWeek _) blockedWeeks)) eqn:Hw; cbn [negb].
    + apply truthy_find in Hw as (x & Hx & Hm). split; [done|].
      intros [_ Hnone]. apply Z.eqb_eq in Hm. by destruct (Hnone x Hx).
    + split; [|done]. intros _. split.
      * intros b Hb. apply not_true_is_false. intros Hm.
        assert (truthy (List.find (matchesDate newDate (format_ymd day))
                                  blockedDates) = true)
          by (apply truthy_find; eauto). congruence.
      * intros x Hx Hm.
        assert (truthy (List.find (matchesWeek (getWeekNum s day))
                                  blockedWeeks) = true)
          by (apply truthy_find; exists x; split; [done|by apply Z.eqb_eq]).
        congruence.
Qed.

Lemma filter_length_mono {A} (p q : A -> bool) (l : list A) :
  (forall x, x ∈ l -> p x = true -> q x = true) ->
  (length (List.filter p l) <= length (List.filter q l))%nat.
Proof.
  induction l as [|x l IH]; intros Hpq; cbn [List.filter]; [done|].
  specialize (IH (fun y Hy => Hpq y (list_elem_of_further _ _ _ Hy))).
  destruct (p x) eqn:Hp.
  - rewrite (Hpq x (list_elem_of_here _ _) Hp). cbn [length]. lia.
  - destruct (q x); cbn [length]; lia.
Qed.

(** X8: exclusions only take days away: when every day-level and every
    week-level exclusion of one configuration also occurs in a second
    one, the second has at most the available days and weeks of the
    first. *)
Theorem calculateInstructionalStats_antitone (newDate : string -> Date)
    (start end_ : Date) (blockedDates blockedDates' : list BlockedDate.t)
    (blockedWeeks blockedWeeks' : list BlockedWeek.t) :
  blockedDates ⊆ blockedDates' -> blockedWeeks ⊆ blockedWeeks' ->
  totalDays (calculateInstructionalStats newDate start end_
               blockedDates' blockedWeeks')
  <= totalDays (calculateInstructionalStats newDate start end_
                  blockedDates blockedWeeks)
  /\ totalWeeks (calculateInstructionalStats newDate start end_
                   blockedDates' blockedWeeks')
     <= totalWeeks (calculateInstructionalStats newDate start end_
                      blockedDates blockedWeeks).
Proof.
  intros Hd Hw. destruct start as [|s]; [done|]. destruct end_ as [|e]; [done|].
  unfold calculateInstructionalStats. destruct (isAfter s e); [done|].
  cbn [totalDays totalWeeks].
  assert (Hle : (length (availableDays newDate s e blockedDates' blockedWeeks')
                 <= length (availableDays newDate s e blockedDates blockedWeeks))%nat).
  { unfold availableDays. apply filter_length_mono. intros day _ Hday.
    apply isAvailable_true in Hday as [H1 H2]. apply isAvailable_true.
    split; [intros b Hb; by apply H1, Hd | intros x Hx; by apply H2, Hw]. }
  split; [lia|]. apply Z.div_le_mono; lia.
Qed.

Lemma calculateInstructionalStats_antitone_witness :
  totalDays (calculateInstructionalStats hostDate (Time (sep 1)) (Time (sep 12))
               [examSep3; examSep1] [secondWeekOff])
  <= totalDays (calculateInstructionalStats hostDate (Time (sep 1)) (Time (sep 12))
                  [examSep3] [])
  /\ totalWeeks (calculateInstructionalStats hostDate (Time (sep 1)) (Time (sep 12))
                   [examSep3; examSep1] [secondWeekOff])
     <= totalWeeks (calculateInstructionalStats hostDate (Time (sep 1)) (Time (sep 12))
                      [examSep3] []).
Proof.
  apply (calculateInstructionalStats_antitone hostDate (Time (sep 1)) (Time (sep 12))).
  - intros b Hb. apply list_elem_of_singleton in Hb as ->. left.
  - intros x Hx. by apply elem_of_nil in Hx.
Defined.

(** X9: the statistics depend on which exclusions are listed, not on
    their order or on repetitions: two configurations that list the same
    exclusions give the same counts. *)
Theorem calculateInstructionalStats_same_exclusions (newDate : string -> Date)
    (start end_ : Date) (blockedDates blockedDates' : list BlockedDate.t)
    (blockedWeeks blockedWeeks' : list BlockedWeek.t) :
  (forall b, b ∈ blockedDates <-> b ∈ blockedDates') ->
  (forall x, x ∈ blockedWeeks <-> x ∈ blockedWeeks') ->
  calculateInstructionalStats newDate start end_ blockedDates blockedWeeks
  = calculateInstructionalStats newDate start end_ blockedDates' blockedWeeks'.
Proof.
  intros Hd Hw. destruct start as [|s]; [done|]. destruct end_ as [|e]; [done|].
  unfold calculateInstructionalStats. destruct (isAfter s e); [done|].
  assert (Heq : availableDays newDate s e blockedDates blockedWeeks
                = availableDays newDate s e blockedDates' blockedWeeks').
  { unfold availableDays. apply filter_ext. intros day.
    apply eq_true_iff_eq. rewrite !isAvailable_true.
    split; intros [H1 H2]; split.
    - intros b Hb. by apply H1, Hd.
    - intros x Hx. by apply H2, Hw.
    - intros b Hb. by apply H1, Hd.
    - intros x Hx. by apply H2, Hw. }
  by rewrite Heq.
Qed.

Lemma calculateInstructionalStats_same_exclusions_witness :
  calculateInstructionalStats hostDate (Time (sep 1)) (Time (sep 12))
    [examSep3; examSep1] [secondWeekOff]
  = calculateInstructionalStats hostDate (Time (sep 1)) (Time (sep 12))
      [examSep1; examSep3; examSep1] [secondWeekOff; secondWeekOff].
Proof.
  apply calculateInstructionalStats_same_exclusions.
  - intros b. rewrite !elem_of_cons. tauto.
  - intros x. rewrite !elem_of_cons. tauto.
Defined.

(** ** Exclusions that match nothing *)

Lemma find_skip {A} (f : A -> bool) (l1 l2 : list A) (x : A) :
  f x = false -> List.find f (l1 ++ x :: l2) = List.find f (l1 ++ l2).
Proof.
  intros Hx. induction l1 as [|y l1 IH]; cbn [app List.find].
  - by rewrite Hx.
  - by destruct (f y).
Qed.

Section SameMatches.
Variable newDate : string -> Date.
Variables (s finish : Z).
Variables (blockedDates blockedDates' : list BlockedDate.t).
Variables (blockedWeeks blockedWeeks' : list BlockedWeek.t).
Hypothesis same_dates : forall k,
  List.find (matchesDate newDate k) blockedDates
  = List.find (matchesDate newDate k) blockedDates'.
Hypothesis same_weeks : forall r, 1 <= r ->
  List.find (matchesWeek r) blockedWeeks = List.find (matchesWeek r) blockedWeeks'.

Lemma weekDaysLoop_same (weekStart : Z) wb (n : nat) (i : Z) :
  weekDaysLoop newDate s finish blockedDates weekStart wb n i
  = weekDaysLoop newDate s finish blockedDates' weekStart wb n i.
Proof.
  revert i. induction n as [|n IH]; intros i; [done|].
  cbn [weekDaysLoop]. by rewrite same_dates, !IH.
Qed.

Lemma weeksLoop_same (fuel : nat) (weekStart r c : Z) :
  1 <= r ->
  weeksLoop newDate s finish blockedDates blockedWeeks fuel weekStart r c
  = weeksLoop newDate s finish blockedDates' blockedWeeks' fuel weekStart r c.
Proof.
  revert weekStart r c. induction fuel as [|fuel IH]; intros weekStart r c Hr;
    [done|].
  cbn [weeksLoop]. rewrite same_weeks, weekDaysLoop_same by done.
  destruct (isBefore weekStart finish); [|done].
  destruct (buildWeek _ _ c) as [[week|] c']; by rewrite IH by lia.
Qed.

End SameMatches.

Lemma generateEmptyWeeks_same (newDate : string -> Date) (s e : Z)
    (blockedDates blockedDates' : list BlockedDate.t)
    (blockedWeeks blockedWeeks' : list BlockedWeek.t) :
  (forall k, List.find (matchesDate newDate k) blockedDates
             = List.find (matchesDate newDate k) blockedDates') ->
  (forall r, 1 <= r -> List.find (matchesWeek r) blockedWeeks
                       = List.find (matchesWeek r) blockedWeeks') ->
  generateEmptyWeeks newDate (Time s) (Time e) blockedDates blockedWeeks
  = generateEmptyWeeks newDate (Time s) (Time e) blockedDates' blockedWeeks'.
Proof.
  intros Hd Hw. unfold generateEmptyWeeks, generateEmptyWeeksRaw.
  rewrite (weeksLoop_same newDate s (endOfDay e) blockedDates blockedDates'
             blockedWeeks blockedWeeks' Hd Hw); [done|lia].
Qed.

(** When the generated weeks agree, so do the statistics. *)
Lemma calculateInstructionalStats_same (newDate : string -> Date) (s e : Z)
    (blockedDates blockedDates' : list BlockedDate.t)
    (blockedWeeks blockedWeeks' : list BlockedWeek.t) :
  generateEmptyWeeks newDate (Time s) (Time e) blockedDates blockedWeeks
  = generateEmptyWeeks newDate (Time s) (Time e) blockedDates' blockedWeeks' ->
  calculateInstructionalStats newDate (Time s) (Time e) blockedDates blockedWeeks
  = calculateInstructionalStats newDate (Time s) (Time e) blockedDates' blockedWeeks'.
Proof.
  intros Hweeks. unfold calculateInstructionalStats.
  destruct (Z.ltb_spec e s) as [Hlt|Hle]; unfold isAfter.
  { by replace (e <? s) with true by (symmetry; apply Z.ltb_lt; lia). }
  replace (e <? s) with false by (symmetry; apply Z.ltb_ge; lia).
  rewrite <- !(unblockedDays_availableDays newDate s e) by done.
  by rewrite Hweeks.
Qed.

(** X10: a day-level exclusion whose date does not parse is ignored:
    listing it anywhere changes neither the generated weeks nor the
    statistics. *)
Theorem invalid_blocked_date_ignored (newDate : string -> Date)
    (start end_ : Date) (before after : list BlockedDate.t) (b : BlockedDate.t)
    (blockedWeeks : list BlockedWeek.t) :
  isValid (newDate (BlockedDate.date b)) = false ->
  generateEmptyWeeks newDate start end_ (before ++ b :: after) blockedWeeks
  = generateEmptyWeeks newDate start end_ (before ++ after) blockedWeeks
  /\ calculateInstructionalStats newDate start end_ (before ++ b :: after)
       blockedWeeks
     = calculateInstructionalStats newDate start end_ (before ++ after)
         blockedWeeks.
Proof.
  intros Hb. destruct start as [|s]; [done|]. destruct end_ as [|e]; [done|].
  assert (Hweeks :
    generateEmptyWeeks newDate (Time s) (Time e) (before ++ b :: after) blockedWeeks
    = generateEmptyWeeks newDate (Time s) (Time e) (before ++ after) blockedWeeks).
  { apply generateEmptyWeeks_same; [|done]. intros k. apply find_skip.
    unfold matchesDate, parseISOIfNeeded. by rewrite Hb. }
  split; [done|]. by apply calculateInstructionalStats_same.
Qed.

Lemma invalid_blocked_date_ignored_witness :
  generateEmptyWeeks hostDate (Time (sep 1)) (Time (sep 5))
    ([examSep3] ++ BlockedDate.mk "soon" "Trip" Event :: []) []
  = generateEmptyWeeks hostDate (Time (sep 1)) (Time (sep 5)) ([examSep3] ++ []) []
  /\ calculateInstructionalStats hostDate (Time (sep 1)) (Time (sep 5))
       ([examSep3] ++ BlockedDate.mk "soon" "Trip" Event :: []) []
     = calculateInstructionalStats hostDate (Time (sep 1)) (Time (sep 5))
         ([examSep3] ++ []) [].
Proof.
  apply (invalid_blocked_date_ignored hostDate (Time (sep 1)) (Time (sep 5))
           [examSep3] [] (BlockedDate.mk "soon" "Trip" Event) []).
  reflexivity.
Defined.

(** X11: a week-level exclusion whose week number is below 1 is ignored:
    listing it anywhere changes neither the generated weeks nor the
    statistics. *)
Theorem blocked_week_below_one_ignored (newDate : string -> Date)
    (start end_ : Date) (blockedDates : list BlockedDate.t)
    (before after : list BlockedWeek.t) (x : BlockedWeek.t) :
  BlockedWeek.weekNumber x < 1 ->
  generateEmptyWeeks newDate start end_ blockedDates (before ++ x :: after)
  = generateEmptyWeeks newDate start end_ blockedDates (before ++ after)
  /\ calculateInstructionalStats newDate start end_ blockedDates
       (before ++ x :: after)
     = calculateInstructionalStats newDate start end_ blockedDates
         (before ++ after).
Proof.
  intros Hx. destruct start as [|s]; [done|]. destruct end_ as [|e]; [done|].
  assert (Hweeks :
    generateEmptyWeeks newDate (Time s) (Time e) blockedDates (before ++ x :: after)
    = generateEmptyWeeks newDate (Time s) (Time e) blockedDates (before ++ after)).
  { apply generateEmptyWeeks_same; [done|]. intros r Hr. apply find_skip.
    unfold matchesWeek. apply Z.eqb_neq. lia. }
  split; [done|]. by apply calculateInstructionalStats_same.
Qed.

Lemma blocked_week_below_one_ignored_witness :
  generateEmptyWeeks hostDate (Time (sep 1)) (Time (sep 5)) []
    ([] ++ BlockedWeek.mk 0 "Break" Holiday true :: [secondWeekOff])
  = generateEmptyWeeks hostDate (Time (sep 1)) (Time (sep 5)) []
      ([] ++ [secondWeekOff])
  /\ calculateInstructionalStats hostDate (Time (sep 1)) (Time (sep 5)) []
       ([] ++ BlockedWeek.mk 0 "Break" Holiday true :: [secondWeekOff])
     = calculateInstructionalStats hostDate (Time (sep 1)) (Time (sep 5)) []
         ([] ++ [secondWeekOff]).
Proof.
  apply (blocked_week_below_one_ignored hostDate (Time (sep 1)) (Time (sep 5))
           [] [] [secondWeekOff] (BlockedWeek.mk 0 "Break" Holiday true)).
  reflexivity.
Defined.


(** ** The weeks the picker lists *)

Lemma rangesLoop_length (s e : Z) (fuel : nat) (k : Z) :
  dayIndex s <= dayIndex e -> 1 <= k ->
  dayIndex e < sunday0 s + 7 * k + 7 * Z.of_nat fuel ->
  Z.of_nat (length (rangesLoop s (endOfDay e) fuel
                      ((sunday0 s + 7 * k) * MS_PER_DAY) (1 + k)))
  = Z.max 0 ((dayIndex e - (sunday0 s + 7 * k)) / 7 + 1).
Proof.
  intros Hse. revert k. induction fuel as [|fuel IH]; intros k Hk Hfuel.
  { cbn [rangesLoop length]. Z.div_mod_to_equations. lia. }
  rewrite rangesLoop_unfold by done.
  destruct (Z.leb_spec (sunday0 s + 7 * k) (dayIndex e)) as [Hle|Hgt].
  - pose proof (sunday0_le s).
    replace (sunday0 s + 7 * k + 4 <? dayIndex s) with false
      by (symmetry; apply Z.ltb_ge; lia).
    cbn [negb app length]. rewrite Nat2Z.inj_succ, IH by lia.
    Z.div_mod_to_equations. lia.
  - cbn [length]. Z.div_mod_to_equations. lia.
Qed.

(** X12: for a valid range whose start is not after its end, the picker
    lists consecutive raw week numbers, from 1 when the range starts on
    a Sunday to Thursday and from 2 when it starts on a Friday or
    Saturday; it lists one week for every Sunday-aligned week from the
    week of the start to the week of the end, less the first one in the
    second case. *)
Theorem getWeekDateRanges_numbers (s e : Z) :
  s <= e ->
  let ranges := getWeekDateRanges (Time s) (Time e) in
  let weekend := 5 <=? getDay s in
  weekNumber <$> ranges
  = seqZ (if weekend then 2 else 1) (Z.of_nat (length ranges))
  /\ Z.of_nat (length ranges)
     = (dayIndex e - sunday0 s) / 7 + 1 - (if weekend then 1 else 0).
Proof.
  intros Hse ranges weekend. apply dayIndex_mono in Hse.
  unfold ranges, getWeekDateRanges.
  pose proof (weeksFuel_enough (firstSundayOf s) (endOfDay e)) as Hfuel.
  set (fuel := weeksFuel (firstSundayOf s) (endOfDay e)) in *.
  rewrite firstSundayOf_sunday0 in *.
  pose proof (sunday0_le s) as Hs0.
  assert (He : dayIndex e < sunday0 s + 7 * Z.of_nat fuel).
  { unfold endOfDay in Hfuel. rewrite startOfDay_dayIndex in Hfuel.
    revert Hfuel. generalize (dayIndex e) (sunday0 s) (Z.of_nat fuel).
    unfold MS_PER_DAY. intros; lia. }
  destruct fuel as [|fuel]; [lia|].
  pose proof (rangesLoop_unfold s e fuel 0) as Hunfold.
  change (1 + 0) with 1 in Hunfold. rewrite Hunfold. clear Hunfold.
  replace (sunday0 s + 7 * 0 <=? dayIndex e) with true
    by (symmetry; apply Z.leb_le; lia).
  assert (Hday : getDay s = dayIndex s - sunday0 s) by (unfold sunday0; lia).
  pose proof (rangesLoop_consecutive s e fuel (0 + 1) ltac:(lia)) as Hnum.
  pose proof (rangesLoop_length s e fuel (0 + 1) Hse ltac:(lia) ltac:(lia)) as Hlen.
  cbn zeta in Hnum. unfold weekend.
  destruct (Z.leb_spec 5 (getDay s)) as [Hfri|Hsun].
  - replace (sunday0 s + 7 * 0 + 4 <? dayIndex s) with true
      by (symmetry; apply Z.ltb_lt; lia).
    cbn [negb app]. split; [exact Hnum|]. rewrite Hlen.
    Z.div_mod_to_equations. lia.
  - replace (sunday0 s + 7 * 0 + 4 <? dayIndex s) with false
      by (symmetry; apply Z.ltb_ge; lia).
    cbn [negb app fmap list_fmap length weekNumber]. split.
    + rewrite Nat2Z.inj_succ, seqZ_cons, Z.pred_succ by lia.
      f_equal. exact Hnum.
    + rewrite Nat2Z.inj_succ, Hlen. Z.div_mod_to_equations. lia.
Qed.

Lemma getWeekDateRanges_numbers_witness :
  weekNumber <$> getWeekDateRanges (Time (sep 3)) (Time (sep 19))
  = seqZ (if 5 <=? getDay (sep 3) then 2 else 1)
         (Z.of_nat (length (getWeekDateRanges (Time (sep 3)) (Time (sep 19)))))
  /\ Z.of_nat (length (getWeekDateRanges (Time (sep 3)) (Time (sep 19))))
     = (dayIndex (sep 19) - sunday0 (sep 3)) / 7 + 1
       - (if 5 <=? getDay (sep 3) then 1 else 0).
Proof.
  apply (getWeekDateRanges_numbers (sep 3) (sep 19)). vm_compute. discriminate.
Defined.

(** ** The packer and what it leaves alone *)

Lemma packDay_withoutLesson (lessons : list Lesson.t) (c : Cursor) (day : DayPlan.t) :
  withoutLesson (packDay lessons c day).2 = withoutLesson day.
Proof.
  unfold packDay, withoutLesson. cbn [DayPlan.isBlocked].
  destruct (DayPlan.isBlocked day); [done|].
  destruct (lessons !! lessonIdx c) as [l|]; [|done].
  by destruct (geNumber _ _).
Qed.

Lemma packDays_withoutLesson (lessons : list Lesson.t) (c : Cursor)
    (days : list DayPlan.t) :
  withoutLesson <$> (packDays lessons c days).2 = withoutLesson <$> days.
Proof.
  revert c. induction days as [|day rest IH]; intros c; [done|].
  rewrite packDays_cons. cbn [snd]. by rewrite !fmap_cons, packDay_withoutLesson, IH.
Qed.

Lemma packWeeks_withoutLessons (lessons : list Lesson.t) (c : Cursor)
    (weeks : list WeekPlan.t) :
  withoutLessons <$> (packWeeks lessons c weeks).2 = withoutLessons <$> weeks.
Proof.
  revert c. induction weeks as [|week rest IH]; intros c; [done|].
  rewrite packWeeks_cons. cbn [snd]. rewrite !fmap_cons, IH. f_equal.
  unfold withoutLessons, withDays. cbn [WeekPlan.days WeekPlan.weekNumber
    WeekPlan.displayWeekLabel WeekPlan.dates WeekPlan.isBlocked WeekPlan.blockLabel].
  by rewrite packDays_withoutLesson.
Qed.

(** X13: apart from the lesson id and the lesson name of its days, the
    result of [distributeLessons] is its argument: as many weeks with the
    same fields, and in each week as many days with the same date, day
    name, block flag and block label. *)
Theorem distributeLessons_frame (weeks : list WeekPlan.t) (lessons : list Lesson.t) :
  withoutLessons <$> distributeLessons weeks lessons = withoutLessons <$> weeks.
Proof. apply packWeeks_withoutLessons. Qed.

Lemma packDays_input (lessons : list Lesson.t) (c : Cursor) (days : list DayPlan.t) :
  packDays lessons c (withoutLesson <$> days) = packDays lessons c days.
Proof.
  revert c. induction days as [|day rest IH]; intros c; [done|].
  rewrite fmap_cons, !packDays_cons.
  change (packDay lessons c (withoutLesson day)) with (packDay lessons c day).
  by rewrite IH.
Qed.

Lemma packWeeks_input (lessons : list Lesson.t) (c : Cursor) (weeks : list WeekPlan.t) :
  packWeeks lessons c (withoutLessons <$> weeks) = packWeeks lessons c weeks.
Proof.
  revert c. induction weeks as [|week rest IH]; intros c; [done|].
  rewrite fmap_cons, !packWeeks_cons.
  cbn [withoutLessons withDays WeekPlan.days]. rewrite packDays_input, IH.
  done.
Qed.

(** X14: the lessons that the weeks carry when they are passed in play no
    part: distributing a second list of lessons over a result gives what
    distributing it over the first weeks gives, so that distributing the
    same lessons again changes nothing. *)
Theorem distributeLessons_again (weeks : list WeekPlan.t) (first second : list Lesson.t) :
  distributeLessons (distributeLessons weeks first) second
  = distributeLessons weeks second.
Proof.
  unfold distributeLessons.
  rewrite <- (packWeeks_input second _ (packWeeks first _ weeks).2).
  by rewrite packWeeks_withoutLessons, packWeeks_input.
Qed.

Lemma packDays_lesson_fields (lessons : list Lesson.t) (c : Cursor)
    (days : list DayPlan.t) :
  Forall (fun d =>
            match DayPlan.lessonId d with
            | None => DayPlan.lessonName d = None
            | Some i =>
              DayPlan.isBlocked d = false
              /\ exists l, l ∈ lessons /\ Lesson.id l = i
                           /\ DayPlan.lessonName d = Some (Lesson.name l)
            end)
         (packDays lessons c days).2.
Proof.
  revert c. induction days as [|day rest IH]; intros c; [constructor|].
  rewrite packDays_cons. cbn [snd]. constructor; [|apply IH].
  unfold packDay. cbn [DayPlan.isBlocked].
  destruct (DayPlan.isBlocked day) eqn:Hb; [done|].
  destruct (lessons !! lessonIdx c) as [l|] eqn:Hl; [|done].
  assert (Hin : l ∈ lessons) by by eapply list_elem_of_lookup_2.
  destruct (geNumber _ _); cbn [snd DayPlan.lessonId DayPlan.lessonName
    DayPlan.isBlocked]; (split; [done|by exists l]).
Qed.

(** X15: a day of the result either has neither lesson id nor lesson
    name, or it is not blocked and has the id and the name of one and the
    same lesson of the list. *)
Theorem distributeLessons_lesson_fields (weeks : list WeekPlan.t)
    (lessons : list Lesson.t) :
  Forall (fun d =>
            match DayPlan.lessonId d with
            | None => DayPlan.lessonName d = None
            | Some i =>
              DayPlan.isBlocked d = false
              /\ exists l, l ∈ lessons /\ Lesson.id l = i
                           /\ DayPlan.lessonName d = Some (Lesson.name l)
            end)
         (flat_map WeekPlan.days (distributeLessons weeks lessons)).
Proof. rewrite distributeLessons_days. apply packDays_lesson_fields. Qed.

(** ** Lessons in a row *)

Lemma taken_le (pacing : JSNumber) (c : Z) (n : nat) : (taken pacing c n <= n)%nat.
Proof.
  revert c. induction n as [|n IH]; intros c; cbn [taken]; [done|].
  destruct (geNumber _ _); [lia|]. specialize (IH (c + 1)). lia.
Qed.

Lemma taken_zero (pacing : JSNumber) (c : Z) (n : nat) :
  taken pacing c n = 0%nat -> n = 0%nat.
Proof. destruct n as [|n]; [done|]. cbn [taken]. by destruct (geNumber _ _). Qed.

Lemma plan_blocks (c : Z) (lessons : list Lesson.t) (n : nat) :
  exists counts : list nat,
    length counts = length lessons
    /\ (sum_list counts <= n)%nat
    /\ (forall i, counts !! i = Some 0%nat -> sum_list (take i counts) = n)
    /\ plan c lessons n
       = blocks lessons counts ++ replicate (n - sum_list counts) None.
Proof.
  revert c n. induction lessons as [|l rest IH]; intros c n.
  { exists []. cbn. split; [done|]. split; [lia|]. split; [done|].
    by rewrite Nat.sub_0_r. }
  pose proof (taken_le (Lesson.pacing l) c n) as Hle.
  destruct (IH 0 (n - taken (Lesson.pacing l) c n)%nat)
    as (counts & Hlen & Hsum & Hzero & Hplan).
  exists (taken (Lesson.pacing l) c n :: counts).
  split; [cbn; by rewrite Hlen|]. split; [cbn; lia|]. split.
  - intros [|i] Hi.
    + injection Hi as Hi. apply taken_zero in Hi. by subst n.
    + cbn in Hi. cbn [take sum_list sum_list_with]. rewrite (Hzero i Hi).
      unfold id. lia.
  - cbn [plan]. rewrite Hplan. unfold blocks. cbn [zip zip_with flat_map].
    rewrite <- app_assoc. do 3 f_equal. cbn. lia.
Qed.

(** X16: whatever the pacings, the lesson ids on the unblocked days of the
    result, read in order, are one block of days per lesson, in the order
    of the list, followed by days without lesson only; the blocks have no
    more days than there are unblocked days, and an empty block means
    that the lessons before it have taken every unblocked day. *)
Theorem distributeLessons_blocks (weeks : list WeekPlan.t) (lessons : list Lesson.t) :
  exists counts : list nat,
    length counts = length lessons
    /\ (sum_list counts <= length (unblockedDays weeks))%nat
    /\ (forall i, counts !! i = Some 0%nat
                  -> sum_list (take i counts) = length (unblockedDays weeks))
    /\ DayPlan.lessonId <$> unblockedDays (distributeLessons weeks lessons)
       = blocks lessons counts
         ++ replicate (length (unblockedDays weeks) - sum_list counts) None.
Proof. rewrite distributeLessons_plan. apply plan_blocks. Qed.

Lemma filter_assigned (days : list DayPlan.t) :
  (forall d, d ∈ days -> DayPlan.isBlocked d = true -> DayPlan.lessonId d = None) ->
  length (List.filter assigned days)
  = length (List.filter (fun x : option string => truthy x)
              (DayPlan.lessonId <$> List.filter (fun d => negb (DayPlan.isBlocked d)) days)).
Proof.
  induction days as [|d rest IH]; intros Hb; [done|].
  cbn [List.filter]. specialize (IH (fun d' Hd' => Hb d' (list_elem_of_further _ _ _ Hd'))).
  unfold assigned at 1.
  destruct (DayPlan.isBlocked d) eqn:Hd; cbn [negb].
  - by rewrite (Hb d (list_elem_of_here _ _) Hd).
  - cbn [fmap list_fmap List.filter].
    destruct (DayPlan.lessonId d); cbn [truthy length]; by rewrite IH.
Qed.

Lemma filter_truthy_app (l1 l2 : list (option string)) :
  length (List.filter (fun x : option string => truthy x) (l1 ++ l2))
  = (length (List.filter (fun x : option string => truthy x) l1)
     + length (List.filter (fun x : option string => truthy x) l2))%nat.
Proof. by rewrite List.filter_app, length_app. Qed.

Lemma filter_truthy_replicate (x : option string) (n : nat) :
  length (List.filter (fun x : option string => truthy x) (replicate n x))
  = if truthy x then n else 0%nat.
Proof.
  induction n as [|n IH]; [by destruct (truthy x)|].
  cbn [replicate List.filter]. destruct (truthy x); cbn [length]; by rewrite ?IH.
Qed.

Lemma plan_usedBy (lessons : list Lesson.t) (n : nat) :
  length (List.filter (fun x : option string => truthy x) (plan 0 lessons n))
  = usedBy lessons n.
Proof.
  revert n. induction lessons as [|l rest IH]; intros n; cbn [plan usedBy].
  - by rewrite filter_truthy_replicate.
  - by rewrite filter_truthy_app, filter_truthy_replicate, IH.
Qed.

(** X17: with positive integer pacings, the days of the result that carry
    a lesson are as many as the pacings add up to, or all the unblocked
    days when those are fewer. *)
Theorem distributeLessons_assigned_total (weeks : list WeekPlan.t)
    (lessons : list Lesson.t) :
  Forall (fun l => positiveInteger (Lesson.pacing l)) lessons ->
  length (List.filter assigned (flat_map WeekPlan.days (distributeLessons weeks lessons)))
  = Nat.min (sum_list_with pacingDays lessons) (length (unblockedDays weeks)).
Proof.
  intros Hall. rewrite filter_assigned.
  - fold (unblockedDays (distributeLessons weeks lessons)).
    by rewrite distributeLessons_plan, plan_usedBy, usedBy_positive.
  - intros d Hd Hb. by apply (distributeLessons_blocked weeks lessons).
Qed.

Lemma distributeLessons_assigned_total_witness :
  length (List.filter assigned
            (flat_map WeekPlan.days
               (distributeLessons examTuesday.*2 [linearEquations; inequalities])))
  = Nat.min (sum_list_with pacingDays [linearEquations; inequalities])
            (length (unblockedDays examTuesday.*2)).
Proof.
  apply distributeLessons_assigned_total. repeat constructor.
  - exists 2. split; [lia|reflexivity].
  - exists 3. split; [lia|reflexivity].
Defined.

Lemma packDays_nothing (lessons : list Lesson.t) (c : Cursor) (days : list DayPlan.t) :
  lessons = [] \/ List.filter (fun d => negb (DayPlan.isBlocked d)) days = [] ->
  packDays lessons c days = (c, withoutLesson <$> days).
Proof.
  induction days as [|day rest IH]; intros H; [done|].
  rewrite packDays_cons.
  assert (Hday : packDay lessons c day = (c, withoutLesson day)).
  { unfold packDay, withoutLesson. cbn [DayPlan.isBlocked].
    destruct (DayPlan.isBlocked day) eqn:Hb; [done|].
    destruct H as [->|H]; [by rewrite lookup_nil|].
    cbn [List.filter] in H. by rewrite Hb in H. }
  rewrite Hday. cbn [fst snd]. rewrite IH; [done|].
  destruct H as [H|H]; [by left|right].
  cbn [List.filter] in H. by destruct (negb (DayPlan.isBlocked day)).
Qed.

Lemma packWeeks_nothing (lessons : list Lesson.t) (c : Cursor) (weeks : list WeekPlan.t) :
  lessons = [] \/ unblockedDays weeks = [] ->
  packWeeks lessons c weeks = (c, withoutLessons <$> weeks).
Proof.
  induction weeks as [|week rest IH]; intros H; [done|].
  rewrite packWeeks_cons. cbn zeta.
  assert (H1 : lessons = []
               \/ List.filter (fun d => negb (DayPlan.isBlocked d)) (WeekPlan.days week) = []).
  { destruct H as [H|H]; [by left|right].
    unfold unblockedDays in H. cbn [flat_map] in H. rewrite List.filter_app in H.
    by apply app_eq_nil in H as [H _]. }
  assert (H2 : lessons = [] \/ unblockedDays rest = []).
  { destruct H as [H|H]; [by left|right].
    unfold unblockedDays in H. cbn [flat_map] in H. rewrite List.filter_app in H.
    by apply app_eq_nil in H as [_ H]. }
  rewrite (packDays_nothing lessons c _ H1). cbn [fst snd]. by rewrite (IH H2).
Qed.

(** X18: without lessons, or without an unblocked day, the result is the
    argument with every lesson id and lesson name removed. *)
Theorem distributeLessons_nothing_to_place (weeks : list WeekPlan.t)
    (lessons : list Lesson.t) :
  lessons = [] \/ unblockedDays weeks = [] ->
  distributeLessons weeks lessons = withoutLessons <$> weeks.
Proof. intros H. unfold distributeLessons. by rewrite packWeeks_nothing. Qed.

Lemma distributeLessons_nothing_to_place_witness :
  distributeLessons (distributeLessons examTuesday.*2 [linearEquations]) []
  = withoutLessons <$> distributeLessons examTuesday.*2 [linearEquations].
Proof. apply distributeLessons_nothing_to_place. by left. Defined.

(** ** Pacings that are not positive integers *)

Lemma geNumber_ceiling (q : Q) (c : Z) :
  0 <= c ->
  geNumber (c + 1) (orOne (Finite q)) = (Z.max 1 (Qceiling q) <=? c + 1).
Proof.
  intros Hc. cbn [orOne]. destruct (Qeq_bool q 0) eqn:Hq0.
  - apply Qeq_bool_iff in Hq0. rewrite Hq0. change (Qceiling 0) with 0.
    cbn [geNumber]. unfold Qle_bool. cbn [Qnum Qden inject_Z].
    apply Bool.eq_iff_eq_true. rewrite !Z.leb_le. lia.
  - cbn [geNumber]. apply Bool.eq_iff_eq_true. rewrite Qle_bool_iff, Z.leb_le.
    split.
    + intros Hle. apply Qceiling_resp_le in Hle. rewrite Qceiling_Z in Hle. lia.
    + intros Hle. eapply Qle_trans; [apply Qle_ceiling|].
      rewrite <- Zle_Qle. lia.
Qed.

Lemma taken_ceiling (q : Q) (c : Z) (n : nat) :
  0 <= c < Z.max 1 (Qceiling q) ->
  taken (Finite q) c n = Nat.min (Z.to_nat (Z.max 1 (Qceiling q) - c)) n.
Proof.
  revert c. induction n as [|n IH]; intros c Hc; cbn [taken]; [lia|].
  rewrite geNumber_ceiling by lia.
  destruct (Z.leb_spec (Z.max 1 (Qceiling q)) (c + 1)) as [Hle|Hgt]; [lia|].
  rewrite IH by lia. lia.
Qed.

Lemma taken_never (c : Z) (n : nat) : taken (Infinite false) c n = n.
Proof. revert c. induction n as [|n IH]; intros c; [done|]. cbn. by rewrite IH. Qed.

Lemma taken_daysAsked (pacing : JSNumber) (n : nat) :
  taken pacing 0 n
  = match daysAsked pacing with Some k => Nat.min k n | None => n end.
Proof.
  destruct pacing as [|[]|q]; cbn [daysAsked].
  - by apply taken_belowOne.
  - by apply taken_belowOne.
  - apply taken_never.
  - rewrite taken_ceiling by lia. by rewrite Z.sub_0_r.
Qed.

(** X19: with distinct lesson ids, a lesson is carried by as many days as
    its pacing rounded up to a whole number, by one day when the pacing
    is below one, not a number or minus infinity, and by every day that
    the lessons before it have left when the pacing is plus infinity; in
    each case by no more days than the lessons before it have left. *)
Theorem distributeLessons_pacing_rounds_up (weeks : list WeekPlan.t)
    (lessons : list Lesson.t) (i : nat) (l : Lesson.t) :
  NoDup (Lesson.id <$> lessons) -> lessons !! i = Some l ->
  let result := distributeLessons weeks lessons in
  let left :=
    (length (unblockedDays weeks)
     - length (assignedAmong (Lesson.id <$> take i lessons) result))%nat in
  length (assignedDays (Lesson.id l) result)
  = match daysAsked (Lesson.pacing l) with
    | Some k => Nat.min k left
    | None => left
    end.
Proof.
  intros Hnd Hl result left. unfold left, result.
  rewrite assignedDays_count, assignedAmong_count.
  rewrite (countId_plan lessons i l) by done.
  rewrite countAmong_plan by done. apply taken_daysAsked.
Qed.

Lemma distributeLessons_pacing_rounds_up_witness :
  length (assignedDays "l3"
            (distributeLessons twoWeeks [linearEquations; fractions; project]))
  = 3%nat
  /\ length (assignedDays "l4"
               (distributeLessons twoWeeks [linearEquations; fractions; project]))
     = (length (unblockedDays twoWeeks) - 5)%nat.
Proof.
  assert (Hnd : NoDup (Lesson.id <$> [linearEquations; fractions; project])).
  { apply (bool_decide_unpack _). vm_compute. exact I. }
  split.
  - etrans; [exact (distributeLessons_pacing_rounds_up twoWeeks
                      [linearEquations; fractions; project] 1 fractions Hnd eq_refl)|].
    vm_compute. reflexivity.
  - etrans; [exact (distributeLessons_pacing_rounds_up twoWeeks
                      [linearEquations; fractions; project] 2 project Hnd eq_refl)|].
    vm_compute. reflexivity.
Defined.

(** ** The assigned days of the curriculum map *)

Lemma filter_sublist_mono {A} (p q : A -> bool) (l : list A) :
  (forall x, x ∈ l -> p x = true -> q x = true) ->
  List.filter p l `sublist_of` List.filter q l.
Proof.
  induction l as [|x l IH]; intros Hpq; [constructor|].
  specialize (IH (fun y Hy => Hpq y (list_elem_of_further _ _ _ Hy))).
  cbn [List.filter]. destruct (p x) eqn:Hp.
  - rewrite (Hpq x (list_elem_of_here _ _) Hp). by constructor.
  - destruct (q x); [by constructor|done].
Qed.

Lemma filter_sublist {A} (p : A -> bool) (l : list A) : List.filter p l `sublist_of` l.
Proof.
  induction l as [|x l IH]; [constructor|].
  cbn [List.filter]. destruct (p x); by constructor.
Qed.

Lemma sublist_sorted {A} (R : relation A) (l1 l2 : list A) :
  l1 `sublist_of` l2 -> StronglySorted R l2 -> StronglySorted R l1.
Proof.
  induction 1 as [|x l1 l2 Hsub IH|x l1 l2 Hsub IH]; intros Hs; [done| |].
  - apply StronglySorted_inv in Hs as [Hs Hx]. constructor; [by apply IH|].
    rewrite Forall_forall in Hx |- *. intros y Hy. apply Hx.
    by eapply elem_of_sublist.
  - apply StronglySorted_inv in Hs as [Hs _]. by apply IH.
Qed.

Lemma sorted_NoDup (l : list Z) : StronglySorted Z.lt l -> NoDup l.
Proof.
  induction 1 as [|x l Hs IH Hx]; constructor; [|done].
  intros Hin. rewrite Forall_forall in Hx. specialize (Hx x Hin). lia.
Qed.

Lemma fmap_NoDup_eq {A B} (f : A -> B) (l : list A) (x y : A) :
  NoDup (f <$> l) -> x ∈ l -> y ∈ l -> f x = f y -> x = y.
Proof.
  induction l as [|z l IH]; intros Hnd Hx Hy Hxy; [by apply elem_of_nil in Hx|].
  rewrite fmap_cons in Hnd. apply NoDup_cons in Hnd as [Hz Hnd].
  apply elem_of_cons in Hx as [->|Hx]; apply elem_of_cons in Hy as [->|Hy].
  - done.
  - destruct Hz. rewrite Hxy. apply list_elem_of_fmap. by exists y.
  - destruct Hz. rewrite <- Hxy. apply list_elem_of_fmap. by exists x.
  - by apply IH.
Qed.

Lemma assignedDates_days (lessonId : string) (weeks : list WeekPlan.t) :
  assignedDates lessonId weeks = DayPlan.date <$> assignedDays lessonId weeks.
Proof. unfold assignedDates, assignedDays. by rewrite filter_flat_map. Qed.

Lemma unblocked_dates_withoutLesson (days : list DayPlan.t) :
  DayPlan.date <$> List.filter (fun d => negb (DayPlan.isBlocked d))
                     (withoutLesson <$> days)
  = DayPlan.date <$> List.filter (fun d => negb (DayPlan.isBlocked d)) days.
Proof.
  induction days as [|d rest IH]; [done|].
  rewrite fmap_cons. cbn [List.filter withoutLesson DayPlan.isBlocked].
  destruct (negb (DayPlan.isBlocked d)); [|done].
  rewrite !fmap_cons. by rewrite IH.
Qed.

Lemma distributeLessons_dates (weeks : list WeekPlan.t) (lessons : list Lesson.t) :
  DayPlan.date <$> flat_map WeekPlan.days (distributeLessons weeks lessons)
  = DayPlan.date <$> flat_map WeekPlan.days weeks.
Proof.
  rewrite distributeLessons_days.
  change DayPlan.date with (DayPlan.date ∘ withoutLesson).
  by rewrite !list_fmap_compose, packDays_withoutLesson.
Qed.

Lemma distributeLessons_unblocked_dates (weeks : list WeekPlan.t)
    (lessons : list Lesson.t) :
  DayPlan.date <$> unblockedDays (distributeLessons weeks lessons)
  = DayPlan.date <$> unblockedDays weeks.
Proof.
  unfold unblockedDays. rewrite distributeLessons_days.
  rewrite <- unblocked_dates_withoutLesson, packDays_withoutLesson.
  apply unblocked_dates_withoutLesson.
Qed.

Lemma assignedDates_unblocked (weeks : list WeekPlan.t) (lessons : list Lesson.t)
    (lessonId : string) :
  assignedDates lessonId (distributeLessons weeks lessons)
  `sublist_of` DayPlan.date <$> unblockedDays weeks.
Proof.
  rewrite assignedDates_days, <- (distributeLessons_unblocked_dates weeks lessons).
  apply fmap_sublist. unfold assignedDays, unblockedDays.
  apply filter_sublist_mono. intros d Hd Hc.
  destruct (DayPlan.isBlocked d) eqn:Hb; [|done].
  destruct (distributeLessons_blocked weeks lessons d Hd Hb) as [Hid _].
  unfold carries in Hc. apply bool_decide_eq_true in Hc. congruence.
Qed.

Lemma generateEmptyWeeks_dates_sorted (newDate : string -> Date) (s e : Z)
    (blockedDates : list BlockedDate.t) (blockedWeeks : list BlockedWeek.t) :
  StronglySorted Z.lt
    (DayPlan.date <$> flat_map WeekPlan.days
       (generateEmptyWeeks newDate (Time s) (Time e) blockedDates blockedWeeks)).
Proof. rewrite generateEmptyWeeks_kept. apply kept_sorted, seqZ_sorted. Qed.

(** X20: in the curriculum map that [runAIGeneration] builds for a range
    whose start is not after its end, the assigned days of a lesson are
    days that [calculateInstructionalStats] counts as available, in
    calendar order and without repetition. *)
Theorem assignedDates_available (newDate : string -> Date) (s e : Z)
    (blockedDates : list BlockedDate.t) (blockedWeeks : list BlockedWeek.t)
    (lessons : list Lesson.t) (lessonId : string) :
  s <= e ->
  let emptyWeeks :=
    generateEmptyWeeks newDate (Time s) (Time e) blockedDates blockedWeeks in
  let filledWeeks := distributeLessons emptyWeeks lessons in
  assignedDates lessonId filledWeeks
    `sublist_of` availableDays newDate s e blockedDates blockedWeeks
  /\ StronglySorted Z.lt (assignedDates lessonId filledWeeks).
Proof.
  intros Hse emptyWeeks filledWeeks.
  pose proof (assignedDates_unblocked emptyWeeks lessons lessonId) as Hsub.
  split.
  - unfold filledWeeks. etrans; [exact Hsub|]. unfold emptyWeeks.
    by rewrite unblockedDays_availableDays.
  - eapply sublist_sorted; [exact Hsub|].
    eapply sublist_sorted;
      [|apply (generateEmptyWeeks_dates_sorted newDate s e blockedDates blockedWeeks)].
    apply fmap_sublist, filter_sublist.
Qed.

Lemma assignedDates_available_witness :
  assignedDates "l2"
    (distributeLessons
       (generateEmptyWeeks hostDate (Time (sep 1)) (Time (sep 12)) [examSep3] [])
       [linearEquations; inequalities])
    `sublist_of` availableDays hostDate (sep 1) (sep 12) [examSep3] []
  /\ StronglySorted Z.lt
       (assignedDates "l2"
          (distributeLessons
             (generateEmptyWeeks hostDate (Time (sep 1)) (Time (sep 12)) [examSep3] [])
             [linearEquations; inequalities])).
Proof.
  apply (assignedDates_available hostDate (sep 1) (sep 12) [examSep3] []
           [linearEquations; inequalities] "l2").
  vm_compute. discriminate.
Defined.

(** X21: in that curriculum map no date is among the assigned days of two
    lessons with different ids. *)
Theorem assignedDates_disjoint (newDate : string -> Date) (start end_ : Date)
    (blockedDates : list BlockedDate.t) (blockedWeeks : list BlockedWeek.t)
    (lessons : list Lesson.t) (id1 id2 : string) :
  id1 <> id2 ->
  let emptyWeeks := generateEmptyWeeks newDate start end_ blockedDates blockedWeeks in
  let filledWeeks := distributeLessons emptyWeeks lessons in
  Forall (fun t => t ∉ assignedDates id2 filledWeeks) (assignedDates id1 filledWeeks).
Proof.
  intros Hne emptyWeeks filledWeeks. apply Forall_forall. intros t H1 H2.
  rewrite assignedDates_days in H1, H2.
  apply list_elem_of_fmap in H1 as (d1 & -> & H1).
  apply list_elem_of_fmap in H2 as (d2 & Heq & H2).
  unfold assignedDays in H1, H2.
  apply list_elem_of_In, filter_In in H1 as [H1 Hc1].
  apply list_elem_of_In, filter_In in H2 as [H2 Hc2].
  apply list_elem_of_In in H1, H2.
  assert (Hnd : NoDup (DayPlan.date <$> flat_map WeekPlan.days filledWeeks)).
  { unfold filledWeeks. rewrite distributeLessons_dates. unfold emptyWeeks.
    destruct start as [|s]; [constructor|]. destruct end_ as [|e]; [constructor|].
    apply sorted_NoDup, generateEmptyWeeks_dates_sorted. }
  pose proof (fmap_NoDup_eq _ _ _ _ Hnd H1 H2 Heq) as ->.
  unfold carries in Hc1, Hc2. apply bool_decide_eq_true in Hc1, Hc2. congruence.
Qed.

Lemma assignedDates_disjoint_witness :
  Forall (fun t => t ∉ assignedDates "l2"
                         (distributeLessons
                            (generateEmptyWeeks hostDate (Time (sep 1)) (Time (sep 12))
                                                [examSep3] [])
                            [linearEquations; inequalities]))
         (assignedDates "l1"
            (distributeLessons
               (generateEmptyWeeks hostDate (Time (sep 1)) (Time (sep 12))
                                   [examSep3] [])
               [linearEquations; inequalities])).
Proof.
  apply (assignedDates_disjoint hostDate (Time (sep 1)) (Time (sep 12)) [examSep3] []
           [linearEquations; inequalities] "l1" "l2").
  discriminate.
Defined.

(** ** Calls in a row on the store *)

Lemma distributeLessonsAt_run (h : heap) (weeks : positive)
    (ws : list WeekPlan.t) (lessons : list Lesson.t) :
  readWeeks h weeks = Some ws ->
  exists h' updatedWeeks,
    distributeLessonsAt h weeks lessons = Some (h', updatedWeeks)
    /\ (forall x, x ∈ dom h -> h' !! x = h !! x)
    /\ readWeeks h' updatedWeeks = Some (distributeLessons ws lessons)
    /\ NoDup (locsWeeks h' updatedWeeks)
    /\ (forall x, x ∈ locsWeeks h' updatedWeeks -> x ∉ dom h).
Proof.
  intros Hws. unfold distributeLessonsAt, jsonCopy. rewrite Hws.
  cbn [mbind option_bind].
  destruct (allocWeeks h ws) as [h1 r] eqn:Halloc.
  apply allocWeeks_spec in Halloc as (Hold1 & Hread1 & Hnd & Hfresh).
  assert (Hlocs1 : forall h2 : heap, (forall x, x ∉ locsWeeks h1 r -> h2 !! x = h1 !! x) ->
                              forall x, x ∈ dom h -> h2 !! x = h !! x).
  { intros h2 Hframe x Hx. rewrite Hframe; [by apply Hold1|].
    intros Hin. by apply (Hfresh x). }
  unfold readWeeks, locsWeeks in Hread1, Hnd, Hfresh, Hlocs1.
  destruct (h1 !! r) as [[| |items]|] eqn:Hr; try done.
  pose proof Hnd as Hnd'. apply NoDup_cons in Hnd' as [Hr1 Hnd'].
  destruct (packWeeksAt_spec lessons (mkCursor 0 0) h1 items ws Hnd' Hread1)
    as (h2 & Hrun & Hread2 & Hlocs & Hframe).
  rewrite Hrun. cbn [mbind option_bind]. exists h2, r. split; [done|].
  split; [|split; [|split]].
  - apply Hlocs1. intros x Hx. apply Hframe. intros Hin. apply Hx. by right.
  - unfold readWeeks. by rewrite (Hframe r Hr1), Hr.
  - unfold locsWeeks. by rewrite (Hframe r Hr1), Hr, Hlocs.
  - unfold locsWeeks. rewrite (Hframe r Hr1), Hr, Hlocs. apply Hfresh.
Qed.

(** X22: when a first call of [distributeLessons] is followed by a second
    call on what the first returned, both calls return; afterwards the
    argument of the first call and its result stand for what they stood
    for before the second call, the second result stands for the second
    list of lessons distributed over the first weeks, and the second
    result shares no object with the first result or with the store
    before the calls, nor one of its objects with itself. *)
Theorem distributeLessonsAt_twice (h : heap) (weeks : positive)
    (ws : list WeekPlan.t) (first second : list Lesson.t) :
  readWeeks h weeks = Some ws ->
  exists h1 r1 h2 r2,
    distributeLessonsAt h weeks first = Some (h1, r1)
    /\ distributeLessonsAt h1 r1 second = Some (h2, r2)
    /\ readWeeks h2 weeks = Some ws
    /\ readWeeks h2 r1 = Some (distributeLessons ws first)
    /\ readWeeks h2 r2 = Some (distributeLessons ws second)
    /\ NoDup (locsWeeks h2 r2)
    /\ (forall x, x ∈ locsWeeks h2 r2 -> (x ∉ locsWeeks h2 r1) /\ (x ∉ dom h)).
Proof.
  intros Hws.
  destruct (distributeLessonsAt_run h weeks ws first Hws)
    as (h1 & r1 & Hrun1 & Hold1 & Hread1 & _ & Hfresh1).
  destruct (distributeLessonsAt_run h1 r1 _ second Hread1)
    as (h2 & r2 & Hrun2 & Hold2 & Hread2 & Hnd2 & Hfresh2).
  exists h1, r1, h2, r2. split; [done|]. split; [done|].
  assert (Hdom : forall x, x ∈ dom h -> x ∈ dom h1).
  { intros x Hx. apply elem_of_dom. rewrite (Hold1 x Hx). by apply elem_of_dom. }
  destruct (readWeeks_agree h1 h2 r1) as [Hr1 Hl1].
  { intros x Hx. by apply Hold2, (readWeeks_dom h1 r1 _ Hread1). }
  split; [|split; [|split; [|split]]].
  - destruct (readWeeks_agree h h2 weeks) as [-> _]; [|done].
    intros x Hx. pose proof (readWeeks_dom h weeks ws Hws x Hx) as Hin.
    by rewrite (Hold2 x (Hdom x Hin)), (Hold1 x Hin).
  - by rewrite Hr1.
  - rewrite Hread2. f_equal. unfold distributeLessons.
    rewrite <- (packWeeks_input second _ (packWeeks first _ ws).2).
    by rewrite packWeeks_withoutLessons, packWeeks_input.
  - done.
  - intros x Hx. split.
    + rewrite Hl1. intros Hin. apply (Hfresh2 x Hx).
      by apply (readWeeks_dom h1 r1 _ Hread1).
    + intros Hin. by apply (Hfresh2 x Hx), Hdom.
Qed.

Lemma distributeLessonsAt_twice_witness :
  exists h1 r1 h2 r2,
    distributeLessonsAt sundayStore 1 [linearEquations] = Some (h1, r1)
    /\ distributeLessonsAt h1 r1 [inequalities] = Some (h2, r2)
    /\ readWeeks h2 1 = Some [sundayWeek]
    /\ readWeeks h2 r1 = Some (distributeLessons [sundayWeek] [linearEquations])
    /\ readWeeks h2 r2 = Some (distributeLessons [sundayWeek] [inequalities])
    /\ NoDup (locsWeeks h2 r2)
    /\ (forall x, x ∈ locsWeeks h2 r2 -> (x ∉ locsWeeks h2 r1) /\ (x ∉ dom sundayStore)).
Proof.
  apply (distributeLessonsAt_twice sundayStore 1 [sundayWeek]
           [linearEquations] [inequalities]).
  vm_compute. reflexivity.
Defined.

(** ** The dates of a week, in the plan and in the week picker *)

Lemma dayCells_ends (newDate : string -> Date) (s e : Z)
    (blockedDates : list BlockedDate.t) (W : Z) wb :
  let cells := flat_map (dayCell newDate s e blockedDates W wb) (seqZ 0 5) in
  cells <> [] ->
  DayPlan.date <$> head cells = Some (Z.max (dayIndex s) W * MS_PER_DAY)
  /\ DayPlan.date <$> last cells = Some (Z.min (dayIndex e) (W + 4) * MS_PER_DAY)
  /\ (length cells = 5%nat -> dayIndex s <= W /\ W + 4 <= dayIndex e).
Proof.
  cbn zeta. unfold dayCell, inRange. change (seqZ 0 5) with [0; 1; 2; 3; 4].
  cbn [flat_map].
  destruct (Z.leb_spec (dayIndex s) (W + 0)); cbn [andb];
  destruct (Z.leb_spec (W + 0) (dayIndex e)); cbn [andb];
  destruct (Z.leb_spec (dayIndex s) (W + 1)); cbn [andb]; try (exfalso; lia);
  destruct (Z.leb_spec (W + 1) (dayIndex e)); cbn [andb]; try (exfalso; lia);
  destruct (Z.leb_spec (dayIndex s) (W + 2)); cbn [andb]; try (exfalso; lia);
  destruct (Z.leb_spec (W + 2) (dayIndex e)); cbn [andb]; try (exfalso; lia);
  destruct (Z.leb_spec (dayIndex s) (W + 3)); cbn [andb]; try (exfalso; lia);
  destruct (Z.leb_spec (W + 3) (dayIndex e)); cbn [andb]; try (exfalso; lia);
  destruct (Z.leb_spec (dayIndex s) (W + 4)); cbn [andb]; try (exfalso; lia);
  destruct (Z.leb_spec (W + 4) (dayIndex e)); cbn [andb]; try (exfalso; lia);
  cbn [app head last fmap option_fmap option_map dayPlanAt DayPlan.date length];
  intros Hne; try done;
  (split; [f_equal; f_equal; lia|split; [f_equal; f_equal; lia|intros; lia]]).
Qed.

Lemma buildWeek_dates wb (weekDays : list DayPlan.t) (c : Z) w c' (first final : Z) :
  buildWeek wb weekDays c = (Some w, c') ->
  DayPlan.date <$> head weekDays = Some first ->
  DayPlan.date <$> last weekDays = Some final ->
  WeekPlan.dates w = (format_MMMd first +:+ " - " +:+ format_MMMd final)%string.
Proof.
  unfold buildWeek. destruct weekDays as [|d rest]; [done|].
  destruct (last (d :: rest)) as [d'|]; [|done].
  intros [= <- _]. cbn. by intros [= <-] [= <-].
Qed.

Lemma weekOf_dates (newDate : string -> Date) (s e : Z)
    (blockedDates : list BlockedDate.t) (blockedWeeks : list BlockedWeek.t)
    (r c : Z) (w : WeekPlan.t) :
  (weekOf newDate s e blockedDates blockedWeeks r c).1 = Some w ->
  let W := sunday0 s + 7 * (r - 1) in
  WeekPlan.dates w
  = (format_MMMd (Z.max (dayIndex s) W * MS_PER_DAY) +:+ " - "
     +:+ format_MMMd (Z.min (dayIndex e) (W + 4) * MS_PER_DAY))%string
  /\ (length (WeekPlan.days w) = 5%nat -> dayIndex s <= W /\ W + 4 <= dayIndex e).
Proof.
  intros Hw W. unfold weekOf in Hw. fold W in Hw.
  destruct (buildWeek _ _ c) as [o c'] eqn:Hb. simpl in Hw. subst o.
  pose proof Hb as Hinv. apply buildWeek_inv in Hinv as (Hne & Hdays & _).
  destruct (dayCells_ends newDate s e blockedDates W
              (List.find (matchesWeek r) blockedWeeks) Hne) as (Hfirst & Hlast & Hfull).
  split; [by eapply buildWeek_dates|]. by rewrite Hdays.
Qed.

(** X23: the [dates] of a generated week name the first and the last day
    of its raw week, Sunday to Thursday, that fall inside the range: a
    start after the Sunday and an end before the Thursday take their
    place. *)
Theorem generateEmptyWeeks_dates_label (newDate : string -> Date) (s e : Z)
    (blockedDates : list BlockedDate.t) (blockedWeeks : list BlockedWeek.t) :
  Forall (fun '(r, w) =>
            let sunday := sunday0 s + 7 * (r - 1) in
            WeekPlan.dates w
            = (format_MMMd (Z.max (dayIndex s) sunday * MS_PER_DAY) +:+ " - "
               +:+ format_MMMd (Z.min (dayIndex e) (sunday + 4) * MS_PER_DAY))%string)
         (generateEmptyWeeksRaw newDate (Time s) (Time e) blockedDates blockedWeeks).
Proof.
  apply Forall_forall. intros [r w] Hw.
  apply generateEmptyWeeksRaw_elem in Hw as (_ & _ & c & Hw).
  by apply weekOf_dates in Hw as [Hdates _].
Qed.

Lemma rangesLoop_range (s e : Z) (fuel : nat) (k : Z) (x : WeekRange) :
  x ∈ rangesLoop s (endOfDay e) fuel ((sunday0 s + 7 * k) * MS_PER_DAY) (1 + k) ->
  range x
  = (format_MMMd ((sunday0 s + 7 * (weekNumber x - 1)) * MS_PER_DAY) +:+ " - "
     +:+ format_MMMd ((sunday0 s + 7 * (weekNumber x - 1) + 4) * MS_PER_DAY))%string.
Proof.
  revert k. induction fuel as [|fuel IH]; intros k Hx; [by apply elem_of_nil in Hx|].
  rewrite rangesLoop_unfold in Hx.
  destruct (sunday0 s + 7 * k <=? dayIndex e); [|by apply elem_of_nil in Hx].
  apply elem_of_app in Hx as [Hx|Hx]; [|by apply (IH (k + 1))].
  destruct (negb _); [|by apply elem_of_nil in Hx].
  apply list_elem_of_singleton in Hx as ->. cbn [range weekNumber].
  by replace (1 + k - 1) with k by lia.
Qed.

(** X24: a generated week of five day plans has as [dates] the [range]
    that [getWeekDateRanges] gives for its raw week number. *)
Theorem week_dates_agree (newDate : string -> Date) (s e : Z)
    (blockedDates : list BlockedDate.t) (blockedWeeks : list BlockedWeek.t)
    (r : Z) (w : WeekPlan.t) (x : WeekRange) :
  (r, w) ∈ generateEmptyWeeksRaw newDate (Time s) (Time e) blockedDates blockedWeeks ->
  x ∈ getWeekDateRanges (Time s) (Time e) ->
  weekNumber x = r ->
  length (WeekPlan.days w) = 5%nat ->
  WeekPlan.dates w = range x.
Proof.
  intros Hw Hx Hr Hfull.
  apply generateEmptyWeeksRaw_elem in Hw as (_ & _ & c & Hw).
  apply weekOf_dates in Hw as [Hdates Hin]. specialize (Hin Hfull).
  unfold getWeekDateRanges in Hx. rewrite firstSundayOf_sunday0 in Hx.
  change 1 with (1 + 0) in Hx at 1.
  apply rangesLoop_range in Hx. rewrite Hx, Hdates, Hr.
  by rewrite Z.max_r, Z.min_r by lia.
Qed.

Lemma week_dates_agree_witness :
  exists x, x ∈ getWeekDateRanges (Time (sep 1)) (Time (sep 5))
            /\ WeekPlan.dates examTuesdayWeek = range x.
Proof.
  exists (mkRange 1 "Sep 1 - Sep 5"). split.
  - apply (list_elem_of_lookup_2 _ 0%nat). vm_compute. reflexivity.
  - apply (week_dates_agree hostDate (sep 1) (sep 5) [examSep3] [] 1).
    + apply (list_elem_of_lookup_2 _ 0%nat). vm_compute. reflexivity.
    + apply (list_elem_of_lookup_2 _ 0%nat). vm_compute. reflexivity.
    + reflexivity.
    + reflexivity.
Defined.

(** ** The time of day, and an end before the start *)

Section SameDays.
Variable newDate : string -> Date.
Variables (s s' finish : Z).
Variable blockedDates : list BlockedDate.t.
Variable blockedWeeks : list BlockedWeek.t.
Hypothesis same_day : startOfDay s = startOfDay s'.

Lemma weekDaysLoop_start (weekStart : Z) wb (n : nat) (i : Z) :
  weekDaysLoop newDate s finish blockedDates weekStart wb n i
  = weekDaysLoop newDate s' finish blockedDates weekStart wb n i.
Proof.
  revert i. induction n as [|n IH]; intros i; [done|].
  cbn [weekDaysLoop]. by rewrite same_day, !IH.
Qed.

Lemma weeksLoop_start (fuel : nat) (weekStart r c : Z) :
  weeksLoop newDate s finish blockedDates blockedWeeks fuel weekStart r c
  = weeksLoop newDate s' finish blockedDates blockedWeeks fuel weekStart r c.
Proof.
  revert weekStart r c. induction fuel as [|fuel IH]; intros weekStart r c; [done|].
  cbn [weeksLoop]. rewrite weekDaysLoop_start.
  destruct (isBefore weekStart finish); [|done].
  destruct (buildWeek _ _ c) as [[week|] c']; by rewrite IH.
Qed.

Lemma rangesLoop_start (fuel : nat) (current n : Z) :
  rangesLoop s finish fuel current n = rangesLoop s' finish fuel current n.
Proof.
  revert current n. induction fuel as [|fuel IH]; intros current n; [done|].
  cbn [rangesLoop]. by rewrite same_day, IH.
Qed.

End SameDays.

(** X25: the time of day of the start and of the end plays no part in
    the generated weeks and in the week picker, and none in the
    statistics either unless it decides whether the start is after the
    end: two ranges whose starts fall on the same day and whose ends fall
    on the same day give the same results. *)
Theorem time_of_day_ignored (newDate : string -> Date) (s e s' e' : Z)
    (blockedDates : list BlockedDate.t) (blockedWeeks : list BlockedWeek.t) :
  dayIndex s = dayIndex s' -> dayIndex e = dayIndex e' ->
  generateEmptyWeeks newDate (Time s) (Time e) blockedDates blockedWeeks
  = generateEmptyWeeks newDate (Time s') (Time e') blockedDates blockedWeeks
  /\ getWeekDateRanges (Time s) (Time e) = getWeekDateRanges (Time s') (Time e')
  /\ (isAfter s e = isAfter s' e' ->
      calculateInstructionalStats newDate (Time s) (Time e) blockedDates blockedWeeks
      = calculateInstructionalStats newDate (Time s') (Time e')
          blockedDates blockedWeeks).
Proof.
  intros Hs He.
  assert (Hstart : startOfDay s = startOfDay s')
    by by rewrite !startOfDay_dayIndex, Hs.
  assert (Hend : endOfDay e = endOfDay e')
    by (unfold endOfDay; by rewrite !startOfDay_dayIndex, He).
  assert (Hfirst : firstSundayOf s = firstSundayOf s')
    by (unfold firstSundayOf; by rewrite Hstart).
  split; [|split].
  - unfold generateEmptyWeeks, generateEmptyWeeksRaw.
    by rewrite Hend, Hfirst, (weeksLoop_start newDate s s' _ _ _ Hstart).
  - unfold getWeekDateRanges.
    by rewrite Hend, Hfirst, (rangesLoop_start s s' _ Hstart).
  - intros Hguard. unfold calculateInstructionalStats. rewrite Hguard.
    destruct (isAfter s' e'); [done|].
    assert (Heq : availableDays newDate s e blockedDates blockedWeeks
                  = availableDays newDate s' e' blockedDates blockedWeeks).
    { unfold availableDays, eachDayOfInterval, isAvailable, getWeekNum.
      by rewrite Hstart, Hend, Hfirst. }
    by rewrite Heq.
Qed.

Lemma time_of_day_ignored_witness :
  generateEmptyWeeks hostDate (Time (sep 1 + 32400000)) (Time (sep 12 + 61200000))
    [examSep3] [secondWeekOff]
  = generateEmptyWeeks hostDate (Time (sep 1)) (Time (sep 12)) [examSep3] [secondWeekOff]
  /\ getWeekDateRanges (Time (sep 1 + 32400000)) (Time (sep 12 + 61200000))
     = getWeekDateRanges (Time (sep 1)) (Time (sep 12))
  /\ calculateInstructionalStats hostDate (Time (sep 1 + 32400000))
       (Time (sep 12 + 61200000)) [examSep3] [secondWeekOff]
     = calculateInstructionalStats hostDate (Time (sep 1)) (Time (sep 12))
         [examSep3] [secondWeekOff].
Proof.
  destruct (time_of_day_ignored hostDate (sep 1 + 32400000) (sep 12 + 61200000)
              (sep 1) (sep 12) [examSep3] [secondWeekOff] eq_refl eq_refl)
    as (Hweeks & Hranges & Hstats).
  split; [exact Hweeks|]. split; [exact Hranges|]. apply Hstats. reflexivity.
Defined.

(** X26: when the end falls on an earlier day than the start, the
    statistics are zero and no week is generated, but the week picker
    still lists raw week 1, from its Sunday to its Thursday, when the
    start is a Sunday to Thursday and the end is not before the Sunday of
    that week; otherwise it lists nothing. *)
Theorem end_on_earlier_day (newDate : string -> Date) (s e : Z)
    (blockedDates : list BlockedDate.t) (blockedWeeks : list BlockedWeek.t) :
  dayIndex e < dayIndex s ->
  calculateInstructionalStats newDate (Time s) (Time e) blockedDates blockedWeeks
  = mkStats 0 0
  /\ generateEmptyWeeks newDate (Time s) (Time e) blockedDates blockedWeeks = []
  /\ getWeekDateRanges (Time s) (Time e)
     = if (sunday0 s <=? dayIndex e) && (getDay s <=? 4) then
         [ {| weekNumber := 1;
              range := (format_MMMd (sunday0 s * MS_PER_DAY) +:+ " - "
                        +:+ format_MMMd ((sunday0 s + 4) * MS_PER_DAY))%string |} ]
       else [].
Proof.
  intros Hlt. split; [|split].
  - apply inverted_range_stats.
    destruct (Z.lt_ge_cases e s) as [|Hle]; [done|].
    apply dayIndex_mono in Hle. lia.
  - by apply generateEmptyWeeks_earlier_day.
  - rewrite <- (getWeekDateRanges_fuel s e 2), Nat.add_comm. cbn [Nat.add].
    rewrite firstSundayOf_sunday0. change 1 with (1 + 0) at 1.
    rewrite !rangesLoop_unfold.
    pose proof (sunday0_le s) as Hs0.
    replace (sunday0 s + 7 * (0 + 1) <=? dayIndex e) with false
      by (symmetry; apply Z.leb_gt; lia).
    rewrite app_nil_r.
    replace (sunday0 s + 7 * 0) with (sunday0 s) by lia.
    destruct (Z.leb_spec (sunday0 s) (dayIndex e)) as [Hle|Hgt]; [|done].
    cbn [andb]. unfold sunday0 at 1.
    destruct (Z.leb_spec (getDay s) 4) as [Hday|Hday].
    + by replace (dayIndex s - getDay s + 4 <? dayIndex s) with false
        by (symmetry; apply Z.ltb_ge; lia).
    + by replace (dayIndex s - getDay s + 4 <? dayIndex s) with true
        by (symmetry; apply Z.ltb_lt; lia).
Qed.

Lemma end_on_earlier_day_witness :
  calculateInstructionalStats hostDate (Time (sep 4)) (Time (sep 2)) [] []
  = mkStats 0 0
  /\ generateEmptyWeeks hostDate (Time (sep 4)) (Time (sep 2)) [] [] = []
  /\ getWeekDateRanges (Time (sep 4)) (Time (sep 2))
     = [ {| weekNumber := 1; range := "Sep 1 - Sep 5" |} ].
Proof.
  destruct (end_on_earlier_day hostDate (sep 4) (sep 2) [] [])
    as (Hstats & Hweeks & Hranges); [vm_compute; reflexivity|].
  split; [exact Hstats|]. split; [exact Hweeks|].
  etrans; [exact Hranges|]. vm_compute. reflexivity.
Defined.

(** ** The day plans as they are generated *)

Lemma generated_day (newDate : string -> Date) (start end_ : Date)
    (blockedDates : list BlockedDate.t) (blockedWeeks : list BlockedWeek.t)
    (d : DayPlan.t) :
  d ∈ flat_map WeekPlan.days
        (generateEmptyWeeks newDate start end_ blockedDates blockedWeeks) ->
  exists s wb W i,
    start = Time s /\ 0 <= i < 5 /\ (W + 4) mod 7 = 0
    /\ d = dayPlanAt newDate blockedDates wb ((W + i) * MS_PER_DAY).
Proof.
  intros Hd. apply list_elem_of_In, in_flat_map in Hd as (w & Hw & Hd).
  apply list_elem_of_In in Hw, Hd. unfold generateEmptyWeeks in Hw.
  apply list_elem_of_fmap in Hw as ([r w'] & -> & Hw).
  destruct start as [|s]; [by apply elem_of_nil in Hw|].
  destruct end_ as [|e]; [by apply elem_of_nil in Hw|].
  apply generateEmptyWeeksRaw_elem in Hw as (_ & _ & c & Hw).
  destruct (weekOf_day _ _ _ _ _ _ _ _ _ Hw Hd) as (i & Hi & _ & ->).
  exists s, (List.find (matchesWeek r) blockedWeeks), (sunday0 s + 7 * (r - 1)), i.
  split; [done|]. split; [done|]. split; [apply sunday0_sunday|done].
Qed.

(** X27: the day name of a generated day plan is the name of the weekday
    of its date, and is one of Sunday to Thursday. *)
Theorem generateEmptyWeeks_dayName (newDate : string -> Date) (start end_ : Date)
    (blockedDates : list BlockedDate.t) (blockedWeeks : list BlockedWeek.t) :
  Forall (fun d =>
            dayNames !! Z.to_nat (getDay (DayPlan.date d)) = Some (DayPlan.dayName d)
            /\ DayPlan.dayName d
               ∈ ["Sunday"; "Monday"; "Tuesday"; "Wednesday"; "Thursday"]%string)
         (flat_map WeekPlan.days
            (generateEmptyWeeks newDate start end_ blockedDates blockedWeeks)).
Proof.
  apply Forall_forall. intros d Hd.
  apply generated_day in Hd as (s & wb & W & i & _ & Hi & HW & ->).
  cbn [dayPlanAt DayPlan.date DayPlan.dayName]. unfold format_EEEE.
  rewrite getDay_mul.
  assert (Hday : (W + i + 4) mod 7 = i) by (Z.div_mod_to_equations; lia).
  rewrite Hday.
  assert (Hcases : i = 0 \/ i = 1 \/ i = 2 \/ i = 3 \/ i = 4) by lia.
  destruct Hcases as [-> | [-> | [-> | [-> | ->]]]]; (split; [done|]); cbn;
    repeat first [by left | right].
Qed.

Lemma withDays_days (w : WeekPlan.t) : withDays w (WeekPlan.days w) = w.
Proof. by destruct w. Qed.

Lemma withoutLesson_fresh (days : list DayPlan.t) :
  Forall (fun d => DayPlan.lessonId d = None /\ DayPlan.lessonName d = None) days ->
  withoutLesson <$> days = days.
Proof.
  induction 1 as [|d rest [Hid Hname] _ IH]; [done|].
  rewrite fmap_cons, IH. f_equal. destruct d. cbn in Hid, Hname. by subst.
Qed.

(** X28: the generated day plans carry no lesson, and distributing no
    lessons over the generated weeks returns them as they are. *)
Theorem generateEmptyWeeks_no_lesson (newDate : string -> Date) (start end_ : Date)
    (blockedDates : list BlockedDate.t) (blockedWeeks : list BlockedWeek.t) :
  let weeks := generateEmptyWeeks newDate start end_ blockedDates blockedWeeks in
  Forall (fun d => DayPlan.lessonId d = None /\ DayPlan.lessonName d = None)
         (flat_map WeekPlan.days weeks)
  /\ distributeLessons weeks [] = weeks.
Proof.
  intros weeks.
  assert (Hfresh : Forall (fun d => DayPlan.lessonId d = None
                                    /\ DayPlan.lessonName d = None)
                          (flat_map WeekPlan.days weeks)).
  { apply Forall_forall. intros d Hd.
    by apply generated_day in Hd as (s & wb & W & i & _ & _ & _ & ->). }
  split; [done|]. unfold distributeLessons.
  rewrite packWeeks_nothing by by left. cbn [snd].
  revert Hfresh. generalize weeks. clear. intros weeks.
  induction weeks as [|w rest IH]; intros Hfresh; [done|].
  cbn [flat_map] in Hfresh. apply Forall_app in Hfresh as [Hw Hrest].
  rewrite fmap_cons, IH by done. f_equal. unfold withoutLessons.
  rewrite withoutLesson_fresh by done. apply withDays_days.
Qed.
